(** * SuperOps MCP server: navigation, dispatch and request shaping

    A shallow embedding of the TypeScript sources [src/index.ts],
    [src/client.ts] and the five modules under [src/domains/], followed by
    the properties established about them.

    Conventions of the embedding.
    - A JavaScript value that JSON can carry is a [value]; numbers are the
      binary64 floats of the kernel, objects are association lists of their
      own properties in insertion order (none of them callable).
    - An [async] function is a computation [Exec A]: it takes the [World]
      (process state and environment) and gives a completion (a returned
      value or a thrown one) and the next world.  Handlers run one at a
      time, so [await] is plain sequencing.
    - The network is the field [network] of the world: an arbitrary
      function from the requests sent so far and the present request to
      what [fetch] does with it.
    - Four built-ins of the runtime are left abstract, gathered in a
      [Runtime]: the text [JSON.stringify (v, null, 2)] of a defined value,
      the text of a number, the number a string denotes, and
      [toUpperCase] on text that is not plain ASCII. *)

From Stdlib Require Import ZArith List String Ascii Bool Lia DecimalString.
From Corelib Require Import PrimFloat FloatClass.
Import ListNotations.
Local Open Scope Z_scope.
Local Open Scope string_scope.
Set Warnings "-register-all".

(** ** JavaScript values *)

Inductive value : Type :=
| VUndefined
| VNull
| VBool (b : bool)
| VNum (f : float)
| VStr (s : string)
| VArr (items : list value)
| VObj (props : list (string * value)).

(** An object: own enumerable string-keyed properties, in insertion order. *)
Definition obj : Type := list (string * value).

Definition num (f : float) : value := VNum f.

(** [o.k] on an object: the property's value, [undefined] when absent. *)
Fixpoint lookup (k : string) (o : obj) : option value :=
  match o with
  | [] => None
  | (k', v) :: o' => if k' =? k then Some v else lookup k o'
  end.

Definition prop (o : obj) (k : string) : value :=
  match lookup k o with
  | Some v => v
  | None => VUndefined
  end.

Definition has_key (k : string) (o : obj) : bool :=
  match lookup k o with
  | Some _ => true
  | None => false
  end.

(** [o.k = v]: overwrite in place, or append a new property. *)
Fixpoint set_prop (o : obj) (k : string) (v : value) : obj :=
  match o with
  | [] => [(k, v)]
  | (k', v') :: o' =>
      if k' =? k then (k', v) :: o' else (k', v') :: set_prop o' k v
  end.

Definition Object_keys (o : obj) : list string := map fst o.

(** [v.k] on any value that is neither [null] nor [undefined], for the keys
    the sources read this way: none of them is [length], an index, or a
    property of a prototype, so only an object can have one. *)
Definition member (v : value) (k : string) : value :=
  match v with
  | VObj o => prop o k
  | _ => VUndefined
  end.

(** ToBoolean: zero (of either sign) and NaN are the falsy numbers. *)
Definition truthy (v : value) : bool :=
  match v with
  | VUndefined | VNull => false
  | VBool b => b
  | VNum f => negb (PrimFloat.eqb f 0 || is_nan f)
  | VStr s => negb (s =? "")
  | VArr _ | VObj _ => true
  end.

(** [a && b], [a ?? b] and [a !== false]. *)
Definition JSand (a b : value) : value := if truthy a then b else a.

Definition nullish (a b : value) : value :=
  match a with
  | VUndefined | VNull => b
  | _ => a
  end.

Definition not_false (a : value) : bool :=
  match a with
  | VBool false => false
  | _ => true
  end.

(** [Math.min] of two numbers: NaN if either is, and [-0] below [+0]. *)
Definition Math_min_float (a b : float) : float :=
  if is_nan a || is_nan b then nan
  else if PrimFloat.ltb a b then a
  else if PrimFloat.ltb b a then b
  else match classify a with
       | NZero => a
       | _ => b
       end.

(** Decimal text of an integer: an HTTP status, an array index. *)
Definition Z_to_string (z : Z) : string := NilZero.string_of_int (Z.to_int z).
Definition nat_to_string (n : nat) : string := Z_to_string (Z.of_nat n).

(** [Array.prototype.join]. *)
Fixpoint join (sep : string) (l : list string) : string :=
  match l with
  | [] => ""
  | [s] => s
  | s :: l' => s ++ sep ++ join sep l'
  end.

(** [String.prototype.toUpperCase] on plain ASCII text. *)
Definition upper_ascii (c : ascii) : ascii :=
  let n := nat_of_ascii c in
  if ((97 <=? n) && (n <=? 122))%nat then ascii_of_nat (n - 32) else c.

Fixpoint upper_ascii_string (s : string) : string :=
  match s with
  | EmptyString => EmptyString
  | String c s' => String (upper_ascii c) (upper_ascii_string s')
  end.

Definition is_ascii (s : string) : bool :=
  forallb (fun c => (nat_of_ascii c <? 128)%nat) (list_ascii_of_string s).

(** The own enumerable properties that [{...v}] copies: those of an object,
    the indexed elements of an array or of a string, none of any other
    value. The sources spread only object literals and falsy values. *)
Fixpoint indexed {A : Type} (i : nat) (l : list A) : list (nat * A) :=
  match l with
  | [] => []
  | x :: l' => (i, x) :: indexed (S i) l'
  end.

Definition own_props (v : value) : obj :=
  match v with
  | VObj o => o
  | VArr l => map (fun p => (nat_to_string (fst p), snd p)) (indexed 0 l)
  | VStr s =>
      map (fun p => (nat_to_string (fst p), VStr (String (snd p) EmptyString)))
          (indexed 0 (list_ascii_of_string s))
  | _ => []
  end.

(** [{...o, ...v}]. *)
Definition spread (o : obj) (v : value) : obj :=
  fold_left (fun acc p => set_prop acc (fst p) (snd p)) (own_props v) o.

(** The built-ins of the runtime that stay abstract. [Number_toString] is
    the text of a number ([Number::toString]), [StringToNumber] the number a
    string denotes, [toUpperCase_wide] is [String.prototype.toUpperCase] on
    text that is not plain ASCII, and [JSON_stringify v] the text of
    [JSON.stringify (v, null, 2)] for a defined [v]. *)
Record Runtime : Type := {
  JSON_stringify : value -> string;
  Number_toString : float -> string;
  StringToNumber : string -> float;
  toUpperCase_wide : string -> string
}.

(** ** Thrown values, completions and the world *)

(** An instance of [Error]. [SuperOpsError] extends it with a code and a
    retry-after hint, [undefined] when not given. *)
Record ErrorObject : Type := {
  error_name : string;
  error_message : string;
  error_code : value;
  error_retryAfter : value
}.

Definition new_Error (msg : string) : ErrorObject :=
  {| error_name := "Error"; error_message := msg;
     error_code := VUndefined; error_retryAfter := VUndefined |}.

Definition new_TypeError (msg : string) : ErrorObject :=
  {| error_name := "TypeError"; error_message := msg;
     error_code := VUndefined; error_retryAfter := VUndefined |}.

(** What a [throw] or a rejected promise carries: an instance of [Error],
    or any other value. *)
Inductive thrown : Type :=
| ThrownError (e : ErrorObject)
| ThrownValue (v : value).

Inductive Completion (A : Type) : Type :=
| Returned (a : A)
| Threw (t : thrown).
Arguments Returned {A} a.
Arguments Threw {A} t.

(** [types.ts] *)
Inductive Domain : Type := clients | tickets | assets | technicians | custom.

Definition Domain_eqb (a b : Domain) : bool :=
  match a, b with
  | clients, clients | tickets, tickets | assets, assets
  | technicians, technicians | custom, custom => true
  | _, _ => false
  end.

Definition domain_name (d : Domain) : string :=
  match d with
  | clients => "clients"
  | tickets => "tickets"
  | assets => "assets"
  | technicians => "technicians"
  | custom => "custom"
  end.

Record SuperOpsCredentials : Type := {
  apiToken : string;
  subdomain : string;
  region : option string
}.

Record ToolDefinition : Type := {
  name : string;
  description : string;
  inputSchema : value
}.

(** One content block; [None] as text is [undefined]. *)
Record ContentBlock : Type := {
  type_ : string;
  text : option string
}.

(** The result of a tool call; [isError] is [None] when the key is absent. *)
Record CallToolResult : Type := {
  content : list ContentBlock;
  isError : option bool
}.

Definition text_result (t : option string) : CallToolResult :=
  {| content := [ {| type_ := "text"; text := t |} ]; isError := None |}.

Definition error_result (t : string) : CallToolResult :=
  {| content := [ {| type_ := "text"; text := Some t |} ]; isError := Some true |}.

(** [process.env]; an unset variable is [None]. *)
Record Env : Type := {
  SUPEROPS_API_TOKEN : option string;
  SUPEROPS_SUBDOMAIN : option string;
  SUPEROPS_REGION : option string
}.

(** What [API_ENDPOINTS[region]] gives: one of the two URLs of the table,
    a member that the table inherits from [Object.prototype] (a function,
    or the prototype itself), or [undefined]. *)
Inductive endpoint : Type :=
| Url (s : string)
| Inherited (key : string)
| NoEndpoint.

(** The instance fields of [SuperOpsClient]. *)
Record SuperOpsClient : Type := {
  client_apiToken : string;
  client_subdomain : string;
  client_endpoint : endpoint
}.

(** The call [fetch (endpoint, {method: POST, headers, body})]; the body is
    kept as the pair that [JSON.stringify ({query, variables})] serialises. *)
Record HttpRequest : Type := {
  url : endpoint;
  hdr_ContentType : string;
  hdr_Authorization : string;
  hdr_CustomerSubDomain : string;
  body_query : value;
  body_variables : value
}.

(** What [response.json ()] settles to: any value that JSON text denotes,
    or a rejection. *)
Inductive JsonOutcome : Type :=
| JsonParsed (result : value)
| JsonRejected (t : thrown).

(** What [fetch] settles to; [status] is the integer status code of the
    response. *)
Inductive FetchOutcome : Type :=
| FetchRejected (t : thrown)
| FetchResponded (status : Z) (statusText : string) (body : JsonOutcome).

(** [Response.ok]. *)
Definition response_ok (status : Z) : bool := ((200 <=? status) && (status <=? 299))%Z.

(** Module-level state of [index.ts] and [client.ts], the environment, and
    the log of the requests sent (oldest first). *)
Record World : Type := {
  env : Env;
  network : list HttpRequest -> HttpRequest -> FetchOutcome;
  currentDomain : option Domain;
  domainCache : list Domain;
  _client : option SuperOpsClient;
  sent : list HttpRequest
}.

Definition set_currentDomain (d : option Domain) (w : World) : World :=
  {| env := env w; network := network w; currentDomain := d;
     domainCache := domainCache w; _client := _client w; sent := sent w |}.

Definition set_domainCache (c : list Domain) (w : World) : World :=
  {| env := env w; network := network w; currentDomain := currentDomain w;
     domainCache := c; _client := _client w; sent := sent w |}.

Definition set_client (c : option SuperOpsClient) (w : World) : World :=
  {| env := env w; network := network w; currentDomain := currentDomain w;
     domainCache := domainCache w; _client := c; sent := sent w |}.

Definition set_sent (l : list HttpRequest) (w : World) : World :=
  {| env := env w; network := network w; currentDomain := currentDomain w;
     domainCache := domainCache w; _client := _client w; sent := l |}.

(** ** Computations *)

Definition Exec (A : Type) : Type := World -> Completion A * World.

Definition ret {A : Type} (a : A) : Exec A := fun w => (Returned a, w).

Definition throw {A : Type} (t : thrown) : Exec A := fun w => (Threw t, w).

Definition bind {A B : Type} (c : Exec A) (k : A -> Exec B) : Exec B :=
  fun w =>
    match c w with
    | (Returned a, w') => k a w'
    | (Threw t, w') => (Threw t, w')
    end.

(** [try { c } catch (error) { h error }] *)
Definition try_catch {A : Type} (c : Exec A) (h : thrown -> Exec A) : Exec A :=
  fun w =>
    match c w with
    | (Returned a, w') => (Returned a, w')
    | (Threw t, w') => h t w'
    end.

Definition read {A : Type} (f : World -> A) : Exec A := fun w => (Returned (f w), w).

Definition write (f : World -> World) : Exec unit := fun w => (Returned tt, f w).

(** A step that touches no state. *)
Definition lift {A : Type} (c : Completion A) : Exec A := fun w => (c, w).

Definition cbind {A B : Type} (c : Completion A) (k : A -> Completion B) : Completion B :=
  match c with
  | Returned a => k a
  | Threw t => Threw t
  end.

Notation "x <- c ;; k" := (bind c (fun x => k))
  (at level 61, c at next level, right associativity).
Notation "c ;;; k" := (bind c (fun _ => k))
  (at level 61, right associativity).
Notation "x <~ c ;; k" := (cbind c (fun x => k))
  (at level 61, c at next level, right associativity).

(** ** client.ts, up to the request *)

(** The names that a plain object inherits from [Object.prototype]. *)
Definition Object_prototype_keys : list string :=
  ["constructor"; "__defineGetter__"; "__defineSetter__"; "hasOwnProperty";
   "__lookupGetter__"; "__lookupSetter__"; "isPrototypeOf"; "propertyIsEnumerable";
   "toString"; "valueOf"; "__proto__"; "toLocaleString"].

Definition API_ENDPOINTS (r : string) : endpoint :=
  if r =? "us" then Url "https://api.superops.ai/msp"
  else if r =? "eu" then Url "https://euapi.superops.ai/msp"
  else if existsb (String.eqb r) Object_prototype_keys then Inherited r
  else NoEndpoint.

Definition new_SuperOpsClient (credentials : SuperOpsCredentials) : SuperOpsClient :=
  {| client_apiToken := apiToken credentials;
     client_subdomain := subdomain credentials;
     client_endpoint :=
       API_ENDPOINTS (match region credentials with Some r => r | None => "us" end) |}.

(** [!s] on an environment variable. *)
Definition unset (s : option string) : bool :=
  match s with
  | None => true
  | Some s => s =? ""
  end.

Definition getCredentials (e : Env) : option SuperOpsCredentials :=
  let apiToken := SUPEROPS_API_TOKEN e in
  let subdomain := SUPEROPS_SUBDOMAIN e in
  let region := SUPEROPS_REGION e in
  if unset apiToken || unset subdomain then None
  else
    match apiToken, subdomain with
    | Some apiToken, Some subdomain =>
        Some {| apiToken := apiToken; subdomain := subdomain; region := region |}
    | _, _ => None
    end.

Definition getClient : Exec SuperOpsClient :=
  cached <- read _client ;;
  match cached with
  | Some c => ret c
  | None =>
      creds <- read (fun w => getCredentials (env w)) ;;
      match creds with
      | None =>
          throw (ThrownError (new_Error
            "SuperOps credentials not configured. Set SUPEROPS_API_TOKEN and SUPEROPS_SUBDOMAIN environment variables."))
      | Some creds =>
          let c := new_SuperOpsClient creds in
          write (set_client (Some c)) ;;;
          ret c
      end
  end.

Definition resetClient : Exec unit := write (set_client None).

Definition build_request (c : SuperOpsClient) (query variables : value) : HttpRequest :=
  {| url := client_endpoint c;
     hdr_ContentType := "application/json";
     hdr_Authorization := "Bearer " ++ client_apiToken c;
     hdr_CustomerSubDomain := client_subdomain c;
     body_query := query;
     body_variables := variables |}.

(** [await fetch (...)]: the request is logged and the network answers. *)
Definition fetch (req : HttpRequest) : Exec FetchOutcome :=
  fun w => (Returned (network w (sent w) req), set_sent (sent w ++ [req])%list w).

(** ** GraphQL documents and tool catalogs *)

Definition LIST_CLIENTS_QUERY : string :=
"
  query getClientList($input: ListInfoInput!) {
    getClientList(input: $input) {
      clients {
        accountId
        name
        stage
        status
        emailDomains
        phone
        website
        industry
        employeeCount
        accountManager {
          id
          name
          email
        }
        primaryContact {
          id
          name
          email
        }
        createdTime
        lastUpdatedTime
      }
      listInfo {
        totalCount
        hasNextPage
        endCursor
      }
    }
  }
".

Definition GET_CLIENT_QUERY : string :=
"
  query getClient($input: ClientIdentifierInput!) {
    getClient(input: $input) {
      accountId
      name
      stage
      status
      emailDomains
      website
      phone
      industry
      employeeCount
      annualRevenue
      address {
        street
        city
        state
        country
        postalCode
      }
      accountManager {
        id
        name
        email
        phone
      }
      primaryContact {
        id
        name
        email
        phone
      }
      sites {
        id
        name
        isDefault
      }
      customFields {
        name
        value
      }
      createdTime
      lastUpdatedTime
    }
  }
".

Definition SEARCH_CLIENTS_QUERY : string :=
"
  query searchClients($input: ListInfoInput!) {
    getClientList(input: $input) {
      clients {
        accountId
        name
        emailDomains
        status
        stage
        phone
      }
      listInfo {
        totalCount
        hasNextPage
        endCursor
      }
    }
  }
".

Definition LIST_TICKETS_QUERY : string :=
"
  query getTicketList($input: ListInfoInput!) {
    getTicketList(input: $input) {
      tickets {
        ticketId
        ticketNumber
        subject
        status
        priority
        createdTime
        lastUpdatedTime
        client {
          accountId
          name
        }
        assignee {
          id
          name
        }
        requester {
          id
          name
          email
        }
      }
      listInfo {
        totalCount
        hasNextPage
        endCursor
      }
    }
  }
".

Definition GET_TICKET_QUERY : string :=
"
  query getTicket($input: TicketIdentifierInput!) {
    getTicket(input: $input) {
      ticketId
      ticketNumber
      subject
      description
      status
      priority
      impact
      urgency
      createdTime
      lastUpdatedTime
      client {
        accountId
        name
      }
      site {
        id
        name
      }
      requester {
        id
        name
        email
        phone
      }
      assignee {
        id
        name
        email
      }
      techGroup {
        id
        name
      }
      category {
        id
        name
      }
      customFields {
        name
        value
      }
    }
  }
".

Definition CREATE_TICKET_MUTATION : string :=
"
  mutation createTicket($input: CreateTicketInput!) {
    createTicket(input: $input) {
      ticketId
      ticketNumber
      subject
      status
      priority
      createdTime
      client {
        accountId
        name
      }
      assignee {
        id
        name
      }
    }
  }
".

Definition UPDATE_TICKET_MUTATION : string :=
"
  mutation updateTicket($input: UpdateTicketInput!) {
    updateTicket(input: $input) {
      ticketId
      ticketNumber
      status
      priority
      assignee {
        id
        name
      }
      lastUpdatedTime
    }
  }
".

Definition ADD_TICKET_NOTE_MUTATION : string :=
"
  mutation addTicketNote($input: AddTicketNoteInput!) {
    addTicketNote(input: $input) {
      noteId
      content
      createdTime
      isPublic
      createdBy {
        id
        name
      }
    }
  }
".

Definition ADD_TIME_ENTRY_MUTATION : string :=
"
  mutation addTicketTimeEntry($input: AddTimeEntryInput!) {
    addTicketTimeEntry(input: $input) {
      timeEntryId
      ticketId
      duration
      description
      technician {
        id
        name
      }
      createdTime
    }
  }
".

Definition LIST_ASSETS_QUERY : string :=
"
  query getAssetList($input: ListInfoInput!) {
    getAssetList(input: $input) {
      assets {
        assetId
        name
        status
        platform
        lastSeen
        ipAddress
        osName
        osVersion
        client {
          accountId
          name
        }
        site {
          id
          name
        }
        patchStatus {
          pendingCount
          installedCount
          failedCount
        }
      }
      listInfo {
        totalCount
        hasNextPage
        endCursor
      }
    }
  }
".

Definition GET_ASSET_QUERY : string :=
"
  query getAsset($input: AssetIdentifierInput!) {
    getAsset(input: $input) {
      assetId
      name
      status
      platform
      lastSeen
      ipAddress
      macAddress
      publicIp
      hostname
      manufacturer
      model
      serialNumber
      processorName
      processorCores
      totalMemory
      osName
      osVersion
      osBuild
      architecture
      totalDiskSpace
      freeDiskSpace
      client {
        accountId
        name
      }
      site {
        id
        name
      }
      tags
      customFields {
        name
        value
      }
      agentVersion
    }
  }
".

Definition GET_ASSET_SOFTWARE_QUERY : string :=
"
  query getAssetSoftwareList($input: AssetSoftwareListInput!) {
    getAssetSoftwareList(input: $input) {
      software {
        name
        version
        publisher
        installDate
        size
      }
      listInfo {
        totalCount
        hasNextPage
        endCursor
      }
    }
  }
".

Definition GET_ASSET_PATCHES_QUERY : string :=
"
  query getAssetPatchDetails($input: AssetPatchInput!) {
    getAssetPatchDetails(input: $input) {
      patches {
        patchId
        title
        severity
        status
        releaseDate
        kbNumber
        category
      }
      summary {
        pendingCount
        installedCount
        failedCount
        lastScanDate
      }
    }
  }
".

Definition LIST_TECHNICIANS_QUERY : string :=
"
  query getTechnicianList($input: ListInfoInput!) {
    getTechnicianList(input: $input) {
      technicians {
        id
        name
        email
        phone
        isActive
        role
        department
        teams {
          id
          name
        }
        ticketCount
        lastLoginTime
      }
      listInfo {
        totalCount
        hasNextPage
        endCursor
      }
    }
  }
".

Definition GET_TECHNICIAN_QUERY : string :=
"
  query getTechnician($input: TechnicianIdentifierInput!) {
    getTechnician(input: $input) {
      id
      name
      email
      phone
      isActive
      role
      department
      teams {
        id
        name
      }
      manager {
        id
        name
        email
      }
      skills
      ticketCount
      averageResponseTime
      lastLoginTime
      createdTime
    }
  }
".

Definition LIST_TECH_GROUPS_QUERY : string :=
"
  query getTechGroupList($input: ListInfoInput!) {
    getTechGroupList(input: $input) {
      techGroups {
        id
        name
        description
        memberCount
        members {
          id
          name
        }
      }
      listInfo {
        totalCount
        hasNextPage
      }
    }
  }
".

Definition superops_clients_list_tool : ToolDefinition :=
  {| name := "superops_clients_list";
     description := "List clients (accounts) in SuperOps.ai. Can filter by status, stage, or paginate through results.";
     inputSchema := VObj [
         ("type", VStr "object");
         ("properties", VObj [
           ("status", VObj [
             ("type", VStr "string");
             ("description", VStr "Filter by status: Active, Inactive, or Archived");
             ("enum", VArr [VStr "Active"; VStr "Inactive"; VStr "Archived"])]);
           ("stage", VObj [
             ("type", VStr "string");
             ("description", VStr "Filter by stage: Lead, Prospect, Customer, or Churned");
             ("enum", VArr [VStr "Lead"; VStr "Prospect"; VStr "Customer"; VStr "Churned"])]);
           ("max", VObj [
             ("type", VStr "number");
             ("description", VStr "Maximum number of results (default: 50, max: 500)");
             ("default", VNum 50)]);
           ("cursor", VObj [
             ("type", VStr "string");
             ("description", VStr "Pagination cursor for fetching next page")])])] |}.

Definition superops_clients_get_tool : ToolDefinition :=
  {| name := "superops_clients_get";
     description := "Get detailed information for a specific client by their account ID.";
     inputSchema := VObj [
         ("type", VStr "object");
         ("properties", VObj [
           ("accountId", VObj [
             ("type", VStr "string");
             ("description", VStr "The unique account ID of the client")])]);
         ("required", VArr [VStr "accountId"])] |}.

Definition superops_clients_search_tool : ToolDefinition :=
  {| name := "superops_clients_search";
     description := "Search for clients by name or email domain. Returns matching clients with basic information.";
     inputSchema := VObj [
         ("type", VStr "object");
         ("properties", VObj [
           ("query", VObj [
             ("type", VStr "string");
             ("description", VStr "Search term to find clients by name or email domain")]);
           ("max", VObj [
             ("type", VStr "number");
             ("description", VStr "Maximum number of results (default: 20)");
             ("default", VNum 20)])]);
         ("required", VArr [VStr "query"])] |}.

Definition clients_tools : list ToolDefinition :=
  [superops_clients_list_tool;
   superops_clients_get_tool;
   superops_clients_search_tool].

Definition superops_tickets_list_tool : ToolDefinition :=
  {| name := "superops_tickets_list";
     description := "List tickets in SuperOps.ai. Can filter by status, priority, client, or assignee.";
     inputSchema := VObj [
         ("type", VStr "object");
         ("properties", VObj [
           ("status", VObj [
             ("type", VStr "array");
             ("items", VObj [
               ("type", VStr "string")]);
             ("description", VStr "Filter by status(es): Open, In Progress, Pending, Resolved, Closed")]);
           ("priority", VObj [
             ("type", VStr "array");
             ("items", VObj [
               ("type", VStr "string")]);
             ("description", VStr "Filter by priority(ies): Low, Medium, High, Critical")]);
           ("clientId", VObj [
             ("type", VStr "string");
             ("description", VStr "Filter by client account ID")]);
           ("assigneeId", VObj [
             ("type", VStr "string");
             ("description", VStr "Filter by assigned technician ID")]);
           ("unassigned", VObj [
             ("type", VStr "boolean");
             ("description", VStr "Show only unassigned tickets")]);
           ("max", VObj [
             ("type", VStr "number");
             ("description", VStr "Maximum number of results (default: 50, max: 500)");
             ("default", VNum 50)]);
           ("cursor", VObj [
             ("type", VStr "string");
             ("description", VStr "Pagination cursor for fetching next page")])])] |}.

Definition superops_tickets_get_tool : ToolDefinition :=
  {| name := "superops_tickets_get";
     description := "Get detailed information for a specific ticket by its ID.";
     inputSchema := VObj [
         ("type", VStr "object");
         ("properties", VObj [
           ("ticketId", VObj [
             ("type", VStr "string");
             ("description", VStr "The unique ticket ID")])]);
         ("required", VArr [VStr "ticketId"])] |}.

Definition superops_tickets_create_tool : ToolDefinition :=
  {| name := "superops_tickets_create";
     description := "Create a new ticket in SuperOps.ai.";
     inputSchema := VObj [
         ("type", VStr "object");
         ("properties", VObj [
           ("subject", VObj [
             ("type", VStr "string");
             ("description", VStr "Ticket subject/title")]);
           ("description", VObj [
             ("type", VStr "string");
             ("description", VStr "Detailed description of the issue")]);
           ("clientId", VObj [
             ("type", VStr "string");
             ("description", VStr "Client account ID")]);
           ("priority", VObj [
             ("type", VStr "string");
             ("description", VStr "Ticket priority: Low, Medium, High, or Critical");
             ("enum", VArr [VStr "Low"; VStr "Medium"; VStr "High"; VStr "Critical"])]);
           ("requesterEmail", VObj [
             ("type", VStr "string");
             ("description", VStr "Email of the person reporting the issue")]);
           ("techGroupName", VObj [
             ("type", VStr "string");
             ("description", VStr "Name of the technician group to assign")]);
           ("categoryName", VObj [
             ("type", VStr "string");
             ("description", VStr "Service category name")])]);
         ("required", VArr [VStr "subject"; VStr "clientId"])] |}.

Definition superops_tickets_update_tool : ToolDefinition :=
  {| name := "superops_tickets_update";
     description := "Update an existing ticket - change status, priority, assignment, or add resolution.";
     inputSchema := VObj [
         ("type", VStr "object");
         ("properties", VObj [
           ("ticketId", VObj [
             ("type", VStr "string");
             ("description", VStr "The ticket ID to update")]);
           ("status", VObj [
             ("type", VStr "string");
             ("description", VStr "New status: Open, In Progress, Pending, Resolved, Closed");
             ("enum", VArr [VStr "Open"; VStr "In Progress"; VStr "Pending"; VStr "Resolved"; VStr "Closed"])]);
           ("priority", VObj [
             ("type", VStr "string");
             ("description", VStr "New priority: Low, Medium, High, Critical");
             ("enum", VArr [VStr "Low"; VStr "Medium"; VStr "High"; VStr "Critical"])]);
           ("assigneeId", VObj [
             ("type", VStr "string");
             ("description", VStr "ID of technician to assign")]);
           ("techGroupName", VObj [
             ("type", VStr "string");
             ("description", VStr "Name of technician group to assign")]);
           ("resolution", VObj [
             ("type", VStr "string");
             ("description", VStr "Resolution notes (for resolving/closing tickets)")])]);
         ("required", VArr [VStr "ticketId"])] |}.

Definition superops_tickets_add_note_tool : ToolDefinition :=
  {| name := "superops_tickets_add_note";
     description := "Add a note to a ticket. Can be internal or public (visible to client).";
     inputSchema := VObj [
         ("type", VStr "object");
         ("properties", VObj [
           ("ticketId", VObj [
             ("type", VStr "string");
             ("description", VStr "The ticket ID")]);
           ("content", VObj [
             ("type", VStr "string");
             ("description", VStr "Note content")]);
           ("isPublic", VObj [
             ("type", VStr "boolean");
             ("description", VStr "Whether the note is visible to the client (default: false)");
             ("default", VBool false)])]);
         ("required", VArr [VStr "ticketId"; VStr "content"])] |}.

Definition superops_tickets_log_time_tool : ToolDefinition :=
  {| name := "superops_tickets_log_time";
     description := "Log time spent on a ticket.";
     inputSchema := VObj [
         ("type", VStr "object");
         ("properties", VObj [
           ("ticketId", VObj [
             ("type", VStr "string");
             ("description", VStr "The ticket ID")]);
           ("duration", VObj [
             ("type", VStr "number");
             ("description", VStr "Time spent in minutes")]);
           ("description", VObj [
             ("type", VStr "string");
             ("description", VStr "Description of work performed")]);
           ("workType", VObj [
             ("type", VStr "string");
             ("description", VStr "Type of work (e.g., Remote Support, On-site, Phone)")]);
           ("billable", VObj [
             ("type", VStr "boolean");
             ("description", VStr "Whether the time is billable (default: true)");
             ("default", VBool true)])]);
         ("required", VArr [VStr "ticketId"; VStr "duration"])] |}.

Definition tickets_tools : list ToolDefinition :=
  [superops_tickets_list_tool;
   superops_tickets_get_tool;
   superops_tickets_create_tool;
   superops_tickets_update_tool;
   superops_tickets_add_note_tool;
   superops_tickets_log_time_tool].

Definition superops_assets_list_tool : ToolDefinition :=
  {| name := "superops_assets_list";
     description := "List assets (endpoints) in SuperOps.ai RMM. Can filter by status, platform, or client.";
     inputSchema := VObj [
         ("type", VStr "object");
         ("properties", VObj [
           ("status", VObj [
             ("type", VStr "string");
             ("description", VStr "Filter by status: Online, Offline, or Maintenance");
             ("enum", VArr [VStr "Online"; VStr "Offline"; VStr "Maintenance"])]);
           ("platform", VObj [
             ("type", VStr "string");
             ("description", VStr "Filter by platform: Windows, macOS, or Linux");
             ("enum", VArr [VStr "Windows"; VStr "macOS"; VStr "Linux"])]);
           ("clientId", VObj [
             ("type", VStr "string");
             ("description", VStr "Filter by client account ID")]);
           ("max", VObj [
             ("type", VStr "number");
             ("description", VStr "Maximum number of results (default: 100, max: 500)");
             ("default", VNum 100)]);
           ("cursor", VObj [
             ("type", VStr "string");
             ("description", VStr "Pagination cursor for fetching next page")])])] |}.

Definition superops_assets_get_tool : ToolDefinition :=
  {| name := "superops_assets_get";
     description := "Get detailed information for a specific asset including hardware, OS, and network details.";
     inputSchema := VObj [
         ("type", VStr "object");
         ("properties", VObj [
           ("assetId", VObj [
             ("type", VStr "string");
             ("description", VStr "The unique asset ID")])]);
         ("required", VArr [VStr "assetId"])] |}.

Definition superops_assets_software_tool : ToolDefinition :=
  {| name := "superops_assets_software";
     description := "Get the software inventory for a specific asset.";
     inputSchema := VObj [
         ("type", VStr "object");
         ("properties", VObj [
           ("assetId", VObj [
             ("type", VStr "string");
             ("description", VStr "The unique asset ID")]);
           ("search", VObj [
             ("type", VStr "string");
             ("description", VStr "Search term to filter software by name")]);
           ("max", VObj [
             ("type", VStr "number");
             ("description", VStr "Maximum number of results (default: 100)");
             ("default", VNum 100)])]);
         ("required", VArr [VStr "assetId"])] |}.

Definition superops_assets_patches_tool : ToolDefinition :=
  {| name := "superops_assets_patches";
     description := "Get patch status and pending patches for a specific asset.";
     inputSchema := VObj [
         ("type", VStr "object");
         ("properties", VObj [
           ("assetId", VObj [
             ("type", VStr "string");
             ("description", VStr "The unique asset ID")]);
           ("status", VObj [
             ("type", VStr "string");
             ("description", VStr "Filter patches by status: Pending, Installed, or Failed");
             ("enum", VArr [VStr "Pending"; VStr "Installed"; VStr "Failed"])]);
           ("severity", VObj [
             ("type", VStr "array");
             ("items", VObj [
               ("type", VStr "string")]);
             ("description", VStr "Filter by severity levels: Critical, Important, Moderate, Low")])]);
         ("required", VArr [VStr "assetId"])] |}.

Definition assets_tools : list ToolDefinition :=
  [superops_assets_list_tool;
   superops_assets_get_tool;
   superops_assets_software_tool;
   superops_assets_patches_tool].

Definition superops_technicians_list_tool : ToolDefinition :=
  {| name := "superops_technicians_list";
     description := "List technicians (agents) in SuperOps.ai. Can filter by active status or team.";
     inputSchema := VObj [
         ("type", VStr "object");
         ("properties", VObj [
           ("activeOnly", VObj [
             ("type", VStr "boolean");
             ("description", VStr "Show only active technicians (default: true)");
             ("default", VBool true)]);
           ("teamId", VObj [
             ("type", VStr "string");
             ("description", VStr "Filter by team/group ID")]);
           ("max", VObj [
             ("type", VStr "number");
             ("description", VStr "Maximum number of results (default: 50, max: 500)");
             ("default", VNum 50)]);
           ("cursor", VObj [
             ("type", VStr "string");
             ("description", VStr "Pagination cursor for fetching next page")])])] |}.

Definition superops_technicians_get_tool : ToolDefinition :=
  {| name := "superops_technicians_get";
     description := "Get detailed information for a specific technician by their ID.";
     inputSchema := VObj [
         ("type", VStr "object");
         ("properties", VObj [
           ("technicianId", VObj [
             ("type", VStr "string");
             ("description", VStr "The unique technician ID")])]);
         ("required", VArr [VStr "technicianId"])] |}.

Definition superops_technicians_groups_tool : ToolDefinition :=
  {| name := "superops_technicians_groups";
     description := "List technician groups/teams in SuperOps.ai.";
     inputSchema := VObj [
         ("type", VStr "object");
         ("properties", VObj [
           ("max", VObj [
             ("type", VStr "number");
             ("description", VStr "Maximum number of results (default: 50)");
             ("default", VNum 50)])])] |}.

Definition technicians_tools : list ToolDefinition :=
  [superops_technicians_list_tool;
   superops_technicians_get_tool;
   superops_technicians_groups_tool].

Definition superops_custom_query_tool : ToolDefinition :=
  {| name := "superops_custom_query";
     description := "Run a custom GraphQL query against the SuperOps.ai API. For advanced use cases not covered by standard tools.";
     inputSchema := VObj [
         ("type", VStr "object");
         ("properties", VObj [
           ("query", VObj [
             ("type", VStr "string");
             ("description", VStr "The GraphQL query string")]);
           ("variables", VObj [
             ("type", VStr "object");
             ("description", VStr "Variables to pass to the query")])]);
         ("required", VArr [VStr "query"])] |}.

Definition superops_custom_mutation_tool : ToolDefinition :=
  {| name := "superops_custom_mutation";
     description := "Run a custom GraphQL mutation against the SuperOps.ai API. For advanced write operations not covered by standard tools.";
     inputSchema := VObj [
         ("type", VStr "object");
         ("properties", VObj [
           ("mutation", VObj [
             ("type", VStr "string");
             ("description", VStr "The GraphQL mutation string")]);
           ("variables", VObj [
             ("type", VStr "object");
             ("description", VStr "Variables to pass to the mutation")])]);
         ("required", VArr [VStr "mutation"])] |}.

Definition custom_tools : list ToolDefinition :=
  [superops_custom_query_tool;
   superops_custom_mutation_tool].

(** ** Coercions of the runtime *)

Section Server.

Variable rt : Runtime.

Definition stringify (v : value) : option string :=
  match v with
  | VUndefined => None
  | _ => Some (JSON_stringify rt v)
  end.

(** The [TypeError] of a coercion to a primitive that finds no callable
    [toString] or [valueOf] giving one. *)
Definition cannot_convert : thrown :=
  ThrownError (new_TypeError "Cannot convert object to primitive value").

(** [String (v)], [None] when it throws [cannot_convert]. An object prints
    through the [toString] it inherits unless it has a property of that
    name, which is then not callable; an array joins its elements, those
    that are [null] or [undefined] as the empty string. *)
Fixpoint String_of (v : value) : option string :=
  match v with
  | VUndefined => Some "undefined"
  | VNull => Some "null"
  | VBool true => Some "true"
  | VBool false => Some "false"
  | VNum f => Some (Number_toString rt f)
  | VStr s => Some s
  | VArr l =>
      option_map (join ",")
        ((fix elements (l : list value) : option (list string) :=
            match l with
            | [] => Some []
            | x :: l' =>
                match match x with
                      | VUndefined | VNull => Some ""
                      | _ => String_of x
                      end with
                | Some s =>
                    match elements l' with
                    | Some r => Some (s :: r)
                    | None => None
                    end
                | None => None
                end
            end) l)
  | VObj o => if has_key "toString" o then None else Some "[object Object]"
  end.

(** A coercion as a step: its value, or [cannot_convert] thrown. *)
Definition coerced {A : Type} (c : option A) : Completion A :=
  match c with
  | Some a => Returned a
  | None => Threw cannot_convert
  end.

(** ToNumber. An object that prints as [[object Object]] is NaN. *)
Definition ToNumber (v : value) : option float :=
  match v with
  | VUndefined => Some nan
  | VNull => Some 0%float
  | VBool true => Some 1%float
  | VBool false => Some 0%float
  | VNum f => Some f
  | VStr s => Some (StringToNumber rt s)
  | VArr _ => option_map (StringToNumber rt) (String_of v)
  | VObj o => if has_key "toString" o then None else Some nan
  end.

(** [Math.min (a, b)]: both arguments are coerced, in order. *)
Definition Math_min (a b : value) : option value :=
  match ToNumber a with
  | None => None
  | Some x =>
      match ToNumber b with
      | None => None
      | Some y => Some (VNum (Math_min_float x y))
      end
  end.

(** [String.prototype.toUpperCase]. *)
Definition toUpperCase (s : string) : string :=
  if is_ascii s then upper_ascii_string s else toUpperCase_wide rt s.

(** [error instanceof Error ? error.message : String (error)] *)
Definition catch_message (t : thrown) : Completion string :=
  match t with
  | ThrownError e => Returned (error_message e)
  | ThrownValue v => coerced (String_of v)
  end.

(** ** client.ts, from the response on *)

(** [v.k] as the client reads it: a [TypeError] on [null] and
    [undefined]. *)
Definition get (v : value) (k : string) : Completion value :=
  match v with
  | VUndefined =>
      Threw (ThrownError (new_TypeError
        ("Cannot read properties of undefined (reading '" ++ k ++ "')")))
  | VNull =>
      Threw (ThrownError (new_TypeError
        ("Cannot read properties of null (reading '" ++ k ++ "')")))
  | _ => Returned (member v k)
  end.

(** [v.length > 0] for a truthy [v]: the length of a string or an array,
    the coerced [length] property of an object, no length otherwise. *)
Definition positive_length (v : value) : Completion bool :=
  match v with
  | VStr s => Returned (negb (s =? ""))
  | VArr l => Returned (0 <? List.length l)%nat
  | VObj o =>
      n <~ coerced (ToNumber (prop o "length")) ;;
      Returned (PrimFloat.ltb 0 n)
  | _ => Returned false
  end.

(** [v[0]]; of the first unit of a string only its being a string matters
    to what follows. *)
Definition first_element (v : value) : value :=
  match v with
  | VArr (x :: _) => x
  | VStr (String c _) => VStr (String c EmptyString)
  | VObj o => prop o "0"
  | _ => VUndefined
  end.

(** [v?.k] *)
Definition optional_member (v : value) (k : string) : value :=
  match v with
  | VUndefined | VNull => VUndefined
  | _ => member v k
  end.

(** [new SuperOpsError (message, code, retryAfter)]: [Error] keeps the
    string of a message that is not [undefined]. *)
Definition new_SuperOpsError (message code retryAfter : value) : Completion ErrorObject :=
  msg <~ match message with
         | VUndefined => Returned ""
         | _ => coerced (String_of message)
         end ;;
  Returned {| error_name := "SuperOpsError"; error_message := msg;
              error_code := code; error_retryAfter := retryAfter |}.

(** The part of [SuperOpsClient.query] after [fetch] has settled. *)
Definition query_settle (o : FetchOutcome) : Completion value :=
  match o with
  | FetchRejected t => Threw t
  | FetchResponded status statusText body =>
      if negb (response_ok status) then
        Threw (ThrownError (new_Error
          ("HTTP error: " ++ Z_to_string status ++ " " ++ statusText)))
      else
        match body with
        | JsonRejected t => Threw t
        | JsonParsed result =>
            errors <~ get result "errors" ;;
            nonempty <~ (if truthy errors then positive_length errors else Returned false) ;;
            if nonempty then
              let error := first_element errors in
              message <~ get error "message" ;;
              let code := optional_member (member error "extensions") "code" in
              let retryAfter := optional_member (member error "extensions") "retryAfter" in
              e <~ new_SuperOpsError message code retryAfter ;;
              Threw (ThrownError e)
            else if negb (truthy (member result "data")) then
              Threw (ThrownError (new_Error "No data returned from GraphQL query"))
            else Returned (member result "data")
        end
  end.

Definition SuperOpsClient_query (this : SuperOpsClient) (query variables : value)
    : Exec value :=
  response <- fetch (build_request this query variables) ;;
  lift (query_settle response).

Definition SuperOpsClient_mutate (this : SuperOpsClient) (mutation variables : value)
    : Exec value :=
  SuperOpsClient_query this mutation variables.

(** ** The domain modules *)

(** [v.toUpperCase ()]: a value that is not a string has no such method. *)
Definition call_toUpperCase (path : string) (v : value) : Exec value :=
  match v with
  | VStr s => ret (VStr (toUpperCase s))
  | _ => throw (ThrownError (new_TypeError (path ++ ".toUpperCase is not a function")))
  end.

(** [if (c) o.k = v;] *)
Definition assign_if (c : value) (o : obj) (k : string) (v : value) : obj :=
  if truthy c then set_prop o k v else o.

(** [Object.keys (filter).length > 0 && { filter }] *)
Definition nonempty_filter (filter : obj) : value :=
  JSand (VBool (0 <? List.length (Object_keys filter))%nat) (VObj [("filter", VObj filter)]).

(** [catch (error) { ... }] of every [handleCall]. *)
Definition catch_handler (error : thrown) : Exec CallToolResult :=
  message <- lift (catch_message error) ;;
  ret (error_result ("Error: " ++ message)).

(** What [getClientsTools ()] and its siblings return. *)
Record DomainTools : Type := {
  tools : list ToolDefinition;
  handleCall : string -> obj -> Exec CallToolResult
}.

(** *** domains/clients.ts *)

Definition clients_switch (client : SuperOpsClient) (name : string) (args : obj)
    : Exec CallToolResult :=
  if name =? "superops_clients_list" then
    let params := args in
    let filter : obj := [] in
    let filter := assign_if (prop params "status") filter "status" (prop params "status") in
    let filter := assign_if (prop params "stage") filter "stage" (prop params "stage") in
    first <- lift (coerced (Math_min (nullish (prop params "max") (num 50)) (num 500))) ;;
    let input : obj := [("first", first)] in
    let input := spread input (JSand (prop params "cursor") (VObj [("after", prop params "cursor")])) in
    let input := spread input (nonempty_filter filter) in
    let input := set_prop input "orderBy" (VObj [("field", VStr "name"); ("direction", VStr "ASC")]) in
    response <- SuperOpsClient_query client (VStr LIST_CLIENTS_QUERY) (VObj [("input", VObj input)]) ;;
    ret (text_result (stringify (member response "getClientList")))
  else if name =? "superops_clients_get" then
    let accountId := prop args "accountId" in
    response <- SuperOpsClient_query client (VStr GET_CLIENT_QUERY)
                  (VObj [("input", VObj [("accountId", accountId)])]) ;;
    ret (text_result (stringify (member response "getClient")))
  else if name =? "superops_clients_search" then
    let params := args in
    first <- lift (coerced (Math_min (nullish (prop params "max") (num 20)) (num 100))) ;;
    response <- SuperOpsClient_query client (VStr SEARCH_CLIENTS_QUERY)
                  (VObj [("input", VObj
                    [("first", first);
                     ("filter", VObj [("or", VArr
                        [VObj [("name", VObj [("contains", prop params "query")])];
                         VObj [("emailDomains", VObj [("contains", prop params "query")])]])])])]) ;;
    ret (text_result (stringify (member response "getClientList")))
  else
    ret (error_result ("Unknown clients tool: " ++ name)).

Definition getClientsTools : DomainTools :=
  {| tools := clients_tools;
     handleCall := fun name args =>
       client <- getClient ;;
       try_catch (clients_switch client name args) catch_handler |}.

(** *** domains/tickets.ts *)

Definition tickets_switch (client : SuperOpsClient) (name : string) (args : obj)
    : Exec CallToolResult :=
  if name =? "superops_tickets_list" then
    let params := args in
    let filter : obj := [] in
    let filter := assign_if (prop params "status") filter "status" (prop params "status") in
    let filter := assign_if (prop params "priority") filter "priority" (prop params "priority") in
    let filter := assign_if (prop params "clientId") filter "client"
                    (VObj [("accountId", prop params "clientId")]) in
    let filter := assign_if (prop params "assigneeId") filter "assignee"
                    (VObj [("id", prop params "assigneeId")]) in
    let filter := assign_if (prop params "unassigned") filter "assignee" VNull in
    first <- lift (coerced (Math_min (nullish (prop params "max") (num 50)) (num 500))) ;;
    let input : obj := [("first", first)] in
    let input := spread input (JSand (prop params "cursor") (VObj [("after", prop params "cursor")])) in
    let input := spread input (nonempty_filter filter) in
    let input := set_prop input "orderBy"
                   (VObj [("field", VStr "createdTime"); ("direction", VStr "DESC")]) in
    response <- SuperOpsClient_query client (VStr LIST_TICKETS_QUERY) (VObj [("input", VObj input)]) ;;
    ret (text_result (stringify (member response "getTicketList")))
  else if name =? "superops_tickets_get" then
    let ticketId := prop args "ticketId" in
    response <- SuperOpsClient_query client (VStr GET_TICKET_QUERY)
                  (VObj [("input", VObj [("ticketId", ticketId)])]) ;;
    ret (text_result (stringify (member response "getTicket")))
  else if name =? "superops_tickets_create" then
    let params := args in
    let input : obj :=
      [("subject", prop params "subject");
       ("client", VObj [("accountId", prop params "clientId")])] in
    let input := assign_if (prop params "description") input "description"
                   (prop params "description") in
    input <- (if truthy (prop params "priority")
              then upper <- call_toUpperCase "params.priority" (prop params "priority") ;;
                   ret (set_prop input "priority" upper)
              else ret input) ;;
    let input := assign_if (prop params "requesterEmail") input "requester"
                   (VObj [("email", prop params "requesterEmail")]) in
    let input := assign_if (prop params "techGroupName") input "techGroup"
                   (VObj [("name", prop params "techGroupName")]) in
    let input := assign_if (prop params "categoryName") input "category"
                   (VObj [("name", prop params "categoryName")]) in
    response <- SuperOpsClient_mutate client (VStr CREATE_TICKET_MUTATION)
                  (VObj [("input", VObj input)]) ;;
    ret (text_result (stringify (member response "createTicket")))
  else if name =? "superops_tickets_update" then
    let params := args in
    let input : obj := [("ticketId", prop params "ticketId")] in
    let input := assign_if (prop params "status") input "status" (prop params "status") in
    input <- (if truthy (prop params "priority")
              then upper <- call_toUpperCase "params.priority" (prop params "priority") ;;
                   ret (set_prop input "priority" upper)
              else ret input) ;;
    let input := assign_if (prop params "assigneeId") input "assignee"
                   (VObj [("id", prop params "assigneeId")]) in
    let input := assign_if (prop params "techGroupName") input "techGroup"
                   (VObj [("name", prop params "techGroupName")]) in
    let input := assign_if (prop params "resolution") input "resolution"
                   (prop params "resolution") in
    response <- SuperOpsClient_mutate client (VStr UPDATE_TICKET_MUTATION)
                  (VObj [("input", VObj input)]) ;;
    ret (text_result (stringify (member response "updateTicket")))
  else if name =? "superops_tickets_add_note" then
    let params := args in
    response <- SuperOpsClient_mutate client (VStr ADD_TICKET_NOTE_MUTATION)
                  (VObj [("input", VObj
                    [("ticketId", prop params "ticketId");
                     ("content", prop params "content");
                     ("isPublic", nullish (prop params "isPublic") (VBool false))])]) ;;
    ret (text_result (stringify (member response "addTicketNote")))
  else if name =? "superops_tickets_log_time" then
    let params := args in
    response <- SuperOpsClient_mutate client (VStr ADD_TIME_ENTRY_MUTATION)
                  (VObj [("input", VObj
                    [("ticketId", prop params "ticketId");
                     ("duration", prop params "duration");
                     ("description", prop params "description");
                     ("workType", prop params "workType");
                     ("billable", nullish (prop params "billable") (VBool true))])]) ;;
    ret (text_result (stringify (member response "addTicketTimeEntry")))
  else
    ret (error_result ("Unknown tickets tool: " ++ name)).

Definition getTicketsTools : DomainTools :=
  {| tools := tickets_tools;
     handleCall := fun name args =>
       client <- getClient ;;
       try_catch (tickets_switch client name args) catch_handler |}.

(** *** domains/assets.ts *)

Definition assets_switch (client : SuperOpsClient) (name : string) (args : obj)
    : Exec CallToolResult :=
  if name =? "superops_assets_list" then
    let params := args in
    let filter : obj := [] in
    let filter := assign_if (prop params "status") filter "status" (prop params "status") in
    let filter := assign_if (prop params "platform") filter "platform" (prop params "platform") in
    let filter := assign_if (prop params "clientId") filter "client"
                    (VObj [("accountId", prop params "clientId")]) in
    first <- lift (coerced (Math_min (nullish (prop params "max") (num 100)) (num 500))) ;;
    let input : obj := [("first", first)] in
    let input := spread input (JSand (prop params "cursor") (VObj [("after", prop params "cursor")])) in
    let input := spread input (nonempty_filter filter) in
    let input := set_prop input "orderBy" (VObj [("field", VStr "name"); ("direction", VStr "ASC")]) in
    response <- SuperOpsClient_query client (VStr LIST_ASSETS_QUERY) (VObj [("input", VObj input)]) ;;
    ret (text_result (stringify (member response "getAssetList")))
  else if name =? "superops_assets_get" then
    let assetId := prop args "assetId" in
    response <- SuperOpsClient_query client (VStr GET_ASSET_QUERY)
                  (VObj [("input", VObj [("assetId", assetId)])]) ;;
    ret (text_result (stringify (member response "getAsset")))
  else if name =? "superops_assets_software" then
    let params := args in
    let filter : obj := [] in
    let filter := assign_if (prop params "search") filter "name"
                    (VObj [("contains", prop params "search")]) in
    first <- lift (coerced (Math_min (nullish (prop params "max") (num 100)) (num 500))) ;;
    let input : obj := [("assetId", prop params "assetId"); ("first", first)] in
    let input := spread input (nonempty_filter filter) in
    response <- SuperOpsClient_query client (VStr GET_ASSET_SOFTWARE_QUERY)
                  (VObj [("input", VObj input)]) ;;
    ret (text_result (stringify (member response "getAssetSoftwareList")))
  else if name =? "superops_assets_patches" then
    let params := args in
    let filter : obj := [] in
    let filter := assign_if (prop params "status") filter "status" (prop params "status") in
    let filter := assign_if (prop params "severity") filter "severity" (prop params "severity") in
    let input : obj := [("assetId", prop params "assetId")] in
    let input := spread input (nonempty_filter filter) in
    response <- SuperOpsClient_query client (VStr GET_ASSET_PATCHES_QUERY)
                  (VObj [("input", VObj input)]) ;;
    ret (text_result (stringify (member response "getAssetPatchDetails")))
  else
    ret (error_result ("Unknown assets tool: " ++ name)).

Definition getAssetsTools : DomainTools :=
  {| tools := assets_tools;
     handleCall := fun name args =>
       client <- getClient ;;
       try_catch (assets_switch client name args) catch_handler |}.

(** *** domains/technicians.ts *)

Definition technicians_switch (client : SuperOpsClient) (name : string) (args : obj)
    : Exec CallToolResult :=
  if name =? "superops_technicians_list" then
    let params := args in
    let filter : obj := [] in
    let filter := if not_false (prop params "activeOnly")
                  then set_prop filter "isActive" (VBool true) else filter in
    let filter := assign_if (prop params "teamId") filter "teams"
                    (VObj [("id", prop params "teamId")]) in
    first <- lift (coerced (Math_min (nullish (prop params "max") (num 50)) (num 500))) ;;
    let input : obj := [("first", first)] in
    let input := spread input (JSand (prop params "cursor") (VObj [("after", prop params "cursor")])) in
    let input := spread input (nonempty_filter filter) in
    let input := set_prop input "orderBy" (VObj [("field", VStr "name"); ("direction", VStr "ASC")]) in
    response <- SuperOpsClient_query client (VStr LIST_TECHNICIANS_QUERY)
                  (VObj [("input", VObj input)]) ;;
    ret (text_result (stringify (member response "getTechnicianList")))
  else if name =? "superops_technicians_get" then
    let technicianId := prop args "technicianId" in
    response <- SuperOpsClient_query client (VStr GET_TECHNICIAN_QUERY)
                  (VObj [("input", VObj [("id", technicianId)])]) ;;
    ret (text_result (stringify (member response "getTechnician")))
  else if name =? "superops_technicians_groups" then
    let params := args in
    first <- lift (coerced (Math_min (nullish (prop params "max") (num 50)) (num 500))) ;;
    response <- SuperOpsClient_query client (VStr LIST_TECH_GROUPS_QUERY)
                  (VObj [("input", VObj [("first", first)])]) ;;
    ret (text_result (stringify (member response "getTechGroupList")))
  else
    ret (error_result ("Unknown technicians tool: " ++ name)).

Definition getTechniciansTools : DomainTools :=
  {| tools := technicians_tools;
     handleCall := fun name args =>
       client <- getClient ;;
       try_catch (technicians_switch client name args) catch_handler |}.

(** *** domains/custom.ts *)

Definition custom_switch (client : SuperOpsClient) (name : string) (args : obj)
    : Exec CallToolResult :=
  if name =? "superops_custom_query" then
    let params := args in
    response <- SuperOpsClient_query client (prop params "query") (prop params "variables") ;;
    ret (text_result (stringify response))
  else if name =? "superops_custom_mutation" then
    let params := args in
    response <- SuperOpsClient_mutate client (prop params "mutation") (prop params "variables") ;;
    ret (text_result (stringify response))
  else
    ret (error_result ("Unknown custom tool: " ++ name)).

Definition getCustomTools : DomainTools :=
  {| tools := custom_tools;
     handleCall := fun name args =>
       client <- getClient ;;
       try_catch (custom_switch client name args) catch_handler |}.

(** ** index.ts *)

Definition nl : string := String (ascii_of_nat 10) EmptyString.

Definition domain_module (domain : Domain) : DomainTools :=
  match domain with
  | clients => getClientsTools
  | tickets => getTicketsTools
  | assets => getAssetsTools
  | technicians => getTechniciansTools
  | custom => getCustomTools
  end.

(** The cache maps a domain to the module object built for it; the object
    is determined by the domain, so the cache is kept as its set of keys. *)
Definition loadDomain (domain : Domain) : Exec DomainTools :=
  cached <- read (fun w => existsb (Domain_eqb domain) (domainCache w)) ;;
  if cached then ret (domain_module domain)
  else
    let loaded := domain_module domain in
    write (fun w => set_domainCache (domainCache w ++ [domain])%list w) ;;;
    ret loaded.

Definition navigationTool : ToolDefinition :=
  {| name := "superops_navigate";
     description := "Navigate to a SuperOps.ai domain to access its tools. Available domains: clients (accounts/companies), tickets (service desk), assets (endpoints/devices), technicians (agents/teams), custom (advanced GraphQL queries).";
     inputSchema := VObj [
       ("type", VStr "object");
       ("properties", VObj [
         ("domain", VObj [
           ("type", VStr "string");
           ("description", VStr "The domain to navigate to");
           ("enum", VArr [VStr "clients"; VStr "tickets"; VStr "assets";
                          VStr "technicians"; VStr "custom"])])]);
       ("required", VArr [VStr "domain"])] |}.

Definition backTool : ToolDefinition :=
  {| name := "superops_back";
     description := "Return to the main navigation menu to select a different domain.";
     inputSchema := VObj [("type", VStr "object"); ("properties", VObj [])] |}.

Definition testConnectionTool : ToolDefinition :=
  {| name := "superops_test_connection";
     description := "Test the connection to SuperOps.ai API using configured credentials.";
     inputSchema := VObj [("type", VStr "object"); ("properties", VObj [])] |}.

(** The handler of [ListToolsRequestSchema]. *)
Definition listTools : Exec (list ToolDefinition) :=
  let listed := [testConnectionTool] in
  current <- read currentDomain ;;
  match current with
  | None => ret (listed ++ [navigationTool])%list
  | Some current =>
      let listed := (listed ++ [backTool])%list in
      domainTools <- loadDomain current ;;
      ret (listed ++ tools domainTools)%list
  end.

Definition no_credentials_text : string :=
  "Error: No API credentials configured. Please set SUPEROPS_API_TOKEN and SUPEROPS_SUBDOMAIN environment variables.".

Definition validDomains : list Domain := [clients; tickets; assets; technicians; custom].

Definition allDomains : list Domain := [clients; tickets; assets; technicians; custom].

(** The member of [validDomains] that [domain] is, if any:
    [validDomains.includes (domain)] compares by identity, so only a string
    can be a member. *)
Definition as_Domain (domain : value) : option Domain :=
  match domain with
  | VStr s => find (fun d => domain_name d =? s) validDomains
  | _ => None
  end.

Definition includes_domain (domain : value) : bool :=
  match as_Domain domain with
  | Some _ => true
  | None => false
  end.

(** [tools.some ((t) => t.name === name)] *)
Definition some_named (wanted : string) (catalog : list ToolDefinition) : bool :=
  existsb (fun t => name t =? wanted) catalog.

(** [(t) => `- ${t.name}: ${t.description}`] *)
Definition tool_line (t : ToolDefinition) : string :=
  "- " ++ name t ++ ": " ++ description t.

(** The [for] loop over [allDomains] and the statement after it. *)
Fixpoint find_in_domains (domains : list Domain) (name : string) (args : option obj)
    : Exec CallToolResult :=
  match domains with
  | [] =>
      ret (error_result
             ("Unknown tool: " ++ name ++ ". Use superops_navigate to explore available tools."))
  | domain :: rest =>
      domainTools <- loadDomain domain ;;
      let toolExists := some_named name (tools domainTools) in
      if toolExists then
        write (set_currentDomain (Some domain)) ;;;
        handleCall domainTools name (match args with Some a => a | None => [] end)
      else find_in_domains rest name args
  end.

(** The handler of [CallToolRequestSchema]; [args] is [None] when the
    request carries no arguments. *)
Definition callTool (name : string) (args : option obj) : Exec CallToolResult :=
  if name =? "superops_test_connection" then
    creds <- read (fun w => getCredentials (env w)) ;;
    match creds with
    | None => ret (error_result no_credentials_text)
    | Some creds =>
        try_catch
          (clientsTools <- loadDomain clients ;;
           result <- handleCall clientsTools "superops_clients_list" [("max", num 1)] ;;
           if match isError result with Some b => b | None => false end
           then ret result
           else
             ret (text_result (Some
               ("Connection successful!" ++ nl ++ nl ++ "Credentials configured for:" ++ nl
                ++ "- Subdomain: " ++ subdomain creds ++ nl
                ++ "- Region: " ++ match region creds with Some r => r | None => "us" end
                ++ nl ++ nl ++ "API is responding correctly."))))
          (fun error =>
             message <- lift (catch_message error) ;;
             ret (error_result ("Connection test failed: " ++ message)))
    end
  else if name =? "superops_navigate" then
    let domain := prop (match args with Some a => a | None => [] end) "domain" in
    if negb (truthy domain) || negb (includes_domain domain) then
      ret (error_result
             ("Invalid domain. Please choose from: " ++ join ", " (map domain_name validDomains)))
    else
      match as_Domain domain with
      | None =>
          (* not reached: [includes_domain domain] holds here; this is the
             [default] case of [loadDomain] *)
          shown <- lift (coerced (String_of domain)) ;;
          throw (ThrownError (new_Error ("Unknown domain: " ++ shown)))
      | Some d =>
          write (set_currentDomain (Some d)) ;;;
          domainTools <- loadDomain d ;;
          ret (text_result (Some
            ("Navigated to " ++ domain_name d ++ " domain. Available tools:" ++ nl ++ nl
             ++ join nl (map tool_line (tools domainTools))
             ++ nl ++ nl ++ "Use superops_back to return to the main menu.")))
      end
  else if name =? "superops_back" then
    write (set_currentDomain None) ;;;
    ret (text_result (Some
      ("Returned to main navigation. Use superops_navigate to select a domain:" ++ nl ++ nl
       ++ "- clients: Manage client accounts and contacts" ++ nl
       ++ "- tickets: Service desk and ticket management" ++ nl
       ++ "- assets: Endpoint inventory and RMM" ++ nl
       ++ "- technicians: Agent and team management" ++ nl
       ++ "- custom: Advanced GraphQL queries")))
  else
    creds <- read (fun w => getCredentials (env w)) ;;
    match creds with
    | None => ret (error_result no_credentials_text)
    | Some _ =>
        current <- read currentDomain ;;
        handled <-
          match current with
          | Some current =>
              domainTools <- loadDomain current ;;
              let toolBelongsToDomain := some_named name (tools domainTools) in
              if toolBelongsToDomain then
                result <- handleCall domainTools name (match args with Some a => a | None => [] end) ;;
                ret (Some result)
              else ret None
          | None => ret None
          end ;;
        match handled with
        | Some result => ret result
        | None => find_in_domains allDomains name args
        end
    end.

(** ** Running a session *)

(** One inbound tool call: its name and its arguments, if any. *)
Definition Call : Type := (string * option obj)%type.

(** The world after the handler has served [calls] one after the other. *)
Fixpoint run_calls (calls : list Call) (w : World) : World :=
  match calls with
  | [] => w
  | (name, args) :: rest => run_calls rest (snd (callTool name args w))
  end.

(** The requests that [c] sends when run in [w]. *)
Definition issued {A : Type} (c : Exec A) (w : World) : list HttpRequest :=
  skipn (List.length (sent w)) (sent (snd (c w))).

(** The [switch] of a domain's [handleCall]. *)
Definition domain_switch (d : Domain)
    : SuperOpsClient -> string -> obj -> Exec CallToolResult :=
  match d with
  | clients => clients_switch
  | tickets => tickets_switch
  | assets => assets_switch
  | technicians => technicians_switch
  | custom => custom_switch
  end.

(** The fallback resolution in the words of the specification: the first
    domain, in the fixed order, whose catalog contains the name. *)
Definition first_domain_with (name : string) : option Domain :=
  find (fun d => some_named name (tools (domain_module d)))
       [clients; tickets; assets; technicians; custom].

Definition is_navigation_tool (name : string) : bool :=
  (name =? "superops_test_connection") || (name =? "superops_navigate")
  || (name =? "superops_back").

Definition belongs_to_active (name : string) (w : World) : bool :=
  match currentDomain w with
  | Some d => some_named name (tools (domain_module d))
  | None => false
  end.

(** [frame w w']: a computation that took [w] to [w'] touched neither the
    environment nor the navigation state. *)
Definition frame (w w' : World) : Prop :=
  env w' = env w /\ network w' = network w /\ currentDomain w' = currentDomain w.

Definition framed {A : Type} (c : Exec A) : Prop := forall w, frame w (snd (c w)).

(** What the [catch] block of a [handleCall] makes of a thrown value. *)
Definition caught (t : thrown) : Completion CallToolResult :=
  message <~ catch_message t ;;
  Returned (error_result ("Error: " ++ message)).

(** The three failures that the transport client raises itself, for a
    body that can be read so far: a status outside 200..299; a body whose
    [errors] is a non-empty array, of which the first element has a message
    that [Error] can keep; a body with [errors] falsy or the empty array and
    a falsy [data]. *)
Inductive named_failure : FetchOutcome -> thrown -> Prop :=
| http_failure (status : Z) (statusText : string) (body : JsonOutcome) :
    response_ok status = false ->
    named_failure (FetchResponded status statusText body)
      (ThrownError (new_Error ("HTTP error: " ++ Z_to_string status ++ " " ++ statusText)))
| graphql_failure (status : Z) (statusText : string) (result error message : value)
    (rest : list value) (e : ErrorObject) :
    response_ok status = true ->
    get result "errors" = Returned (VArr (error :: rest)) ->
    get error "message" = Returned message ->
    new_SuperOpsError message
      (optional_member (member error "extensions") "code")
      (optional_member (member error "extensions") "retryAfter") = Returned e ->
    named_failure (FetchResponded status statusText (JsonParsed result)) (ThrownError e)
| no_data_failure (status : Z) (statusText : string) (result errors : value) :
    response_ok status = true ->
    get result "errors" = Returned errors ->
    truthy errors = false \/ errors = VArr [] ->
    truthy (member result "data") = false ->
    named_failure (FetchResponded status statusText (JsonParsed result))
      (ThrownError (new_Error "No data returned from GraphQL query")).

(** The failures of [fetch] and of [response.json ()], which the client
    does not catch. *)
Inductive passed_on : FetchOutcome -> thrown -> Prop :=
| fetch_rejected (t : thrown) : passed_on (FetchRejected t) t
| body_rejected (status : Z) (statusText : string) (t : thrown) :
    response_ok status = true ->
    passed_on (FetchResponded status statusText (JsonRejected t)) t.

(** The shape that [types.ts] declares for a response body
    ([GraphQLResponse]): an object whose [errors], when present, is an
    array of objects ([GraphQLError]) each with a string [message]. The
    client casts the parsed body to it without a check. *)
Definition is_GraphQLError (error : value) : bool :=
  match error with
  | VObj e =>
      match prop e "message" with
      | VStr _ => true
      | _ => false
      end
  | _ => false
  end.

Definition is_GraphQLResponse (result : value) : bool :=
  match result with
  | VObj r =>
      match prop r "errors" with
      | VUndefined => true
      | VArr errors => forallb is_GraphQLError errors
      | _ => false
      end
  | _ => false
  end.

(** A parsed body that is not of the declared shape. *)
Definition malformed (o : FetchOutcome) : Prop :=
  exists status statusText result,
    o = FetchResponded status statusText (JsonParsed result)
    /\ response_ok status = true
    /\ is_GraphQLResponse result = false.

(** Sample worlds: credentials set, nothing loaded, no domain active. *)
Definition sample_env : Env :=
  {| SUPEROPS_API_TOKEN := Some "test-token";
     SUPEROPS_SUBDOMAIN := Some "test-company";
     SUPEROPS_REGION := None |}.

Definition sample_creds : SuperOpsCredentials :=
  {| apiToken := "test-token"; subdomain := "test-company"; region := None |}.

Definition sample_world (net : list HttpRequest -> HttpRequest -> FetchOutcome) : World :=
  {| env := sample_env; network := net; currentDomain := None;
     domainCache := []; _client := None; sent := [] |}.

(** A network that answers every request with [data], and one where every
    [fetch] is rejected with [t]. *)
Definition answering (d : value) : list HttpRequest -> HttpRequest -> FetchOutcome :=
  fun _ _ => FetchResponded 200 "OK" (JsonParsed (VObj [("data", d)])).

Definition rejecting (t : thrown) : list HttpRequest -> HttpRequest -> FetchOutcome :=
  fun _ _ => FetchRejected t.

(** What one case of a [switch] does when run with [client]: it returns
    or throws an [Error] without sending anything, or it sends one request
    and returns [f] of the data that comes back, or throws what the client
    throws. *)
Definition sends_once (client : SuperOpsClient) (m : Exec CallToolResult) : Prop :=
  forall w,
    (exists r, m w = (Returned r, w))
    \/ (exists e, m w = (Threw (ThrownError e), w))
    \/ (exists q v f,
          m w = (match query_settle (network w (sent w) (build_request client q v)) with
                 | Returned d => Returned (f d)
                 | Threw t => Threw t
                 end,
                 set_sent (sent w ++ [build_request client q v])%list w)).

(** How a tool call can end other than by returning: with the [TypeError]
    of the coercion in a [catch] block, after one request that [fetch] or
    the parsing of the body rejected with a value that has no string
    coercion. *)
Definition escapes (w w' : World) (comp : Completion CallToolResult) : Prop :=
  comp = Threw cannot_convert
  /\ exists req v,
       sent w' = (sent w ++ [req])%list
       /\ passed_on (network w (sent w) req) (ThrownValue v)
       /\ String_of v = None.

(** The active domain after a call, as a function of the active domain
    before it, of whether the credentials resolve, and of the call. *)
Definition next_domain (current : option Domain) (configured : bool) (name : string)
    (args : option obj) : option Domain :=
  if name =? "superops_test_connection" then current
  else if name =? "superops_navigate" then
    match as_Domain (prop (match args with Some a => a | None => [] end) "domain") with
    | Some d => Some d
    | None => current
    end
  else if name =? "superops_back" then None
  else if negb configured then current
  else if match current with
          | Some d => some_named name (tools (domain_module d))
          | None => false
          end
  then current
  else
    match first_domain_with name with
    | Some d => Some d
    | None => current
    end.

(** The tools that take [max], with the default and the cap of each. *)
Definition max_bounds : list (Domain * string * float * float) :=
  [(clients, "superops_clients_list", 50, 500);
   (clients, "superops_clients_search", 20, 100);
   (tickets, "superops_tickets_list", 50, 500);
   (assets, "superops_assets_list", 100, 500);
   (assets, "superops_assets_software", 100, 500);
   (technicians, "superops_technicians_list", 50, 500);
   (technicians, "superops_technicians_groups", 50, 500)]%float.

(** Whether a tool takes [max]. *)
Definition takes_max (d : Domain) (tool : string) : bool :=
  existsb (fun b => Domain_eqb (fst (fst (fst b))) d && (snd (fst (fst b)) =? tool)) max_bounds.

(** The tools that take [cursor]. *)
Definition cursor_tools : list (Domain * string) :=
  [(clients, "superops_clients_list"); (tickets, "superops_tickets_list");
   (assets, "superops_assets_list"); (technicians, "superops_technicians_list")].

(** The tools that build a filter from optional arguments, with the
    arguments that contribute a key when truthy. *)
Definition filter_arguments : list (Domain * string * list string) :=
  [(clients, "superops_clients_list", ["status"; "stage"]);
   (tickets, "superops_tickets_list",
    ["status"; "priority"; "clientId"; "assigneeId"; "unassigned"]);
   (assets, "superops_assets_list", ["status"; "platform"; "clientId"]);
   (assets, "superops_assets_software", ["search"]);
   (assets, "superops_assets_patches", ["status"; "severity"])].

(** The name a module gives itself in its [Unknown ... tool] error. *)
Definition unknown_tool_text (d : Domain) (name : string) : string :=
  "Unknown " ++ domain_name d ++ " tool: " ++ name.

(** The text of a successful connection test. *)
Definition connection_successful (creds : SuperOpsCredentials) : string :=
  "Connection successful!" ++ nl ++ nl ++ "Credentials configured for:" ++ nl
  ++ "- Subdomain: " ++ subdomain creds ++ nl
  ++ "- Region: " ++ match region creds with Some r => r | None => "us" end
  ++ nl ++ nl ++ "API is responding correctly.".

(** The module cache [new] holds what [old] held, and has no duplicate
    if [old] had none. *)
Definition grown (old new : list Domain) : Prop :=
  incl old new /\ (NoDup old -> NoDup new).

(** [quiet w0 w]: from [w0] to [w] only the active domain and the module
    cache may have changed, the cache by growing. *)
Definition quiet (w0 w : World) : Prop :=
  env w = env w0 /\ network w = network w0 /\ sent w = sent w0
  /\ _client w = _client w0 /\ grown (domainCache w0) (domainCache w).

(** [session_step w0 w]: what one tool call may do to the world besides
    moving the active domain: append at most one request to the log, cache
    a client if none was cached, and grow the module cache. *)
Definition session_step (w0 w : World) : Prop :=
  env w = env w0 /\ network w = network w0
  /\ (exists l, sent w = (sent w0 ++ l)%list /\ (List.length l <= 1)%nat)
  /\ (forall c, _client w0 = Some c -> _client w = Some c)
  /\ grown (domainCache w0) (domainCache w).

Definition configured (w : World) : bool :=
  match getCredentials (env w) with
  | Some _ => true
  | None => false
  end.

(** The field of the returned data that each tool of the four entity
    domains prints. *)
Definition result_fields : list (Domain * string * string) :=
  [(clients, "superops_clients_list", "getClientList");
   (clients, "superops_clients_get", "getClient");
   (clients, "superops_clients_search", "getClientList");
   (tickets, "superops_tickets_list", "getTicketList");
   (tickets, "superops_tickets_get", "getTicket");
   (tickets, "superops_tickets_create", "createTicket");
   (tickets, "superops_tickets_update", "updateTicket");
   (tickets, "superops_tickets_add_note", "addTicketNote");
   (tickets, "superops_tickets_log_time", "addTicketTimeEntry");
   (assets, "superops_assets_list", "getAssetList");
   (assets, "superops_assets_get", "getAsset");
   (assets, "superops_assets_software", "getAssetSoftwareList");
   (assets, "superops_assets_patches", "getAssetPatchDetails");
   (technicians, "superops_technicians_list", "getTechnicianList");
   (technicians, "superops_technicians_get", "getTechnician");
   (technicians, "superops_technicians_groups", "getTechGroupList")].

(** Stand-ins for the abstract built-ins, to run the model on samples. *)
Definition sample_runtime : Runtime :=
  {| JSON_stringify := fun _ => "{}";
     Number_toString := fun _ => "0";
     StringToNumber := fun _ => nan;
     toUpperCase_wide := fun s => s |}.

(** ** Objects *)

Lemma lookup_set_prop_same (o : obj) (k : string) (v : value) :
  lookup k (set_prop o k v) = Some v.
Proof.
  induction o as [|[k' v'] o IH]; simpl.
  - now rewrite String.eqb_refl.
  - destruct (k' =? k) eqn:E; simpl; rewrite E; auto.
Qed.

Lemma lookup_set_prop_other (o : obj) (k k' : string) (v : value) :
  k' <> k -> lookup k (set_prop o k' v) = lookup k o.
Proof.
  intros Hne. apply String.eqb_neq in Hne.
  induction o as [|[k0 v0] o IH]; simpl.
  - now rewrite Hne.
  - destruct (k0 =? k') eqn:E; simpl.
    + apply String.eqb_eq in E; subst k0. now rewrite Hne.
    + destruct (k0 =? k); auto.
Qed.

Lemma set_prop_not_empty (o : obj) (k : string) (v : value) :
  (0 <? List.length (Object_keys (set_prop o k v)))%nat = true.
Proof.
  destruct o as [|[k' v'] o]; simpl; auto.
  destruct (k' =? k); reflexivity.
Qed.

Lemma falsy_own_props (v : value) : truthy v = false -> own_props v = [].
Proof.
  destruct v as [| | b | n | s | l | o]; simpl; try reflexivity; try discriminate.
  destruct s; simpl; [reflexivity | discriminate].
Qed.

Lemma spread_JSand (o : obj) (c : value) (k : string) (v : value) :
  spread o (JSand c (VObj [(k, v)])) = if truthy c then set_prop o k v else o.
Proof.
  unfold JSand, spread. destruct (truthy c) eqn:E; [reflexivity|].
  now rewrite (falsy_own_props _ E).
Qed.

Lemma lookup_assign_if_other (c : value) (o : obj) (k k' : string) (v : value) :
  k' <> k -> lookup k (assign_if c o k' v) = lookup k o.
Proof.
  intros H. unfold assign_if. destruct (truthy c); [now apply lookup_set_prop_other | reflexivity].
Qed.

Lemma assign_if_true (c : value) (o : obj) (k : string) (v : value) :
  truthy c = true -> assign_if c o k v = set_prop o k v.
Proof. unfold assign_if. now intros ->. Qed.

Lemma assign_if_false (c : value) (o : obj) (k : string) (v : value) :
  truthy c = false -> assign_if c o k v = o.
Proof. unfold assign_if. now intros ->. Qed.

Lemma nonempty_filter_set (o : obj) (k : string) (v : value) :
  nonempty_filter (set_prop o k v) = VObj [("filter", VObj (set_prop o k v))].
Proof. unfold nonempty_filter, JSand. cbn [truthy]. now rewrite set_prop_not_empty. Qed.

(** ** Worlds *)

Lemma set_client_same (w : World) : set_client (_client w) w = w.
Proof. now destruct w. Qed.

Lemma set_domainCache_same (w : World) : set_domainCache (domainCache w) w = w.
Proof. now destruct w. Qed.

Lemma set_currentDomain_same (w : World) : set_currentDomain (currentDomain w) w = w.
Proof. now destruct w. Qed.

Lemma skipn_length_app {A : Type} (l l' : list A) : skipn (List.length l) (l ++ l')%list = l'.
Proof. induction l; simpl; auto. Qed.

Lemma frame_refl (w : World) : frame w w.
Proof. now repeat split. Qed.

Lemma frame_trans (w1 w2 w3 : World) : frame w1 w2 -> frame w2 w3 -> frame w1 w3.
Proof.
  unfold frame. intros (A1 & A2 & A3) (B1 & B2 & B3).
  repeat split; congruence.
Qed.

Lemma framed_ret {A : Type} (a : A) : framed (ret a).
Proof. intro w. apply frame_refl. Qed.

Lemma framed_throw {A : Type} (t : thrown) : framed (@throw A t).
Proof. intro w. apply frame_refl. Qed.

Lemma framed_bind {A B : Type} (c : Exec A) (k : A -> Exec B) :
  framed c -> (forall a, framed (k a)) -> framed (bind c k).
Proof.
  intros Hc Hk w. unfold bind. specialize (Hc w).
  destruct (c w) as [[a|t] w1]; simpl in *; [|exact Hc].
  eapply frame_trans; [exact Hc | apply Hk].
Qed.

Lemma framed_try_catch {A : Type} (c : Exec A) (h : thrown -> Exec A) :
  framed c -> (forall t, framed (h t)) -> framed (try_catch c h).
Proof.
  intros Hc Hh w. unfold try_catch. specialize (Hc w).
  destruct (c w) as [[a|t] w1]; simpl in *; [exact Hc|].
  eapply frame_trans; [exact Hc | apply Hh].
Qed.

Lemma framed_query (c : SuperOpsClient) (q v : value) : framed (SuperOpsClient_query c q v).
Proof. intro w. now repeat split. Qed.

Lemma framed_mutate (c : SuperOpsClient) (q v : value) : framed (SuperOpsClient_mutate c q v).
Proof. apply framed_query. Qed.

Lemma framed_getClient : framed getClient.
Proof.
  intro w. unfold getClient, bind, read. simpl.
  destruct (_client w); simpl; [apply frame_refl|].
  destruct (getCredentials (env w)); simpl; now repeat split.
Qed.

Lemma framed_call_toUpperCase (p : string) (v : value) : framed (call_toUpperCase p v).
Proof. destruct v; simpl; first [apply framed_ret | apply framed_throw]. Qed.

Lemma framed_lift {A : Type} (c : Completion A) : framed (lift c).
Proof. intro w. apply frame_refl. Qed.

Lemma catch_handler_run (t : thrown) (w : World) : catch_handler t w = (caught t, w).
Proof. unfold catch_handler, caught, bind, lift. now destruct (catch_message t). Qed.

Lemma framed_catch_handler (t : thrown) : framed (catch_handler t).
Proof. intro w. rewrite catch_handler_run. apply frame_refl. Qed.

Create HintDb framed.
#[local] Hint Resolve framed_ret framed_throw framed_lift framed_query framed_mutate
  framed_getClient framed_call_toUpperCase framed_catch_handler : framed.

Ltac framed_step :=
  match goal with
  | |- framed (if ?b then _ else _) => destruct b
  | |- framed (bind _ _) => apply framed_bind; [|intro]
  | |- framed (try_catch _ _) => apply framed_try_catch; [|intro]
  | |- framed _ => solve [auto with framed]
  | |- framed _ => progress cbv beta zeta
  end.

Lemma framed_switch (d : Domain) (c : SuperOpsClient) (name : string) (args : obj) :
  framed (domain_switch d c name args).
Proof.
  destruct d; cbv beta iota delta
    [domain_switch clients_switch tickets_switch assets_switch technicians_switch
     custom_switch];
    repeat framed_step.
Qed.

Lemma handleCall_unfold (d : Domain) (name : string) (args : obj) :
  handleCall (domain_module d) name args =
  (client <- getClient ;;
   try_catch (domain_switch d client name args) catch_handler).
Proof. now destruct d. Qed.

Lemma framed_handleCall (d : Domain) (name : string) (args : obj) :
  framed (handleCall (domain_module d) name args).
Proof.
  rewrite handleCall_unfold. apply framed_bind; [apply framed_getClient|].
  intro c. apply framed_try_catch; [apply framed_switch | apply framed_catch_handler].
Qed.

Lemma getClient_run (w : World) (creds : SuperOpsCredentials) :
  getCredentials (env w) = Some creds ->
  exists client, getClient w = (Returned client, set_client (Some client) w).
Proof.
  intros H. unfold getClient, bind, read.
  destruct (_client w) as [c|] eqn:E.
  - exists c. unfold ret. now rewrite <- E, set_client_same.
  - rewrite H. now eexists.
Qed.

Lemma handleCall_run (d : Domain) (name : string) (args : obj) (w : World)
    (creds : SuperOpsCredentials) :
  getCredentials (env w) = Some creds ->
  exists client,
    getClient w = (Returned client, set_client (Some client) w) /\
    handleCall (domain_module d) name args w =
    match domain_switch d client name args (set_client (Some client) w) with
    | (Returned r, w') => (Returned r, w')
    | (Threw t, w') => (caught t, w')
    end.
Proof.
  intros H. destruct (getClient_run w creds H) as [client Hc].
  exists client. split; [exact Hc|].
  rewrite handleCall_unfold. unfold bind. rewrite Hc. unfold try_catch.
  destruct (domain_switch d client name args _) as [[r|t] w']; [reflexivity|].
  apply catch_handler_run.
Qed.

(** What is caught is rendered, unless it has no string form. *)
Lemma caught_cases (t : thrown) :
  (exists m, caught t = Returned (error_result ("Error: " ++ m)))
  \/ (caught t = Threw cannot_convert
      /\ exists v, t = ThrownValue v /\ String_of v = None).
Proof.
  destruct t as [e|v]; unfold caught; cbn [catch_message cbind].
  - left. now eexists.
  - destruct (String_of v) as [s|] eqn:E; cbn [coerced cbind].
    + left. now eexists.
    + right. split; [reflexivity|]. now exists v.
Qed.

(** ** The dispatcher *)

Lemma loadDomain_run (d : Domain) (w : World) :
  exists cache, loadDomain d w = (Returned (domain_module d), set_domainCache cache w).
Proof.
  unfold loadDomain, bind, read, write, ret.
  destruct (existsb (Domain_eqb d) (domainCache w)).
  - exists (domainCache w). now rewrite set_domainCache_same.
  - now exists (domainCache w ++ [d])%list.
Qed.

Lemma framed_loadDomain (d : Domain) : framed (loadDomain d).
Proof.
  intro w. destruct (loadDomain_run d w) as [cache ->]. now repeat split.
Qed.

#[local] Hint Resolve framed_loadDomain framed_handleCall : framed.

Lemma as_Domain_name (d : Domain) : as_Domain (VStr (domain_name d)) = Some d.
Proof. now destruct d. Qed.

Lemma as_Domain_Some (v : value) (d : Domain) :
  as_Domain v = Some d -> v = VStr (domain_name d).
Proof.
  destruct v as [| | b | n | s | l | o]; try discriminate.
  unfold as_Domain, validDomains. cbn [find].
  repeat match goal with
         | |- context [domain_name ?x =? s] =>
             destruct (String.eqb_spec (domain_name x) s);
             [intros [= <-]; now subst s|]
         end.
  discriminate.
Qed.

Lemma callTool_test_connection (args : option obj) :
  callTool "superops_test_connection" args =
  (creds <- read (fun w => getCredentials (env w)) ;;
   match creds with
   | None => ret (error_result no_credentials_text)
   | Some creds =>
       try_catch
         (clientsTools <- loadDomain clients ;;
          result <- handleCall clientsTools "superops_clients_list" [("max", num 1)] ;;
          if match isError result with Some b => b | None => false end
          then ret result
          else
            ret (text_result (Some
              ("Connection successful!" ++ nl ++ nl ++ "Credentials configured for:" ++ nl
               ++ "- Subdomain: " ++ subdomain creds ++ nl
               ++ "- Region: " ++ match region creds with Some r => r | None => "us" end
               ++ nl ++ nl ++ "API is responding correctly."))))
         (fun error =>
            message <- lift (catch_message error) ;;
            ret (error_result ("Connection test failed: " ++ message)))
   end).
Proof. reflexivity. Qed.

Lemma callTool_back (args : option obj) (w : World) :
  exists msg,
    callTool "superops_back" args w
    = (Returned (text_result (Some msg)), set_currentDomain None w).
Proof. eexists. reflexivity. Qed.

Lemma callTool_navigate (args : option obj) (w : World) :
  callTool "superops_navigate" args w =
  (let domain := prop (match args with Some a => a | None => [] end) "domain" in
   if negb (truthy domain) || negb (includes_domain domain) then
     ret (error_result
            ("Invalid domain. Please choose from: " ++ join ", " (map domain_name validDomains)))
   else
     match as_Domain domain with
     | None =>
         shown <- lift (coerced (String_of domain)) ;;
         throw (ThrownError (new_Error ("Unknown domain: " ++ shown)))
     | Some d =>
         write (set_currentDomain (Some d)) ;;;
         domainTools <- loadDomain d ;;
         ret (text_result (Some
           ("Navigated to " ++ domain_name d ++ " domain. Available tools:" ++ nl ++ nl
            ++ join nl (map tool_line (tools domainTools))
            ++ nl ++ nl ++ "Use superops_back to return to the main menu.")))
     end) w.
Proof. reflexivity. Qed.

Lemma navigate_valid (args : option obj) (w : World) (d : Domain) :
  prop (match args with Some a => a | None => [] end) "domain" = VStr (domain_name d) ->
  exists msg cache,
    callTool "superops_navigate" args w
    = (Returned (text_result (Some msg)),
       set_domainCache cache (set_currentDomain (Some d) w)).
Proof.
  intros H. rewrite callTool_navigate. cbv zeta. rewrite H.
  unfold includes_domain. rewrite as_Domain_name.
  replace (truthy (VStr (domain_name d))) with true by now destruct d.
  cbn [negb orb]. unfold bind at 1. unfold write at 1. cbn [fst snd].
  unfold bind.
  destruct (loadDomain_run d (set_currentDomain (Some d) w)) as [cache ->].
  unfold ret. now eexists _, cache.
Qed.

Lemma navigate_invalid (args : option obj) (w : World) :
  (forall d, prop (match args with Some a => a | None => [] end) "domain"
             <> VStr (domain_name d)) ->
  callTool "superops_navigate" args w
  = (Returned (error_result
       "Invalid domain. Please choose from: clients, tickets, assets, technicians, custom"), w).
Proof.
  intros H. rewrite callTool_navigate. cbv zeta.
  set (domain := prop _ "domain") in *.
  assert (Hinc : includes_domain domain = false).
  { unfold includes_domain. destruct (as_Domain domain) as [d|] eqn:E; [|reflexivity].
    apply as_Domain_Some in E. now elim (H d). }
  rewrite Hinc. cbn [negb]. rewrite orb_true_r. reflexivity.
Qed.

Lemma listTools_navigation (w : World) :
  currentDomain w = None ->
  listTools w = (Returned [testConnectionTool; navigationTool], w).
Proof. intros H. unfold listTools, bind, read. now rewrite H. Qed.

Lemma callTool_domain (name : string) (args : option obj) :
  is_navigation_tool name = false ->
  callTool name args =
  (creds <- read (fun w => getCredentials (env w)) ;;
   match creds with
   | None => ret (error_result no_credentials_text)
   | Some _ =>
       current <- read currentDomain ;;
       handled <-
         match current with
         | Some current =>
             domainTools <- loadDomain current ;;
             let toolBelongsToDomain := some_named name (tools domainTools) in
             if toolBelongsToDomain then
               result <- handleCall domainTools name (match args with Some a => a | None => [] end) ;;
               ret (Some result)
             else ret None
         | None => ret None
         end ;;
       match handled with
       | Some result => ret result
       | None => find_in_domains allDomains name args
       end
   end).
Proof.
  unfold is_navigation_tool. intros H.
  apply orb_false_iff in H as [H H3]. apply orb_false_iff in H as [H1 H2].
  unfold callTool. now rewrite H1, H2, H3.
Qed.

Lemma find_in_domains_run (domains : list Domain) (name : string) (args : option obj)
    (w : World) :
  match find (fun d => some_named name (tools (domain_module d))) domains with
  | Some d =>
      exists cache,
        find_in_domains domains name args w
        = handleCall (domain_module d) name (match args with Some a => a | None => [] end)
            (set_currentDomain (Some d) (set_domainCache cache w))
  | None =>
      exists cache,
        find_in_domains domains name args w
        = (Returned (error_result
             ("Unknown tool: " ++ name ++ ". Use superops_navigate to explore available tools.")),
           set_domainCache cache w)
  end.
Proof.
  revert w. induction domains as [|d rest IH]; intro w.
  - exists (domainCache w). now rewrite set_domainCache_same.
  - destruct (loadDomain_run d w) as [cache Hload].
    assert (Hstep :
      find_in_domains (d :: rest) name args w
      = if some_named name (tools (domain_module d))
        then handleCall (domain_module d) name (match args with Some a => a | None => [] end)
               (set_currentDomain (Some d) (set_domainCache cache w))
        else find_in_domains rest name args (set_domainCache cache w)).
    { cbn [find_in_domains]. unfold bind at 1. rewrite Hload. cbv zeta.
      now destruct (some_named name (tools (domain_module d))). }
    rewrite Hstep. cbn [find].
    destruct (some_named name (tools (domain_module d))).
    + now exists cache.
    + specialize (IH (set_domainCache cache w)).
      destruct (find _ rest) as [d'|]; destruct IH as [cache' ->]; now exists cache'.
Qed.

(** With credentials set, a call that is neither a navigation tool nor a
    tool of the active domain is exactly the scan of all the domains. *)
Lemma callTool_fallback (name : string) (args : option obj) (w : World) :
  is_navigation_tool name = false ->
  getCredentials (env w) <> None ->
  belongs_to_active name w = false ->
  exists cache,
    callTool name args w = find_in_domains allDomains name args (set_domainCache cache w).
Proof.
  intros Hnav Hcreds Hact. rewrite (callTool_domain _ _ Hnav).
  unfold bind at 1, read at 1.
  destruct (getCredentials (env w)) as [creds|]; [clear Hcreds | now elim Hcreds].
  unfold bind at 1, read at 1. unfold belongs_to_active in Hact.
  destruct (currentDomain w) as [cur|].
  - unfold bind at 1. unfold bind at 1.
    destruct (loadDomain_run cur w) as [cache ->].
    cbv zeta. rewrite Hact. unfold ret at 1. now exists cache.
  - unfold bind at 1, ret at 1. exists (domainCache w). now rewrite set_domainCache_same.
Qed.

Lemma clients_tool_names (wanted : string) :
  some_named wanted clients_tools = true ->
  wanted = "superops_clients_list" \/ wanted = "superops_clients_get"
  \/ wanted = "superops_clients_search".
Proof.
  unfold some_named, clients_tools. cbn [existsb name superops_clients_list_tool
    superops_clients_get_tool superops_clients_search_tool].
  intros H. repeat (apply orb_true_iff in H as [H|H]); try discriminate;
    apply String.eqb_eq in H; auto.
Qed.

(** ** Navigation and dispatch: the claims *)



(** C2. [superops_navigate] with a [domain] argument that is one of the
    five domains makes that domain active and returns a result that is not
    an error; with no such argument, or any other value, it leaves the
    world as it was and returns the error that lists the five domains. *)
Theorem navigate_transitions (args : option obj) (w : World) :
  let domain := prop (match args with Some a => a | None => [] end) "domain" in
  (forall d, domain = VStr (domain_name d) ->
     exists msg w',
       callTool "superops_navigate" args w = (Returned (text_result (Some msg)), w')
       /\ isError (text_result (Some msg)) = None
       /\ currentDomain w' = Some d)
  /\ ((forall d, domain <> VStr (domain_name d)) ->
      callTool "superops_navigate" args w
      = (Returned (error_result
           "Invalid domain. Please choose from: clients, tickets, assets, technicians, custom"), w)
      /\ isError (error_result
           "Invalid domain. Please choose from: clients, tickets, assets, technicians, custom")
         = Some true).
Proof.
  intro domain. split.
  - intros d Hd. destruct (navigate_valid args w d Hd) as (msg & cache & ->).
    now exists msg, (set_domainCache cache (set_currentDomain (Some d) w)).
  - intros Hbad. split; [now apply navigate_invalid | reflexivity].
Qed.

(** C3. After [superops_navigate] to clients, any sequence of calls, and
    [superops_back], the listed tools are exactly the connection test and
    the navigate tool. [superops_back] always returns a result that is not
    an error and leaves no domain active; when none was active it leaves
    the world as it was. *)
Theorem navigate_back_list (w : World) (calls : list Call) :
  let w1 := snd (callTool "superops_navigate" (Some [("domain", VStr "clients")]) w) in
  let w2 := run_calls calls w1 in
  let w3 := snd (callTool "superops_back" None w2) in
  currentDomain w1 = Some clients
  /\ listTools w3 = (Returned [testConnectionTool; navigationTool], w3)
  /\ (forall (args : option obj) (v : World),
        exists msg,
          callTool "superops_back" args v
          = (Returned (text_result (Some msg)), set_currentDomain None v)
          /\ isError (text_result (Some msg)) = None
          /\ currentDomain (set_currentDomain None v) = None)
  /\ (forall (args : option obj) (v : World),
        currentDomain v = None -> snd (callTool "superops_back" args v) = v).
Proof.
  intros w1 w2 w3. split; [|split; [|split]].
  - subst w1.
    destruct (navigate_valid (Some [("domain", VStr "clients")]) w clients eq_refl)
      as (msg & cache & ->).
    reflexivity.
  - apply listTools_navigation. subst w3.
    destruct (callTool_back None w2) as [msg ->]. reflexivity.
  - intros args v. destruct (callTool_back args v) as [msg ->]. now exists msg.
  - intros args v Hv. destruct (callTool_back args v) as [msg ->].
    cbn [snd]. rewrite <- Hv. apply set_currentDomain_same.
Qed.

(** C10. [superops_test_connection] leaves the active domain as it was,
    whether the credentials are missing or the probe of the clients module
    succeeds or fails. *)
Theorem test_connection_keeps_domain (args : option obj) (w : World) :
  currentDomain (snd (callTool "superops_test_connection" args w)) = currentDomain w.
Proof.
  rewrite callTool_test_connection. unfold bind at 1, read at 1.
  destruct (getCredentials (env w)) as [creds|]; [|reflexivity].
  unfold try_catch, bind.
  destruct (loadDomain_run clients w) as [cache ->].
  pose proof (framed_handleCall clients "superops_clients_list" [("max", num 1)]
                (set_domainCache cache w)) as (_ & _ & Hf).
  destruct (handleCall (domain_module clients) "superops_clients_list" _ _) as [[r|t] w'];
    cbn [snd] in Hf.
  - destruct (match isError r with Some b => b | None => false end); exact Hf.
  - unfold lift. destruct (catch_message t); exact Hf.
Qed.

(** ** Requests issued by the domain modules *)

Lemma query_run (c : SuperOpsClient) (q v : value) (w : World) :
  SuperOpsClient_query c q v w
  = (query_settle (network w (sent w) (build_request c q v)),
     set_sent (sent w ++ [build_request c q v])%list w).
Proof. reflexivity. Qed.

(** A case of a [switch] that sends one request and then shapes the
    response issues exactly that request. *)
Lemma handleCall_issues (d : Domain) (name : string) (args : obj) (w : World)
    (creds : SuperOpsCredentials) (q vars : value) (f : value -> CallToolResult) :
  getCredentials (env w) = Some creds ->
  (forall c w', domain_switch d c name args w'
                = (response <- SuperOpsClient_query c q vars ;; ret (f response)) w') ->
  exists client,
    issued (handleCall (domain_module d) name args) w = [build_request client q vars].
Proof.
  intros Hc Hsw. destruct (handleCall_run d name args w creds Hc) as (client & _ & Hrun).
  exists client. unfold issued. rewrite Hrun, Hsw. unfold bind. rewrite query_run.
  destruct (query_settle _); cbn [snd sent set_sent set_client];
    apply (skipn_length_app (sent w)).
Qed.

Lemma skipn_length_self {A : Type} (l : list A) : skipn (List.length l) l = [].
Proof. induction l; simpl; auto. Qed.

(** A case of a [switch] that throws the [TypeError] of a coercion before
    it sends anything issues no request and returns the rendered error. *)
Lemma handleCall_coercion_throws (d : Domain) (name : string) (args : obj) (w : World)
    (creds : SuperOpsCredentials) :
  getCredentials (env w) = Some creds ->
  (forall c w', domain_switch d c name args w' = (Threw cannot_convert, w')) ->
  issued (handleCall (domain_module d) name args) w = []
  /\ fst (handleCall (domain_module d) name args w)
     = Returned (error_result "Error: Cannot convert object to primitive value").
Proof.
  intros Hc Hsw. destruct (handleCall_run d name args w creds Hc) as (client & _ & Hrun).
  unfold issued. rewrite Hrun, Hsw. cbn [fst snd sent set_client].
  split; [apply skipn_length_self | reflexivity].
Qed.

Lemma bind_coerced_Some {A B : Type} (a : A) (k : A -> Exec B) :
  bind (lift (coerced (Some a))) k = k a.
Proof. reflexivity. Qed.

Lemma bind_coerced_None {A B : Type} (k : A -> Exec B) :
  bind (lift (coerced None)) k = throw cannot_convert.
Proof. reflexivity. Qed.

(** The coercion of [max ?? default] fails exactly when that of [max] does. *)
Lemma Math_min_nullish (v : value) (default cap : float) :
  Math_min (nullish v (num default)) (num cap) = None <-> ToNumber v = None.
Proof.
  unfold Math_min. destruct v as [| | b | f | s | l | o]; cbn [nullish num ToNumber];
    try (split; discriminate).
  - destruct b; split; discriminate.
  - destruct (option_map _ _); split; congruence.
  - destruct (has_key "toString" o); split; congruence.
Qed.

Ltac unfold_switch :=
  cbv beta iota zeta delta
    [domain_switch clients_switch tickets_switch assets_switch technicians_switch
     custom_switch];
  cbn [String.eqb Ascii.eqb Bool.eqb].

(** The request of a tool that takes [max], once [Math.min] has given
    [first]; and no request when it throws. *)
Ltac issues_first Hc Hf :=
  match goal with
  | |- context [issued (handleCall (domain_module ?d) ?n ?args) ?w] =>
      let client := fresh "client" in
      let Hi := fresh "Hi" in
      edestruct (handleCall_issues d n args w) as [client Hi];
      [exact Hc
      | intros ? ?; unfold_switch; rewrite Hf, bind_coerced_Some; reflexivity |]
  end.

Ltac no_request Hc Hf :=
  match goal with
  | |- context [issued (handleCall (domain_module ?d) ?n ?args) ?w] =>
      apply (handleCall_coercion_throws d n args w _ Hc);
      intros ? ?; unfold_switch; rewrite Hf, bind_coerced_None; reflexivity
  end.



Lemma spread_nonempty_filter (o filter : obj) :
  spread o (nonempty_filter filter)
  = if (0 <? List.length (Object_keys filter))%nat
    then set_prop o "filter" (VObj filter) else o.
Proof. unfold nonempty_filter. now rewrite spread_JSand. Qed.

Lemma lookup_spread_JSand_other (o : obj) (c : value) (k k' : string) (v : value) :
  k' <> k -> lookup k (spread o (JSand c (VObj [(k', v)]))) = lookup k o.
Proof.
  intros H. rewrite spread_JSand.
  destruct (truthy c); [now apply lookup_set_prop_other | reflexivity].
Qed.

Lemma lookup_spread_filter_other (o filter : obj) (k : string) :
  "filter" <> k -> lookup k (spread o (nonempty_filter filter)) = lookup k o.
Proof. intros H. unfold nonempty_filter. now apply lookup_spread_JSand_other. Qed.

Lemma lookup_spread_filter (o filter : obj) :
  lookup "filter" (spread o (nonempty_filter filter))
  = if (0 <? List.length (Object_keys filter))%nat then Some (VObj filter)
    else lookup "filter" o.
Proof.
  rewrite spread_nonempty_filter.
  destruct (0 <? _)%nat; [apply lookup_set_prop_same | reflexivity].
Qed.

Lemma lookup_assign_if_same (c : value) (o : obj) (k : string) (v : value) :
  truthy c = true -> lookup k (assign_if c o k v) = Some v.
Proof. intros H. rewrite assign_if_true by exact H. apply lookup_set_prop_same. Qed.

Lemma assign_if_not_empty (c : value) (o : obj) (k : string) (v : value) :
  (0 <? List.length (Object_keys o))%nat = true ->
  (0 <? List.length (Object_keys (assign_if c o k v)))%nat = true.
Proof.
  intros H. unfold assign_if. destruct (truthy c); [apply set_prop_not_empty | exact H].
Qed.

Lemma assign_if_true_not_empty (c : value) (o : obj) (k : string) (v : value) :
  truthy c = true -> (0 <? List.length (Object_keys (assign_if c o k v)))%nat = true.
Proof. intros H. rewrite assign_if_true by exact H. apply set_prop_not_empty. Qed.

Lemma has_key_lookup (k : string) (o : obj) : has_key k o = false <-> lookup k o = None.
Proof. unfold has_key. destruct (lookup k o); split; congruence. Qed.

Ltac lookup_simpl :=
  repeat first
    [ rewrite lookup_set_prop_same
    | rewrite lookup_set_prop_other by discriminate
    | rewrite lookup_assign_if_other by discriminate
    | rewrite lookup_spread_filter_other by discriminate
    | rewrite lookup_spread_JSand_other by discriminate
    | rewrite lookup_spread_filter ].

(** ** Request shaping: the claims *)

(** C6. [superops_clients_list] called with no arguments issues one
    request whose input is exactly [{first: 50, orderBy: {field: name,
    direction: ASC}}], with no [filter] key. For every [max], whenever
    [Math.min (max ?? 50, 500)] gives a number [first], one request is
    issued and its input has that [first] and the same [orderBy]: a numeric
    [max] of [m] gives the minimum of [m] and 500 (so 1000 gives 500), an
    absent or null [max] gives 50. When [Math.min] throws instead (a [max]
    with no primitive value), no request is issued and the result is the
    rendered [TypeError]. *)
Theorem clients_list_request (args : obj) (w : World) (creds : SuperOpsCredentials) :
  getCredentials (env w) = Some creds ->
  let capped := Math_min (nullish (prop args "max") (num 50)) (num 500) in
  (args = [] ->
   exists client,
     issued (handleCall getClientsTools "superops_clients_list" args) w
     = [build_request client (VStr LIST_CLIENTS_QUERY)
          (VObj [("input", VObj
             [("first", num 50);
              ("orderBy", VObj [("field", VStr "name"); ("direction", VStr "ASC")])])])])
  /\ (forall first, capped = Some first ->
      exists client input,
        issued (handleCall getClientsTools "superops_clients_list" args) w
        = [build_request client (VStr LIST_CLIENTS_QUERY) (VObj [("input", VObj input)])]
        /\ lookup "first" input = Some first
        /\ lookup "orderBy" input
           = Some (VObj [("field", VStr "name"); ("direction", VStr "ASC")])
        /\ (truthy (prop args "status") = false -> truthy (prop args "stage") = false ->
            has_key "filter" input = false))
  /\ (forall m, prop args "max" = VNum m -> capped = Some (VNum (Math_min_float m 500)))
  /\ (prop args "max" = num 1000 -> capped = Some (num 500))
  /\ (prop args "max" = VUndefined \/ prop args "max" = VNull -> capped = Some (num 50))
  /\ (capped = None ->
      issued (handleCall getClientsTools "superops_clients_list" args) w = []
      /\ fst (handleCall getClientsTools "superops_clients_list" args w)
         = Returned (error_result "Error: Cannot convert object to primitive value")).
Proof.
  intros Hc capped. subst capped. split; [|split; [|split; [|split; [|split]]]].
  - intros ->.
    edestruct (handleCall_issues clients "superops_clients_list" [] w creds) as [client Hi];
      [exact Hc | intros c w'; reflexivity |].
    exists client. exact Hi.
  - intros first Hf.
    change getClientsTools with (domain_module clients). issues_first Hc Hf.
    exists client. eexists. split; [exact Hi|].
    split; [now lookup_simpl|]. split; [now lookup_simpl|].
    intros Hs Hg. apply has_key_lookup. lookup_simpl.
    now rewrite !assign_if_false by assumption.
  - intros m ->. reflexivity.
  - intros ->. reflexivity.
  - intros [-> | ->]; reflexivity.
  - intros Hf. change getClientsTools with (domain_module clients). no_request Hc Hf.
Qed.

(** C7. [superops_technicians_list] called with no arguments issues one
    request whose input is [{first: 50, filter: {isActive: true},
    orderBy}]. Whenever [Math.min (max ?? 50, 500)] gives a number, one
    request is issued: unless [activeOnly] is [false], and with no team
    given, its filter is exactly [{isActive: true}]; with
    [activeOnly: false] neither the input nor its filter has an [isActive]
    key, and when no team is given either, the input has no [filter] key.
    When [Math.min] throws, no request is issued. *)
Theorem technicians_list_request (args : obj) (w : World) (creds : SuperOpsCredentials) :
  getCredentials (env w) = Some creds ->
  let capped := Math_min (nullish (prop args "max") (num 50)) (num 500) in
  (args = [] ->
   exists client,
     issued (handleCall getTechniciansTools "superops_technicians_list" args) w
     = [build_request client (VStr LIST_TECHNICIANS_QUERY)
          (VObj [("input", VObj
             [("first", num 50);
              ("filter", VObj [("isActive", VBool true)]);
              ("orderBy", VObj [("field", VStr "name"); ("direction", VStr "ASC")])])])])
  /\ (forall first, capped = Some first ->
      exists client input,
        issued (handleCall getTechniciansTools "superops_technicians_list" args) w
        = [build_request client (VStr LIST_TECHNICIANS_QUERY) (VObj [("input", VObj input)])]
        /\ (not_false (prop args "activeOnly") = true ->
            truthy (prop args "teamId") = false ->
            lookup "filter" input = Some (VObj [("isActive", VBool true)]))
        /\ (prop args "activeOnly" = VBool false ->
            has_key "isActive" input = false
            /\ forall filter, lookup "filter" input = Some (VObj filter) ->
                              has_key "isActive" filter = false)
        /\ (prop args "activeOnly" = VBool false -> truthy (prop args "teamId") = false ->
            has_key "filter" input = false))
  /\ (capped = None ->
      issued (handleCall getTechniciansTools "superops_technicians_list" args) w = []
      /\ fst (handleCall getTechniciansTools "superops_technicians_list" args w)
         = Returned (error_result "Error: Cannot convert object to primitive value")).
Proof.
  intros Hc capped. subst capped. split; [|split].
  - intros ->.
    edestruct (handleCall_issues technicians "superops_technicians_list" [] w creds)
      as [client Hi]; [exact Hc | intros c w'; reflexivity |].
    exists client. exact Hi.
  - intros first Hf.
    change getTechniciansTools with (domain_module technicians). issues_first Hc Hf.
    exists client. eexists. split; [exact Hi|].
    split.
    { intros Ha Ht. rewrite Ha. lookup_simpl.
      now rewrite assign_if_false by exact Ht. }
    split.
    + intros Ha. rewrite Ha. cbn [not_false]. split.
      * apply has_key_lookup. now lookup_simpl.
      * intros filter. lookup_simpl.
        destruct (0 <? _)%nat; [|discriminate].
        intros [= <-]. apply has_key_lookup. now lookup_simpl.
    + intros Ha Ht. rewrite Ha. cbn [not_false].
      rewrite assign_if_false by exact Ht.
      apply has_key_lookup. now lookup_simpl.
  - intros Hf. change getTechniciansTools with (domain_module technicians).
    no_request Hc Hf.
Qed.

(** C8. [superops_tickets_list] with [unassigned: true]: whenever
    [Math.min (max ?? 50, 500)] gives a number, one request is issued and
    its filter holds the key [assignee] with the value [null], whatever the
    other arguments; the keys [status], [priority] and [client] are absent
    from that filter when the argument behind them is absent. With no other
    argument the filter is exactly [{assignee: null}]. When [Math.min]
    throws, no request is issued. *)
Theorem tickets_list_unassigned (args : obj) (w : World) (creds : SuperOpsCredentials) :
  getCredentials (env w) = Some creds ->
  prop args "unassigned" = VBool true ->
  let capped := Math_min (nullish (prop args "max") (num 50)) (num 500) in
  (forall first, capped = Some first ->
   exists client input filter,
     issued (handleCall getTicketsTools "superops_tickets_list" args) w
     = [build_request client (VStr LIST_TICKETS_QUERY) (VObj [("input", VObj input)])]
     /\ lookup "filter" input = Some (VObj filter)
     /\ lookup "assignee" filter = Some VNull
     /\ (prop args "status" = VUndefined -> has_key "status" filter = false)
     /\ (prop args "priority" = VUndefined -> has_key "priority" filter = false)
     /\ (prop args "clientId" = VUndefined -> has_key "client" filter = false))
  /\ (args = [("unassigned", VBool true)] ->
      exists client,
        issued (handleCall getTicketsTools "superops_tickets_list" args) w
        = [build_request client (VStr LIST_TICKETS_QUERY)
             (VObj [("input", VObj
                [("first", num 50);
                 ("filter", VObj [("assignee", VNull)]);
                 ("orderBy", VObj [("field", VStr "createdTime");
                                   ("direction", VStr "DESC")])])])])
  /\ (capped = None ->
      issued (handleCall getTicketsTools "superops_tickets_list" args) w = []
      /\ fst (handleCall getTicketsTools "superops_tickets_list" args w)
         = Returned (error_result "Error: Cannot convert object to primitive value")).
Proof.
  intros Hc Hu capped. subst capped. split; [|split].
  - intros first Hf.
    change getTicketsTools with (domain_module tickets). issues_first Hc Hf.
    exists client. eexists. eexists. split; [exact Hi|].
    rewrite Hu.
    split.
    { lookup_simpl. rewrite assign_if_true_not_empty by reflexivity. reflexivity. }
    split; [now apply lookup_assign_if_same|].
    repeat split; intros Hx; apply has_key_lookup; lookup_simpl;
      rewrite Hx; rewrite (assign_if_false VUndefined) by reflexivity; now lookup_simpl.
  - intros ->.
    edestruct (handleCall_issues tickets "superops_tickets_list"
                 [("unassigned", VBool true)] w creds)
      as [client Hi]; [exact Hc | intros c w'; reflexivity |].
    exists client. exact Hi.
  - intros Hf. change getTicketsTools with (domain_module tickets). no_request Hc Hf.
Qed.



(** ** Failures *)

(** C4 (as amended). With credentials that resolve, [handleCall] of every
    domain module gives what its [switch] returns, and when the [switch]
    throws, the error result whose text is [Error: ] followed by the
    message of a thrown [Error], or by the string coercion of any other
    thrown value that has one: a string is rendered as it is, an object
    without a [toString] property of its own as [[object Object]]. A thrown
    value without a string coercion makes the coercion in the [catch]
    block throw, and [handleCall] raises that [TypeError]. *)
Theorem handleCall_catches (d : Domain) (name : string) (args : obj) (w : World)
    (creds : SuperOpsCredentials) :
  getCredentials (env w) = Some creds ->
  (exists client,
     getClient w = (Returned client, set_client (Some client) w)
     /\ match domain_switch d client name args (set_client (Some client) w) with
        | (Returned r, w') => handleCall (domain_module d) name args w = (Returned r, w')
        | (Threw (ThrownError e), w') =>
            handleCall (domain_module d) name args w
            = (Returned {| content := [ {| type_ := "text";
                                           text := Some ("Error: " ++ error_message e) |} ];
                           isError := Some true |}, w')
        | (Threw (ThrownValue v), w') =>
            match String_of v with
            | Some s =>
                handleCall (domain_module d) name args w
                = (Returned {| content := [ {| type_ := "text";
                                               text := Some ("Error: " ++ s) |} ];
                               isError := Some true |}, w')
            | None => handleCall (domain_module d) name args w = (Threw cannot_convert, w')
            end
        end)
  /\ (forall s, String_of (VStr s) = Some s)
  /\ (forall o, has_key "toString" o = false -> String_of (VObj o) = Some "[object Object]")
  /\ (forall o, has_key "toString" o = true -> String_of (VObj o) = None).
Proof.
  intros Hc. split; [|split; [reflexivity|split]].
  - destruct (handleCall_run d name args w creds Hc) as (client & Hg & Hrun).
    exists client. split; [exact Hg|]. rewrite Hrun.
    destruct (domain_switch d client name args (set_client (Some client) w))
      as [[r|[e|v]] w']; try reflexivity.
    unfold caught. cbn [catch_message]. now destruct (String_of v).
  - intros o H. cbn [String_of]. now rewrite H.
  - intros o H. cbn [String_of]. now rewrite H.
Qed.

Lemma query_settle_named (o : FetchOutcome) (t : thrown) :
  named_failure o t -> query_settle o = Threw t.
Proof.
  intros [status statusText body Hok
         | status statusText result error message rest e Hok He Hm Hn
         | status statusText result errors Hok He Hf Hd];
    cbn [query_settle]; rewrite Hok; cbn [negb].
  - reflexivity.
  - rewrite He. cbn [cbind truthy positive_length List.length Nat.ltb Nat.leb first_element].
    rewrite Hm. cbn [cbind]. rewrite Hn. reflexivity.
  - rewrite He. cbn [cbind]. destruct Hf as [Hf | ->].
    + rewrite Hf. cbn [cbind]. now rewrite Hd.
    + cbn [truthy positive_length List.length Nat.ltb Nat.leb cbind]. now rewrite Hd.
Qed.

Lemma query_settle_passed_on (o : FetchOutcome) (t : thrown) :
  passed_on o t -> query_settle o = Threw t.
Proof.
  intros [t' | status statusText t' Hok]; cbn [query_settle]; [reflexivity|].
  now rewrite Hok.
Qed.

(** On a body of the declared shape the client raises only the named
    failures. *)
Lemma query_settle_declared (status : Z) (statusText : string) (result : value) (t : thrown) :
  response_ok status = true ->
  is_GraphQLResponse result = true ->
  query_settle (FetchResponded status statusText (JsonParsed result)) = Threw t ->
  named_failure (FetchResponded status statusText (JsonParsed result)) t.
Proof.
  intros Hok Hshape. cbn [query_settle]. rewrite Hok. cbn [negb].
  destruct result as [| | b | f | s | l | r]; try discriminate.
  cbn [is_GraphQLResponse] in Hshape. cbn [get member cbind].
  destruct (prop r "errors") as [| | b | f | s | errors | o] eqn:He; try discriminate.
  - cbn [truthy]. destruct (truthy (prop r "data")) eqn:Hd; cbn [negb]; [discriminate|].
    intros [= <-].
    refine (no_data_failure _ _ (VObj r) VUndefined Hok _ (or_introl eq_refl) Hd).
    cbn [get member]. now rewrite He.
  - destruct errors as [|error rest].
    + cbn [truthy positive_length List.length Nat.ltb Nat.leb cbind].
      destruct (truthy (prop r "data")) eqn:Hd; cbn [negb]; [discriminate|].
      intros [= <-].
      refine (no_data_failure _ _ (VObj r) (VArr []) Hok _ (or_intror eq_refl) Hd).
      cbn [get member]. now rewrite He.
    + cbn [forallb] in Hshape. apply andb_true_iff in Hshape as [Herr _].
      destruct error as [| | b | f | s | l | e]; try discriminate.
      cbn [is_GraphQLError] in Herr.
      destruct (prop e "message") as [| | b | f | msg | l | o] eqn:Hm; try discriminate.
      cbn [truthy positive_length List.length Nat.ltb Nat.leb cbind first_element get member].
      rewrite Hm. cbn [new_SuperOpsError String_of coerced cbind].
      intros [= <-]. eapply graphql_failure; eauto.
      * cbn [get member]. now rewrite He.
      * cbn [get member]. now rewrite Hm.
      * reflexivity.
Qed.

Lemma query_settle_threw (o : FetchOutcome) (t : thrown) :
  query_settle o = Threw t -> named_failure o t \/ passed_on o t \/ malformed o.
Proof.
  destruct o as [t'|status statusText body].
  - cbn [query_settle]. intros [= <-]. right. left. constructor.
  - destruct (response_ok status) eqn:Hok.
    + destruct body as [result|t'].
      * destruct (is_GraphQLResponse result) eqn:Hshape.
        -- intros H. left. now apply query_settle_declared.
        -- intros _. right. right. now exists status, statusText, result.
      * cbn [query_settle]. rewrite Hok. cbn [negb]. intros [= <-].
        right. left. now constructor.
    + cbn [query_settle]. rewrite Hok. cbn [negb]. intros [= <-]. left. now constructor.
Qed.

(** C9 (as amended). For [query] and [mutate] alike: a status outside
    200..299 raises [HTTP error: <status> <statusText>]; a parsed body of a
    successful response with a non-empty [errors] array raises a
    [SuperOpsError] with the first error's message, and with the code and
    retry-after of its extensions if it has them;
    one with no errors and no data raises [No data returned from GraphQL
    query]; otherwise the data is returned. The other errors raised are
    the rejections of [fetch] and of the parsing of the body, passed on as
    they are, and those of reading a parsed body that is not of the
    declared shape, which is cast without a check: a body of [null] raises
    a [TypeError], and so does a first error that is [null]. *)
Theorem query_outcomes (this : SuperOpsClient) (q v : value) (w : World) :
  let o := network w (sent w) (build_request this q v) in
  let c := fst (SuperOpsClient_query this q v w) in
  SuperOpsClient_mutate this q v w = SuperOpsClient_query this q v w
  /\ (forall t, named_failure o t -> c = Threw t)
  /\ (forall status statusText result errors,
        o = FetchResponded status statusText (JsonParsed result) ->
        response_ok status = true ->
        get result "errors" = Returned errors ->
        truthy errors = false \/ errors = VArr [] ->
        truthy (member result "data") = true ->
        c = Returned (member result "data"))
  /\ (forall status statusText r e rest message,
        o = FetchResponded status statusText (JsonParsed (VObj r)) ->
        response_ok status = true ->
        prop r "errors" = VArr (VObj e :: rest) ->
        prop e "message" = VStr message ->
        c = Threw (ThrownError
              {| error_name := "SuperOpsError"; error_message := message;
                 error_code := optional_member (prop e "extensions") "code";
                 error_retryAfter := optional_member (prop e "extensions") "retryAfter" |}))
  /\ (forall t, passed_on o t -> c = Threw t)
  /\ (forall t, c = Threw t -> named_failure o t \/ passed_on o t \/ malformed o)
  /\ (forall status statusText,
        o = FetchResponded status statusText (JsonParsed VNull) ->
        response_ok status = true ->
        c = Threw (ThrownError (new_TypeError
              "Cannot read properties of null (reading 'errors')")))
  /\ (forall status statusText r rest,
        o = FetchResponded status statusText (JsonParsed (VObj r)) ->
        response_ok status = true ->
        prop r "errors" = VArr (VNull :: rest) ->
        c = Threw (ThrownError (new_TypeError
              "Cannot read properties of null (reading 'message')"))).
Proof.
  intros o c. assert (Hc : c = query_settle o) by reflexivity.
  clearbody c. subst c. clearbody o.
  split; [reflexivity|].
  split; [apply query_settle_named|].
  split; [|split; [|split; [apply query_settle_passed_on|split; [apply query_settle_threw|split]]]].
  - intros status statusText result errors -> Hok He Hf Hd. cbn [query_settle].
    rewrite Hok. cbn [negb]. rewrite He. cbn [cbind]. destruct Hf as [Hf | ->].
    + rewrite Hf. cbn [cbind]. now rewrite Hd.
    + cbn [truthy positive_length List.length Nat.ltb Nat.leb cbind]. now rewrite Hd.
  - intros status statusText r e rest message -> Hok He Hm. cbn [query_settle].
    rewrite Hok. cbn [negb get member cbind]. rewrite He.
    cbn [truthy positive_length List.length Nat.ltb Nat.leb cbind first_element get member].
    now rewrite Hm.
  - intros status statusText -> Hok. cbn [query_settle]. now rewrite Hok.
  - intros status statusText r rest -> Hok He. cbn [query_settle]. rewrite Hok.
    cbn [negb get member cbind]. now rewrite He.
Qed.

(** ** What a [handleCall] does to the world *)

Lemma bind_ret_l {A B : Type} (a : A) (k : A -> Exec B) : bind (ret a) k = k a.
Proof. reflexivity. Qed.

Lemma bind_throw_l {A B : Type} (t : thrown) (k : A -> Exec B) :
  bind (throw t) k = throw t.
Proof. reflexivity. Qed.

Lemma sends_once_ret (c : SuperOpsClient) (r : CallToolResult) : sends_once c (ret r).
Proof. intro w. left. now eexists. Qed.

Lemma sends_once_throw (c : SuperOpsClient) (e : ErrorObject) :
  sends_once c (throw (ThrownError e)).
Proof. intro w. right. left. now eexists. Qed.

Lemma sends_once_query (c : SuperOpsClient) (q v : value) (f : value -> CallToolResult) :
  sends_once c (response <- SuperOpsClient_query c q v ;; ret (f response)).
Proof.
  intro w. right. right. exists q, v, f. unfold bind. rewrite query_run.
  now destruct (query_settle _).
Qed.

Ltac sends_once_step :=
  match goal with
  | |- sends_once _ (if ?b then _ else _) => destruct b
  | |- sends_once _ (ret _) => apply sends_once_ret
  | |- sends_once _ (throw _) => apply sends_once_throw
  | |- sends_once _ (bind (SuperOpsClient_query _ _ _) _) => apply sends_once_query
  | |- sends_once _ (bind (SuperOpsClient_mutate _ _ _) _) =>
      unfold SuperOpsClient_mutate; apply sends_once_query
  | |- sends_once _ (bind (lift (coerced ?n)) _) =>
      destruct n; [rewrite bind_coerced_Some | rewrite bind_coerced_None; unfold cannot_convert]
  | |- sends_once _ (bind (if ?b then _ else _) _) => destruct b
  | |- sends_once _ (bind (bind (call_toUpperCase _ ?v) _) _) =>
      destruct v; cbn [call_toUpperCase]
  | |- sends_once _ (bind (bind (ret _) _) _) => rewrite bind_ret_l
  | |- sends_once _ (bind (bind (throw _) _) _) => rewrite bind_throw_l
  | |- sends_once _ (bind (ret _) _) => rewrite bind_ret_l
  | |- sends_once _ (bind (throw _) _) => rewrite bind_throw_l
  | |- sends_once _ _ => progress cbv beta zeta
  end.

Lemma sends_once_switch (d : Domain) (c : SuperOpsClient) (name : string) (args : obj) :
  sends_once c (domain_switch d c name args).
Proof.
  destruct d; cbv beta iota delta
    [domain_switch clients_switch tickets_switch assets_switch technicians_switch
     custom_switch];
    repeat sends_once_step.
Qed.

(** With credentials, a [handleCall] returns after sending nothing, or
    it sends one request whose outcome decides how it ends; besides the
    request log it writes only the cached client. *)
Lemma handleCall_shape (d : Domain) (name : string) (args : obj) (w : World)
    (creds : SuperOpsCredentials) :
  getCredentials (env w) = Some creds ->
  exists client,
    getClient w = (Returned client, set_client (Some client) w)
    /\ ((exists r, handleCall (domain_module d) name args w
                   = (Returned r, set_client (Some client) w))
        \/ (exists q v f,
              handleCall (domain_module d) name args w
              = (match query_settle (network w (sent w) (build_request client q v)) with
                 | Returned x => Returned (f x)
                 | Threw t => caught t
                 end,
                 set_sent (sent w ++ [build_request client q v])%list
                   (set_client (Some client) w)))).
Proof.
  intros Hc. destruct (handleCall_run d name args w creds Hc) as (client & Hg & Hrun).
  exists client. split; [exact Hg|]. rewrite Hrun.
  destruct (sends_once_switch d client name args (set_client (Some client) w))
    as [[r ->] | [[e ->] | (q & v & f & ->)]].
  - left. now eexists.
  - left. now eexists.
  - right. exists q, v, f. cbn [network sent set_client].
    now destruct (query_settle _).
Qed.

Lemma getClient_cached (w : World) (c : SuperOpsClient) :
  _client w = Some c -> getClient w = (Returned c, w).
Proof. intros H. unfold getClient, bind, read. now rewrite H. Qed.

Lemma getClient_fresh (w : World) (creds : SuperOpsCredentials) :
  _client w = None -> getCredentials (env w) = Some creds ->
  getClient w
  = (Returned (new_SuperOpsClient creds), set_client (Some (new_SuperOpsClient creds)) w).
Proof. intros H Hc. unfold getClient, bind, read. now rewrite H, Hc. Qed.

Lemma getClient_which (w : World) (creds : SuperOpsCredentials) (client : SuperOpsClient)
    (w' : World) :
  getCredentials (env w) = Some creds ->
  getClient w = (Returned client, w') ->
  client = match _client w with Some c => c | None => new_SuperOpsClient creds end.
Proof.
  intros Hc Hg. destruct (_client w) as [c|] eqn:E.
  - rewrite (getClient_cached w c E) in Hg. congruence.
  - rewrite (getClient_fresh w creds E Hc) in Hg. congruence.
Qed.

(** The requests a [handleCall] issues, read off its shape. *)
Lemma handleCall_issued (d : Domain) (name : string) (args : obj) (w : World)
    (creds : SuperOpsCredentials) :
  getCredentials (env w) = Some creds ->
  let client := match _client w with Some c => c | None => new_SuperOpsClient creds end in
  (issued (handleCall (domain_module d) name args) w = []
   /\ exists r, handleCall (domain_module d) name args w
                = (Returned r, set_client (Some client) w))
  \/ (exists q v f,
        issued (handleCall (domain_module d) name args) w = [build_request client q v]
        /\ handleCall (domain_module d) name args w
           = (match query_settle (network w (sent w) (build_request client q v)) with
              | Returned x => Returned (f x)
              | Threw t => caught t
              end,
              set_sent (sent w ++ [build_request client q v])%list
                (set_client (Some client) w))).
Proof.
  intros Hc client.
  destruct (handleCall_shape d name args w creds Hc) as (c & Hg & Hs).
  assert (c = client) as -> by (eapply getClient_which; eauto).
  destruct Hs as [[r Hr] | (q & v & f & Hr)].
  - left. split; [|now exists r]. unfold issued. rewrite Hr.
    apply skipn_length_self.
  - right. exists q, v, f. split; [|exact Hr]. unfold issued. rewrite Hr.
    apply (skipn_length_app (sent w)).
Qed.

(** ** Further properties of the domain modules *)

(** X1. With credentials, a [handleCall] leaves the environment, the
    network, the active domain and the module cache as they were, appends
    at most one request to the log, and leaves as cached client the one
    that was cached before or else the one built from the credentials. *)
Theorem handleCall_footprint (d : Domain) (name : string) (args : obj) (w : World)
    (creds : SuperOpsCredentials) :
  getCredentials (env w) = Some creds ->
  let w' := snd (handleCall (domain_module d) name args w) in
  env w' = env w /\ network w' = network w
  /\ currentDomain w' = currentDomain w /\ domainCache w' = domainCache w
  /\ (exists l, sent w' = (sent w ++ l)%list /\ (List.length l <= 1)%nat)
  /\ _client w'
     = Some (match _client w with Some c => c | None => new_SuperOpsClient creds end).
Proof.
  intros Hc w'. subst w'.
  destruct (handleCall_issued d name args w creds Hc)
    as [[_ [r ->]] | (q & v & f & _ & ->)]; cbn [snd];
    repeat (split; [reflexivity|]); (split; [|reflexivity]).
  - exists []. split; [now rewrite app_nil_r | auto].
  - eexists. split; [reflexivity | auto].
Qed.

(** X2. [getClient] keeps one client: a cached client is returned as it is,
    whatever the environment says now; with none cached and credentials
    missing it throws and caches nothing; with credentials it builds the
    client, caches it, and a second call returns the same client and
    changes nothing; after [resetClient] the next call builds the client
    anew from the environment. *)
Theorem getClient_memoizes (w : World) :
  (forall c, _client w = Some c -> getClient w = (Returned c, w))
  /\ (_client w = None -> getCredentials (env w) = None ->
      getClient w
      = (Threw (ThrownError (new_Error
           "SuperOps credentials not configured. Set SUPEROPS_API_TOKEN and SUPEROPS_SUBDOMAIN environment variables.")),
         w))
  /\ (forall creds, _client w = None -> getCredentials (env w) = Some creds ->
      exists w1,
        getClient w = (Returned (new_SuperOpsClient creds), w1)
        /\ _client w1 = Some (new_SuperOpsClient creds)
        /\ getClient w1 = (Returned (new_SuperOpsClient creds), w1))
  /\ (forall creds, getCredentials (env w) = Some creds ->
      fst (getClient (snd (resetClient w))) = Returned (new_SuperOpsClient creds)).
Proof.
  split; [apply getClient_cached|]. split; [|split].
  - intros Hn Hc. unfold getClient, bind, read. now rewrite Hn, Hc.
  - intros creds Hn Hc. eexists. split; [now apply getClient_fresh|].
    split; [reflexivity | now apply getClient_cached].
  - intros creds Hc. unfold resetClient, write. cbn [snd].
    now rewrite (getClient_fresh (set_client None w) creds eq_refl Hc).
Qed.

(** X3. Every request a [handleCall] issues is a JSON request to the
    endpoint of the client in use, with that client's token as bearer
    authorization and its subdomain as [CustomerSubDomain]; for a client
    built now, these are the token and subdomain of the credentials and the
    endpoint of their region, the US one when no region is set. *)
Theorem handleCall_request_headers (d : Domain) (name : string) (args : obj) (w : World)
    (creds : SuperOpsCredentials) :
  getCredentials (env w) = Some creds ->
  let client := match _client w with Some c => c | None => new_SuperOpsClient creds end in
  (forall req, In req (issued (handleCall (domain_module d) name args) w) ->
     url req = client_endpoint client
     /\ hdr_ContentType req = "application/json"
     /\ hdr_Authorization req = "Bearer " ++ client_apiToken client
     /\ hdr_CustomerSubDomain req = client_subdomain client)
  /\ (_client w = None ->
      client_apiToken client = apiToken creds
      /\ client_subdomain client = subdomain creds
      /\ (region creds = None \/ region creds = Some "us" ->
          client_endpoint client = Url "https://api.superops.ai/msp")
      /\ (region creds = Some "eu" ->
          client_endpoint client = Url "https://euapi.superops.ai/msp")).
Proof.
  intros Hc client. split.
  - intros req Hin.
    destruct (handleCall_issued d name args w creds Hc)
      as [[Hi _] | (q & v & f & Hi & _)]; fold client in Hi; rewrite Hi in Hin.
    + destruct Hin.
    + destruct Hin as [<- | []]. now repeat split.
  - intros Hn. subst client. rewrite Hn. cbn [new_SuperOpsClient client_apiToken
      client_subdomain client_endpoint].
    repeat split.
    + intros [-> | ->]; reflexivity.
    + intros ->. reflexivity.
Qed.

(** X4. When a [handleCall] has issued a request and the client raises an
    error for it, the result is the error result [Error: <message>]: the
    HTTP status line for a status outside 200..299, the string message of
    the first GraphQL error, the no-data message, the message of an [Error]
    that [fetch] was rejected with, or the string coercion of any other
    value it was rejected with when there is one. When there is none, the
    [handleCall] raises the [TypeError] of the coercion. *)
Theorem handleCall_renders_failures (d : Domain) (name : string) (args : obj) (w : World)
    (creds : SuperOpsCredentials) (req : HttpRequest) :
  getCredentials (env w) = Some creds ->
  issued (handleCall (domain_module d) name args) w = [req] ->
  let o := network w (sent w) req in
  let result := fst (handleCall (domain_module d) name args w) in
  (forall t, query_settle o = Threw t -> result = caught t)
  /\ (forall status statusText body,
        o = FetchResponded status statusText body -> response_ok status = false ->
        result = Returned (error_result
                   ("Error: HTTP error: " ++ Z_to_string status ++ " " ++ statusText)))
  /\ (forall status statusText r error rest message,
        o = FetchResponded status statusText (JsonParsed (VObj r)) ->
        response_ok status = true ->
        prop r "errors" = VArr (error :: rest) ->
        member error "message" = VStr message ->
        result = Returned (error_result ("Error: " ++ message)))
  /\ (forall status statusText r,
        o = FetchResponded status statusText (JsonParsed (VObj r)) ->
        response_ok status = true ->
        truthy (prop r "errors") = false \/ prop r "errors" = VArr [] ->
        truthy (prop r "data") = false ->
        result = Returned (error_result "Error: No data returned from GraphQL query"))
  /\ (forall e, o = FetchRejected (ThrownError e) ->
        result = Returned (error_result ("Error: " ++ error_message e)))
  /\ (forall v s, o = FetchRejected (ThrownValue v) -> String_of v = Some s ->
        result = Returned (error_result ("Error: " ++ s)))
  /\ (forall v, o = FetchRejected (ThrownValue v) -> String_of v = None ->
        result = Threw cannot_convert).
Proof.
  intros Hc Hi o result.
  assert (Hgen : forall t, query_settle o = Threw t -> result = caught t).
  { intros t Ht. subst result o.
    destruct (handleCall_issued d name args w creds Hc)
      as [[Hi' _] | (q & v & f & Hi' & Hr)]; rewrite Hi' in Hi; [discriminate|].
    injection Hi as <-. rewrite Hr. cbn [fst]. now rewrite Ht. }
  split; [exact Hgen|]. split; [|split; [|split; [|split; [|split]]]].
  - intros status statusText body Ho Hok.
    apply (Hgen (ThrownError (new_Error
             ("HTTP error: " ++ Z_to_string status ++ " " ++ statusText)))).
    rewrite Ho. apply query_settle_named. now constructor.
  - intros status statusText r error rest message Ho Hok He Hm.
    assert (Herr : get error "message" = Returned (VStr message)).
    { destruct error; try discriminate. cbn [get]. now rewrite Hm. }
    rewrite (Hgen (ThrownError
               {| error_name := "SuperOpsError"; error_message := message;
                  error_code := optional_member (member error "extensions") "code";
                  error_retryAfter :=
                    optional_member (member error "extensions") "retryAfter" |}));
      [reflexivity|].
    rewrite Ho. apply query_settle_named.
    eapply graphql_failure; [exact Hok | cbn [get member]; now rewrite He | exact Herr |].
    reflexivity.
  - intros status statusText r Ho Hok He Hd.
    apply (Hgen (ThrownError (new_Error "No data returned from GraphQL query"))).
    rewrite Ho. apply query_settle_named.
    now apply (no_data_failure _ _ (VObj r) (prop r "errors")).
  - intros e Ho. rewrite (Hgen (ThrownError e)); [reflexivity | now rewrite Ho].
  - intros v s Ho Hs. rewrite (Hgen (ThrownValue v)); [|now rewrite Ho].
    unfold caught. cbn [catch_message]. now rewrite Hs.
  - intros v Ho Hs. rewrite (Hgen (ThrownValue v)); [|now rewrite Ho].
    unfold caught. cbn [catch_message]. now rewrite Hs.
Qed.

Lemma switch_unknown (d : Domain) (c : SuperOpsClient) (wanted : string) (args : obj) :
  some_named wanted (tools (domain_module d)) = false ->
  domain_switch d c wanted args = ret (error_result (unknown_tool_text d wanted)).
Proof.
  intros H.
  destruct d; cbv beta iota delta
    [domain_switch clients_switch tickets_switch assets_switch technicians_switch
     custom_switch];
    repeat match goal with
           | |- context [if wanted =? ?k then _ else _] =>
               destruct (String.eqb_spec wanted k); [subst wanted; now vm_compute in H|]
           end;
    reflexivity.
Qed.

Lemma catalog_names (d : Domain) (wanted : string) :
  some_named wanted (tools (domain_module d)) = true ->
  In wanted (map name (tools (domain_module d))).
Proof.
  unfold some_named. intros H. apply existsb_exists in H as (t & Hin & Ht).
  apply String.eqb_eq in Ht. subst wanted. now apply in_map.
Qed.

Ltac issues_by_reflexivity Hc :=
  match goal with
  | |- exists req, issued (handleCall (domain_module ?d) ?n ?args) ?w = [req] =>
      let client := fresh "client" in
      let Hi := fresh "Hi" in
      edestruct (handleCall_issues d n args w) as [client Hi];
      [exact Hc | intros ? ?; reflexivity | eexists; exact Hi]
  end.

Ltac issues_with_priority Hc Hp Ht :=
  match goal with
  | |- exists req, issued (handleCall (domain_module ?d) ?n ?args) ?w = [req] =>
      let client := fresh "client" in
      let Hi := fresh "Hi" in
      edestruct (handleCall_issues d n args w) as [client Hi];
      [exact Hc
      | intros ? ?; unfold_switch; rewrite ?Hp, ?Ht; reflexivity
      | eexists; exact Hi]
  end.

(** For a tool that takes [max], with the default and the cap of the
    tool: the request when [max] converts, none when it does not. *)
Ltac issues_with_max Hc args Hmax :=
  let Hf := fresh "Hf" in
  let go default cap :=
    (destruct (Math_min (nullish (prop args "max") (num default)) (num cap)) eqn:Hf;
     [issues_first Hc Hf; eexists; eassumption
     | apply Math_min_nullish in Hf; now elim Hmax]) in
  first [go 50%float 500%float | go 20%float 100%float | go 100%float 500%float].

Ltac no_request_with_max Hc args Hnone :=
  let Hf := fresh "Hf" in
  let go default cap :=
    (assert (Hf : Math_min (nullish (prop args "max") (num default)) (num cap) = None)
       by (now apply Math_min_nullish);
     no_request Hc Hf) in
  first [go 50%float 500%float | go 20%float 100%float | go 100%float 500%float].

(** X5. The catalog of a module and the cases of its [switch] agree: a
    name outside the catalog gets the result [Unknown <domain> tool:
    <name>] and no request is sent; a name in the catalog sends exactly one
    request, given a [priority] that is absent, falsy or a string for the
    two ticket mutations, and a [max] that converts to a number for the
    tools that take one; with a [max] that does not, those tools send
    nothing and return the rendered [TypeError]. *)
Theorem catalog_matches_switch (d : Domain) (wanted : string) (args : obj) (w : World)
    (creds : SuperOpsCredentials) :
  getCredentials (env w) = Some creds ->
  (some_named wanted (tools (domain_module d)) = false ->
   fst (handleCall (domain_module d) wanted args w)
   = Returned (error_result (unknown_tool_text d wanted))
   /\ issued (handleCall (domain_module d) wanted args) w = [])
  /\ (some_named wanted (tools (domain_module d)) = true ->
      (wanted = "superops_tickets_create" \/ wanted = "superops_tickets_update" ->
       truthy (prop args "priority") = false \/ exists s, prop args "priority" = VStr s) ->
      (takes_max d wanted = true -> ToNumber (prop args "max") <> None) ->
      exists req, issued (handleCall (domain_module d) wanted args) w = [req])
  /\ (takes_max d wanted = true -> ToNumber (prop args "max") = None ->
      issued (handleCall (domain_module d) wanted args) w = []
      /\ fst (handleCall (domain_module d) wanted args w)
         = Returned (error_result "Error: Cannot convert object to primitive value")).
Proof.
  intros Hc. split; [|split].
  - intros Hout. destruct (handleCall_run d wanted args w creds Hc) as (client & _ & Hrun).
    unfold issued. rewrite Hrun, (switch_unknown d client wanted args Hout).
    split; [reflexivity|]. apply skipn_length_self.
  - intros Hin Hp Hmax. apply catalog_names in Hin.
    destruct d; cbn in Hin;
      repeat match type of Hin with
             | _ \/ _ => destruct Hin as [Hin|Hin]
             | False => destruct Hin
             end; subst wanted;
      try issues_by_reflexivity Hc;
      try (specialize (Hmax eq_refl); issues_with_max Hc args Hmax).
    + destruct Hp as [Hp|[s Hp]]; [now left | |].
      * issues_with_priority Hc Hp Hp.
      * destruct (truthy (VStr s)) eqn:Ht; issues_with_priority Hc Hp Ht.
    + destruct Hp as [Hp|[s Hp]]; [now right | |].
      * issues_with_priority Hc Hp Hp.
      * destruct (truthy (VStr s)) eqn:Ht; issues_with_priority Hc Hp Ht.
  - intros Hmax Hnone. unfold takes_max in Hmax.
    apply existsb_exists in Hmax as ([[[d' tool] default] cap] & Hin & Hd).
    cbn [fst snd] in Hd. apply andb_true_iff in Hd as [Hd Ht].
    apply String.eqb_eq in Ht. subst tool.
    cbn in Hin;
      repeat match type of Hin with
             | _ \/ _ => destruct Hin as [Hin|Hin]
             | False => destruct Hin
             end;
      injection Hin as <- <- <- <-; destruct d; try discriminate Hd;
      no_request_with_max Hc args Hnone.
Qed.

(** ** Further properties of the dispatcher *)

Lemma Domain_eqb_eq (a b : Domain) : Domain_eqb a b = true <-> a = b.
Proof. destruct a, b; simpl; split; congruence. Qed.

Lemma grown_refl (l : list Domain) : grown l l.
Proof. split; [apply incl_refl | auto]. Qed.

Lemma grown_trans (a b c : list Domain) : grown a b -> grown b c -> grown a c.
Proof. intros [I1 N1] [I2 N2]. split; [eapply incl_tran; eauto | auto]. Qed.

Lemma quiet_refl (w : World) : quiet w w.
Proof. repeat split; try reflexivity; apply grown_refl. Qed.

Lemma quiet_cache (w0 w : World) (cache : list Domain) :
  quiet w0 w -> grown (domainCache w) cache -> quiet w0 (set_domainCache cache w).
Proof.
  intros (A & B & C & D & E) H. repeat split; cbn; try assumption;
    eapply grown_trans; eauto.
Qed.

Lemma quiet_domain (w0 w : World) (d : option Domain) :
  quiet w0 w -> quiet w0 (set_currentDomain d w).
Proof.
  intros (A & B & C & D & E). unfold quiet. cbn. repeat (split; [assumption|]). exact E.
Qed.

Lemma quiet_step (w0 w : World) : quiet w0 w -> session_step w0 w.
Proof.
  intros (A & B & C & D & E). repeat split; try assumption.
  - exists []. split; [now rewrite app_nil_r | auto].
  - intros c Hc. congruence.
  - apply E.
  - apply E.
Qed.

Lemma loadDomain_grows (d : Domain) (w : World) :
  exists cache,
    loadDomain d w = (Returned (domain_module d), set_domainCache cache w)
    /\ grown (domainCache w) cache /\ In d cache
    /\ (cache = domainCache w \/ cache = (domainCache w ++ [d])%list).
Proof.
  unfold loadDomain, bind, read, write, ret.
  destruct (existsb (Domain_eqb d) (domainCache w)) eqn:E.
  - exists (domainCache w). rewrite set_domainCache_same.
    split; [reflexivity|]. split; [apply grown_refl|]. split; [|now left].
    apply existsb_exists in E as (x & Hx & Hd). apply Domain_eqb_eq in Hd. now subst.
  - exists (domainCache w ++ [d])%list. split; [reflexivity|].
    split; [|split; [apply in_or_app; right; now left | now right]].
    split; [apply incl_appl, incl_refl|].
    intros Hn. apply NoDup_app; [exact Hn | repeat constructor; auto |].
    intros x Hx [<- | []].
    assert (existsb (Domain_eqb d) (domainCache w) = true)
      by (apply existsb_exists; exists d; split; [exact Hx | now apply Domain_eqb_eq]).
    congruence.
Qed.

(** The client itself throws only instances of [Error]: any other thrown
    value comes from [fetch] or from the parsing of the body. *)
Lemma coerced_value {A : Type} (c : option A) (v : value) :
  coerced c <> Threw (ThrownValue v).
Proof. destruct c; discriminate. Qed.

Lemma get_value (x : value) (k : string) (v : value) : get x k <> Threw (ThrownValue v).
Proof. destruct x; discriminate. Qed.

Lemma positive_length_value (x v : value) : positive_length x <> Threw (ThrownValue v).
Proof.
  destruct x as [| | b | f | s | l | o]; try discriminate.
  cbn [positive_length]. destruct (ToNumber (prop o "length")); discriminate.
Qed.

Lemma new_SuperOpsError_value (message code retryAfter v : value) :
  new_SuperOpsError message code retryAfter <> Threw (ThrownValue v).
Proof.
  unfold new_SuperOpsError.
  destruct message as [| | b | f | s | l | o]; try discriminate;
    match goal with
    | |- context [coerced ?c] => destruct c; discriminate
    end.
Qed.

Lemma query_settle_value (o : FetchOutcome) (v : value) :
  query_settle o = Threw (ThrownValue v) -> passed_on o (ThrownValue v).
Proof.
  destruct o as [t|status statusText body]; cbn [query_settle].
  - intros [= ->]. constructor.
  - destruct (response_ok status) eqn:Hok; cbn [negb]; [|discriminate].
    destruct body as [result|t]; [|intros [= ->]; now constructor].
    intros H. exfalso. revert H.
    destruct (get result "errors") as [errors|t] eqn:He; cbn [cbind];
      [|intros [= ->]; now apply get_value in He].
    destruct (if truthy errors then positive_length errors else Returned false)
      as [nonempty|t] eqn:Hn; cbn [cbind].
    + destruct nonempty.
      * destruct (get (first_element errors) "message") as [message|t] eqn:Hm; cbn [cbind];
          [|intros [= ->]; now apply get_value in Hm].
        destruct (new_SuperOpsError message _ _) as [e|t] eqn:Hs; cbn [cbind];
          [discriminate | intros [= ->]; now apply new_SuperOpsError_value in Hs].
      * destruct (negb (truthy (member result "data"))); discriminate.
    + intros [= ->]. destruct (truthy errors); [|discriminate].
      now apply positive_length_value in Hn.
Qed.

(** A [handleCall] run after steps that were quiet. *)
Lemma handleCall_step (d : Domain) (name : string) (args : obj) (w0 w : World)
    (creds : SuperOpsCredentials) :
  getCredentials (env w) = Some creds -> quiet w0 w ->
  exists comp w',
    handleCall (domain_module d) name args w = (comp, w')
    /\ session_step w0 w' /\ currentDomain w' = currentDomain w
    /\ ((exists r, comp = Returned r) \/ escapes w0 w' comp).
Proof.
  intros Hc (A & B & C & D & E).
  destruct (handleCall_issued d name args w creds Hc)
    as [[_ [r ->]] | (q & v & f & _ & ->)]; eexists _, _; (split; [reflexivity|]).
  - split; [|split; [reflexivity | left; now exists r]].
    repeat split; cbn; try assumption; try apply E.
    + exists []. split; [now rewrite app_nil_r | auto].
    + intros c Hc0. rewrite D, Hc0. reflexivity.
  - split; [|split; [reflexivity|]].
    + repeat split; cbn; try assumption; try apply E.
      * eexists. split; [now rewrite C | auto].
      * intros c Hc0. rewrite D, Hc0. reflexivity.
    + destruct (query_settle _) as [x|t] eqn:Hq; [left; now eexists|].
      destruct (caught_cases t) as [[m ->] | [-> (u & -> & Hu)]]; [left; now eexists|].
      right. split; [reflexivity|]. eexists _, u. cbn [sent set_sent set_client].
      split; [now rewrite C|]. split; [|exact Hu].
      apply query_settle_value. rewrite <- B, <- C. exact Hq.
Qed.

Lemma find_in_domains_step (domains : list Domain) (name : string) (args : option obj)
    (w0 w : World) (creds : SuperOpsCredentials) :
  getCredentials (env w) = Some creds -> quiet w0 w ->
  exists comp w',
    find_in_domains domains name args w = (comp, w')
    /\ session_step w0 w'
    /\ currentDomain w'
       = match find (fun d => some_named name (tools (domain_module d))) domains with
         | Some d => Some d
         | None => currentDomain w
         end
    /\ ((exists r, comp = Returned r) \/ escapes w0 w' comp).
Proof.
  revert w. induction domains as [|d rest IH]; intros w Hc Hq.
  - eexists _, w. split; [reflexivity|].
    split; [now apply quiet_step | split; [reflexivity | left; now eexists]].
  - destruct (loadDomain_grows d w) as (cache & Hload & Hg & _).
    cbn [find_in_domains find]. unfold bind at 1. rewrite Hload. cbv zeta.
    destruct (some_named name (tools (domain_module d))).
    + unfold bind at 1, write at 1.
      destruct (handleCall_step d name (match args with Some a => a | None => [] end)
                  w0 (set_currentDomain (Some d) (set_domainCache cache w)) creds Hc)
        as (comp & w' & Hr & Hs & Hd & He).
      { apply quiet_domain. now apply quiet_cache. }
      exists comp, w'. split; [exact Hr|]. split; [exact Hs | split; [exact Hd | exact He]].
    + apply (IH (set_domainCache cache w) Hc). now apply quiet_cache.
Qed.

Lemma not_navigation_tool (name : string) :
  (name =? "superops_test_connection") = false ->
  (name =? "superops_navigate") = false ->
  (name =? "superops_back") = false ->
  is_navigation_tool name = false.
Proof. unfold is_navigation_tool. now intros -> -> ->. Qed.

(** What a call does to the world is a [session_step], the active domain
    it leaves is [next_domain], and it returns a result unless it is a
    call of a domain tool that [escapes]. *)
Lemma callTool_step (name : string) (args : option obj) (w : World) :
  exists comp w',
    callTool name args w = (comp, w')
    /\ session_step w w'
    /\ currentDomain w' = next_domain (currentDomain w) (configured w) name args
    /\ ((exists r, comp = Returned r)
        \/ (is_navigation_tool name = false /\ escapes w w' comp)).
Proof.
  destruct (name =? "superops_test_connection") eqn:E1;
    [|destruct (name =? "superops_navigate") eqn:E2;
      [|destruct (name =? "superops_back") eqn:E3]].
  - apply String.eqb_eq in E1. subst name. rewrite callTool_test_connection.
    change (next_domain (currentDomain w) (configured w) "superops_test_connection" args)
      with (currentDomain w).
    unfold bind at 1, read at 1.
    destruct (getCredentials (env w)) as [creds|] eqn:Hc.
    + unfold try_catch, bind.
      destruct (loadDomain_grows clients w) as (cache & -> & Hg & _).
      destruct (handleCall_step clients "superops_clients_list" [("max", num 1)]
                  w (set_domainCache cache w) creds Hc) as (comp & w' & -> & Hs & Hd & He).
      { apply quiet_cache; [apply quiet_refl | exact Hg]. }
      destruct comp as [r|t].
      * destruct (match isError r with Some b => b | None => false end);
          eexists _, w'; (split; [reflexivity|]);
          (split; [assumption|]); (split; [assumption|]); left; now eexists.
      * destruct He as [[r Hr] | [Ht _]]; [discriminate|].
        injection Ht as ->. eexists _, w'. split; [reflexivity|].
        split; [assumption|]. split; [assumption|]. left. now eexists.
    + eexists _, w. split; [reflexivity|].
      split; [apply quiet_step, quiet_refl | split; [reflexivity | left; now eexists]].
  - apply String.eqb_eq in E2. subst name.
    set (domain := prop (match args with Some a => a | None => [] end) "domain").
    change (next_domain (currentDomain w) (configured w) "superops_navigate" args)
      with (match as_Domain domain with Some d => Some d | None => currentDomain w end).
    destruct (as_Domain domain) as [d|] eqn:E.
    + apply as_Domain_Some in E. rewrite callTool_navigate. cbv zeta. fold domain.
      rewrite E. unfold includes_domain. rewrite as_Domain_name.
      replace (truthy (VStr (domain_name d))) with true by now destruct d.
      cbn [negb orb]. unfold bind at 1. unfold write at 1. unfold bind.
      destruct (loadDomain_grows d (set_currentDomain (Some d) w)) as (cache & -> & Hg & _).
      eexists _, _. split; [reflexivity|]. split; [|split; [reflexivity | left; now eexists]].
      apply quiet_step. apply quiet_cache; [apply quiet_domain, quiet_refl | exact Hg].
    + rewrite navigate_invalid.
      * eexists _, w. split; [reflexivity|].
        split; [apply quiet_step, quiet_refl | split; [reflexivity | left; now eexists]].
      * intros d Hd. fold domain in Hd. rewrite Hd, as_Domain_name in E. discriminate.
  - apply String.eqb_eq in E3. subst name.
    destruct (callTool_back args w) as [msg ->].
    eexists _, _. split; [reflexivity|]. split; [|split; [reflexivity | left; now eexists]].
    apply quiet_step, quiet_domain, quiet_refl.
  - pose proof (not_navigation_tool name E1 E2 E3) as Hnav.
    rewrite (callTool_domain name args Hnav).
    unfold next_domain, configured. rewrite E1, E2, E3.
    unfold bind at 1, read at 1.
    destruct (getCredentials (env w)) as [creds|] eqn:Hc; cbn [negb].
    + unfold bind at 1, read at 1.
      destruct (currentDomain w) as [cur|] eqn:Hcur.
      * unfold bind at 1. unfold bind at 1.
        destruct (loadDomain_grows cur w) as (cache & -> & Hg & _). cbv zeta.
        destruct (some_named name (tools (domain_module cur))) eqn:Hin.
        -- destruct (handleCall_step cur name (match args with Some a => a | None => [] end)
                       w (set_domainCache cache w) creds Hc)
             as (comp & w' & Hr & Hs & Hd & He).
           { apply quiet_cache; [apply quiet_refl | exact Hg]. }
           unfold bind at 1. rewrite Hr.
           destruct comp as [r|t].
           ++ unfold ret at 1. exists (Returned r), w'. split; [reflexivity|].
              split; [exact Hs|]. split; [rewrite Hd; exact Hcur | left; now eexists].
           ++ exists (Threw t), w'. split; [reflexivity|].
              split; [exact Hs|]. split; [rewrite Hd; exact Hcur|].
              destruct He as [[r Hr'] | He]; [discriminate | right; now split].
        -- unfold ret at 1.
           destruct (find_in_domains_step allDomains name args w (set_domainCache cache w)
                       creds Hc) as (comp & w' & Hr & Hs & Hd & He).
           { apply quiet_cache; [apply quiet_refl | exact Hg]. }
           exists comp, w'. split; [exact Hr|]. split; [exact Hs|]. split.
           ++ rewrite Hd. unfold first_domain_with, allDomains.
              cbn [currentDomain set_domainCache]. now rewrite Hcur.
           ++ destruct He as [He | He]; [now left | right; now split].
      * unfold bind at 1, ret at 1.
        destruct (find_in_domains_step allDomains name args w w creds Hc (quiet_refl w))
          as (comp & w' & Hr & Hs & Hd & He).
        exists comp, w'. split; [exact Hr|]. split; [exact Hs|]. split.
        -- rewrite Hd. unfold first_domain_with, allDomains. now rewrite Hcur.
        -- destruct He as [He | He]; [now left | right; now split].
    + eexists _, w. split; [reflexivity|].
      split; [apply quiet_step, quiet_refl | split; [reflexivity | left; now eexists]].
Qed.

Lemma callTool_in_domain (name : string) (args : option obj) (w : World) (d : Domain) :
  is_navigation_tool name = false ->
  getCredentials (env w) <> None ->
  currentDomain w = Some d ->
  some_named name (tools (domain_module d)) = true ->
  exists cache,
    callTool name args w
    = handleCall (domain_module d) name (match args with Some a => a | None => [] end)
        (set_domainCache cache w).
Proof.
  intros Hnav Hcreds Hcur Hin. rewrite (callTool_domain _ _ Hnav).
  unfold bind at 1, read at 1.
  destruct (getCredentials (env w)) as [creds|]; [clear Hcreds | now elim Hcreds].
  unfold bind at 1, read at 1. rewrite Hcur.
  unfold bind at 1. unfold bind at 1.
  destruct (loadDomain_run d w) as [cache ->]. cbv zeta. rewrite Hin.
  unfold bind at 1. exists cache.
  now destruct (handleCall (domain_module d) name _ (set_domainCache cache w)) as [[r|t] w'].
Qed.

(** The catalogs are disjoint from each other and from the navigation
    tools, so each catalogued name is found in its own domain. *)
Lemma catalog_owner (d : Domain) (wanted : string) :
  some_named wanted (tools (domain_module d)) = true ->
  first_domain_with wanted = Some d /\ is_navigation_tool wanted = false.
Proof.
  intros Hin. apply catalog_names in Hin.
  destruct d; cbn in Hin;
    repeat match type of Hin with
           | _ \/ _ => destruct Hin as [Hin|Hin]
           | False => destruct Hin
           end; subst wanted; split; reflexivity.
Qed.

Lemma handleCall_runs_query (d : Domain) (name : string) (args : obj) (w : World)
    (creds : SuperOpsCredentials) (q vars : value) (f : value -> CallToolResult) :
  getCredentials (env w) = Some creds ->
  (forall c w', domain_switch d c name args w'
                = (response <- SuperOpsClient_query c q vars ;; ret (f response)) w') ->
  let client := match _client w with Some c => c | None => new_SuperOpsClient creds end in
  handleCall (domain_module d) name args w
  = (match query_settle (network w (sent w) (build_request client q vars)) with
     | Returned x => Returned (f x)
     | Threw t => caught t
     end,
     set_sent (sent w ++ [build_request client q vars])%list (set_client (Some client) w)).
Proof.
  intros Hc Hsw client.
  destruct (handleCall_run d name args w creds Hc) as (c & Hg & Hrun).
  assert (c = client) as -> by (eapply getClient_which; eauto).
  rewrite Hrun, Hsw. unfold bind. rewrite query_run. cbn [network sent set_client].
  now destruct (query_settle _).
Qed.

(** X6. Without credentials, every call that is not a navigation tool is
    answered with the no-credentials error, and nothing changes: no request
    is sent, no module is loaded, the active domain stays. *)
Theorem credential_gate (name : string) (args : option obj) (w : World) :
  is_navigation_tool name = false ->
  getCredentials (env w) = None ->
  callTool name args w
  = (Returned (error_result
       "Error: No API credentials configured. Please set SUPEROPS_API_TOKEN and SUPEROPS_SUBDOMAIN environment variables."),
     w).
Proof.
  intros Hnav Hc. rewrite (callTool_domain _ _ Hnav).
  unfold bind, read. now rewrite Hc.
Qed.

(** X7. With credentials, a call to a tool of the catalog of domain [d] is
    served by the [handleCall] of [d] from every state, and [d] is the
    active domain afterwards; when [d] was active already, only the module
    cache may differ in the world that [handleCall] starts from. *)
Theorem direct_access (d : Domain) (name : string) (args : option obj) (w : World) :
  getCredentials (env w) <> None ->
  some_named name (tools (domain_module d)) = true ->
  let a := match args with Some a => a | None => [] end in
  exists cache,
    callTool name args w
    = handleCall (domain_module d) name a
        (set_currentDomain (Some d) (set_domainCache cache w))
    /\ currentDomain (snd (callTool name args w)) = Some d
    /\ (currentDomain w = Some d ->
        callTool name args w = handleCall (domain_module d) name a (set_domainCache cache w)).
Proof.
  intros Hcreds Hin a. destruct (catalog_owner d name Hin) as [Hfirst Hnav].
  assert (Hshape : exists cache,
            callTool name args w
            = handleCall (domain_module d) name a
                (set_currentDomain (Some d) (set_domainCache cache w))
            /\ (currentDomain w = Some d ->
                callTool name args w
                = handleCall (domain_module d) name a (set_domainCache cache w))).
  { destruct (belongs_to_active name w) eqn:Hb.
    - unfold belongs_to_active in Hb. destruct (currentDomain w) as [cur|] eqn:Hcur;
        [|discriminate].
      destruct (catalog_owner cur name Hb) as [Hfirst' _].
      assert (cur = d) as -> by congruence.
      destruct (callTool_in_domain name args w d Hnav Hcreds Hcur Hin) as [cache Hcall].
      exists cache. fold a in Hcall. split; [|intros _; exact Hcall].
      rewrite Hcall. f_equal. rewrite <- Hcur.
      symmetry. apply (set_currentDomain_same (set_domainCache cache w)).
    - destruct (callTool_fallback name args w Hnav Hcreds Hb) as [cache Hcall].
      pose proof (find_in_domains_run allDomains name args (set_domainCache cache w)) as Hscan.
      change (find _ allDomains) with (first_domain_with name) in Hscan.
      rewrite Hfirst in Hscan. destruct Hscan as [cache' Hscan].
      exists cache'. split; [now rewrite Hcall, Hscan|].
      intros Hcur. unfold belongs_to_active in Hb. rewrite Hcur, Hin in Hb. discriminate. }
  destruct Hshape as (cache & Hcall & Hsame). exists cache.
  split; [exact Hcall|]. split; [|exact Hsame].
  rewrite Hcall.
  exact (proj2 (proj2 (framed_handleCall d name a
                         (set_currentDomain (Some d) (set_domainCache cache w))))).
Qed.

(** X8. The active domain after a call is [next_domain] of the active
    domain before it, of whether the credentials resolve, and of the name
    and arguments of the call; it does not depend on what the network
    answers. *)
Theorem navigation_state_machine (name : string) (args : option obj) (w : World) :
  currentDomain (snd (callTool name args w))
  = next_domain (currentDomain w) (configured w) name args.
Proof.
  destruct (callTool_step name args w) as (comp & w' & -> & _ & H & _). exact H.
Qed.

(** X9. The handler of tool calls returns a result for every call of a
    navigation tool, and for every other call unless the [catch] block of
    a domain module throws: then the call raises the [TypeError] of the
    coercion, having sent one request which [fetch] or the parsing of the
    body rejected with a value that has no string coercion. *)
Theorem callTool_throws_only_coercion (name : string) (args : option obj) (w : World) :
  (is_navigation_tool name = true -> exists r, fst (callTool name args w) = Returned r)
  /\ ((exists r, fst (callTool name args w) = Returned r)
      \/ (fst (callTool name args w) = Threw cannot_convert
          /\ exists req v,
               issued (callTool name args) w = [req]
               /\ passed_on (network w (sent w) req) (ThrownValue v)
               /\ String_of v = None)).
Proof.
  unfold issued.
  destruct (callTool_step name args w) as (comp & w' & -> & _ & _ & H). cbn [fst snd].
  split.
  - intros Hnav. destruct H as [H | [Hn _]]; [exact H | congruence].
  - destruct H as [H | [_ (Hc & req & v & Hs & Hp & Hv)]]; [now left | right].
    split; [exact Hc|]. exists req, v. rewrite Hs.
    split; [apply (skipn_length_app (sent w)) | now split].
Qed.

Lemma run_calls_step (calls : list Call) (w : World) :
  env (run_calls calls w) = env w
  /\ network (run_calls calls w) = network w
  /\ (exists l, sent (run_calls calls w) = (sent w ++ l)%list
                /\ (List.length l <= List.length calls)%nat)
  /\ (forall c, _client w = Some c -> _client (run_calls calls w) = Some c)
  /\ grown (domainCache w) (domainCache (run_calls calls w)).
Proof.
  revert w. induction calls as [|[name args] rest IH]; intro w; cbn [run_calls].
  - repeat split; try apply incl_refl; auto.
    exists []. split; [now rewrite app_nil_r | auto].
  - destruct (callTool_step name args w) as (comp & w' & -> & Hs & _). cbn [snd].
    destruct Hs as (A & B & (l & Hl & Hn) & D & E).
    destruct (IH w') as (A' & B' & (l' & Hl' & Hn') & D' & E').
    split; [congruence|]. split; [congruence|]. split; [|split].
    + exists (l ++ l')%list. split.
      * now rewrite Hl', Hl, app_assoc.
      * rewrite length_app. cbn [List.length]. lia.
    + intros c Hc. apply D', D, Hc.
    + eapply grown_trans; eauto.
Qed.

(** X10. Over a session of tool calls the environment and the network stay
    as they were, and the request log is only extended, by at most one
    request for each call. *)
Theorem session_requests (calls : list Call) (w : World) :
  env (run_calls calls w) = env w
  /\ network (run_calls calls w) = network w
  /\ exists l, sent (run_calls calls w) = (sent w ++ l)%list
               /\ (List.length l <= List.length calls)%nat.
Proof.
  destruct (run_calls_step calls w) as (A & B & C & _). auto.
Qed.

(** X11. Over a session of tool calls a cached client is never replaced or
    dropped, and the module cache only grows: every domain it held it still
    holds, and it has no duplicates if it had none. *)
Theorem session_caches (calls : list Call) (w : World) :
  (forall c, _client w = Some c -> _client (run_calls calls w) = Some c)
  /\ incl (domainCache w) (domainCache (run_calls calls w))
  /\ (NoDup (domainCache w) -> NoDup (domainCache (run_calls calls w))).
Proof.
  destruct (run_calls_step calls w) as (_ & _ & _ & D & E & F). auto.
Qed.

(** X12. [loadDomain] returns the module of the domain and leaves the
    domain in the cache: the cache is as before when it held the domain,
    else it is extended by it at the end; loading again changes nothing. *)
Theorem loadDomain_memoizes (d : Domain) (w : World) :
  exists cache,
    loadDomain d w = (Returned (domain_module d), set_domainCache cache w)
    /\ In d cache
    /\ (In d (domainCache w) -> cache = domainCache w)
    /\ (~ In d (domainCache w) -> cache = (domainCache w ++ [d])%list)
    /\ loadDomain d (set_domainCache cache w)
       = (Returned (domain_module d), set_domainCache cache w).
Proof.
  assert (Hmem : forall l, existsb (Domain_eqb d) l = true <-> In d l).
  { intro l. rewrite existsb_exists. split.
    - intros (x & Hx & He). apply Domain_eqb_eq in He. now subst.
    - intros H. exists d. split; [exact H | now apply Domain_eqb_eq]. }
  unfold loadDomain, bind, read, write, ret. cbn [domainCache set_domainCache].
  destruct (existsb (Domain_eqb d) (domainCache w)) eqn:E.
  - exists (domainCache w). rewrite set_domainCache_same, E.
    apply Hmem in E. repeat split; auto. intros H. now elim H.
  - exists (domainCache w ++ [d])%list.
    assert (Hin : In d (domainCache w ++ [d])%list) by (apply in_or_app; right; now left).
    rewrite (proj2 (Hmem _) Hin). repeat split; auto.
    intros H. apply Hmem in H. congruence.
Qed.

(** X13. The listed tools follow the state: with no active domain they are
    the connection test and the navigate tool, with domain [d] active the
    connection test, the back tool and the catalog of [d]. The connection
    test is always listed, the navigate tool exactly when no domain is
    active and the back tool exactly when one is; listing leaves the world
    as it was but for the module cache. *)
Theorem listTools_by_state (w : World) :
  exists listed cache,
    listTools w = (Returned listed, set_domainCache cache w)
    /\ (currentDomain w = None -> listed = [testConnectionTool; navigationTool])
    /\ (forall d, currentDomain w = Some d ->
          listed = testConnectionTool :: backTool :: tools (domain_module d))
    /\ some_named "superops_test_connection" listed = true
    /\ (some_named "superops_navigate" listed = true <-> currentDomain w = None)
    /\ (some_named "superops_back" listed = true <-> currentDomain w <> None).
Proof.
  unfold listTools, bind, read. destruct (currentDomain w) as [d|] eqn:Hcur.
  - destruct (loadDomain_run d w) as [cache ->]. unfold ret.
    eexists _, cache. split; [reflexivity|].
    split; [discriminate|]. split; [now intros d' [= <-]|].
    destruct d; (split; [reflexivity|]); split; split; try discriminate;
      try (now intros _); intros H; now vm_compute in H.
  - exists [testConnectionTool; navigationTool], (domainCache w).
    rewrite set_domainCache_same. split; [reflexivity|].
    split; [reflexivity|]. split; [discriminate|]. split; [reflexivity|].
    split; split; try reflexivity; try discriminate. intros H. now elim H.
Qed.

(** X14. The connection test without credentials returns the
    no-credentials error and changes nothing. With credentials it sends
    one request, the clients list query with [first] 1, and returns the
    success text with the subdomain and region when the client returns
    data; when the client throws, it returns the clients module's own
    error result [Error: <message>], or, when the thrown value has no
    string coercion and the clients module itself throws, the error
    [Connection test failed: Cannot convert object to primitive value]. *)
Theorem test_connection_outcome (args : option obj) (w : World) :
  (getCredentials (env w) = None ->
   callTool "superops_test_connection" args w
   = (Returned (error_result no_credentials_text), w))
  /\ (forall creds, getCredentials (env w) = Some creds ->
      let client := match _client w with Some c => c | None => new_SuperOpsClient creds end in
      let req := build_request client (VStr LIST_CLIENTS_QUERY)
                   (VObj [("input", VObj [("first", num 1);
                                          ("orderBy", VObj [("field", VStr "name");
                                                            ("direction", VStr "ASC")])])]) in
      issued (callTool "superops_test_connection" args) w = [req]
      /\ fst (callTool "superops_test_connection" args w)
         = Returned match query_settle (network w (sent w) req) with
                    | Returned _ => text_result (Some (connection_successful creds))
                    | Threw (ThrownError e) => error_result ("Error: " ++ error_message e)
                    | Threw (ThrownValue v) =>
                        match String_of v with
                        | Some s => error_result ("Error: " ++ s)
                        | None =>
                            error_result
                              "Connection test failed: Cannot convert object to primitive value"
                        end
                    end).
Proof.
  split.
  - intros Hc. rewrite callTool_test_connection. unfold bind, read. now rewrite Hc.
  - intros creds Hc client req.
    assert (Hcall : exists cache,
              callTool "superops_test_connection" args w
              = (Returned match query_settle (network w (sent w) req) with
                          | Returned _ => text_result (Some (connection_successful creds))
                          | Threw (ThrownError e) =>
                              error_result ("Error: " ++ error_message e)
                          | Threw (ThrownValue v) =>
                              match String_of v with
                              | Some s => error_result ("Error: " ++ s)
                              | None =>
                                  error_result
                                    "Connection test failed: Cannot convert object to primitive value"
                              end
                          end,
                 set_sent (sent w ++ [req])%list
                   (set_client (Some client) (set_domainCache cache w)))).
    { rewrite callTool_test_connection. unfold bind at 1, read at 1. rewrite Hc.
      unfold try_catch, bind.
      destruct (loadDomain_run clients w) as [cache ->]. exists cache.
      pose proof (handleCall_runs_query clients "superops_clients_list" [("max", num 1)]
                    (set_domainCache cache w) creds (VStr LIST_CLIENTS_QUERY)
                    (VObj [("input", VObj [("first", num 1);
                                           ("orderBy", VObj [("field", VStr "name");
                                                             ("direction", VStr "ASC")])])])
                    (fun x => text_result (stringify (member x "getClientList")))
                    Hc (fun c w' => eq_refl)) as Hr.
      cbv zeta in Hr. cbn [_client network sent set_domainCache] in Hr.
      fold client in Hr. fold req in Hr. rewrite Hr.
      destruct (query_settle (network w (sent w) req)) as [x|[e|v]]; try reflexivity.
      unfold caught. cbn [catch_message]. now destruct (String_of v). }
    destruct Hcall as [cache Hcall]. unfold issued. rewrite Hcall. cbn [fst snd].
    split; [apply (skipn_length_app (sent w)) | reflexivity].
Qed.
(** ** Further properties of the requests *)

Ltac table_cases Hin :=
  cbn in Hin;
  repeat match type of Hin with
         | _ \/ _ => destruct Hin as [Hin|Hin]
         | False => destruct Hin
         end;
  inversion Hin; subst; clear Hin.

Ltac issue_input Hc :=
  match goal with
  | |- exists client q input,
         issued (handleCall (domain_module ?d) ?n ?args) ?w = _ /\ _ =>
      let client := fresh "client" in
      let Hi := fresh "Hi" in
      edestruct (handleCall_issues d n args w) as [client Hi];
      [exact Hc | intros ? ?; reflexivity |];
      exists client; eexists; eexists; split; [exact Hi|]
  end.

(** The requests of a tool, split on what [Math.min] gives for its [max]:
    [found] goes on when one request was issued, recorded as [Hi]. *)
Ltac requests_by_max Hc args Hreq found :=
  let Hf := fresh "Hf" in
  let Hnone := fresh "Hnone" in
  let go default cap :=
    (destruct (Math_min (nullish (prop args "max") (num default)) (num cap)) eqn:Hf;
     [ revert Hreq; issues_first Hc Hf;
       match goal with
       | Hi : issued _ _ = [_] |- _ => rewrite Hi; intros [<- | []]; found
       end
     | match type of Hreq with
       | In _ (issued ?c ?w) =>
           assert (Hnone : issued c w = []) by (refine (proj1 _); no_request Hc Hf)
       end;
       rewrite Hnone in Hreq; destruct Hreq ]) in
  first [go 50%float 500%float | go 20%float 100%float | go 100%float 500%float].

(** X15. Each tool that takes [max] computes [first] as
    [Math.min (max ?? default, cap)] with its own default and cap: a
    numeric [max] of [m] gives the minimum of [m] and the cap, an absent or
    null [max] gives the default, and the computation fails exactly when
    [max] has no numeric coercion. When it gives a number, the tool issues
    one request whose input has that [first]; when it fails, the tool
    issues no request and returns the rendered [TypeError]. *)
Theorem max_is_capped (d : Domain) (tool : string) (default cap : float) (args : obj)
    (w : World) (creds : SuperOpsCredentials) :
  In (d, tool, default, cap) max_bounds ->
  getCredentials (env w) = Some creds ->
  let capped := Math_min (nullish (prop args "max") (num default)) (num cap) in
  (forall first, capped = Some first ->
     exists client q input,
       issued (handleCall (domain_module d) tool args) w
       = [build_request client q (VObj [("input", VObj input)])]
       /\ lookup "first" input = Some first)
  /\ (forall m, prop args "max" = VNum m -> capped = Some (VNum (Math_min_float m cap)))
  /\ (prop args "max" = VUndefined \/ prop args "max" = VNull -> capped = Some (num default))
  /\ (capped = None <-> ToNumber (prop args "max") = None)
  /\ (capped = None ->
      issued (handleCall (domain_module d) tool args) w = []
      /\ fst (handleCall (domain_module d) tool args w)
         = Returned (error_result "Error: Cannot convert object to primitive value")).
Proof.
  intros Hin Hc capped. subst capped.
  split; [|split; [|split; [|split]]].
  - intros first Hf. table_cases Hin; issues_first Hc Hf;
      exists client; eexists; eexists; (split; [exact Hi|]); now lookup_simpl.
  - intros m ->. reflexivity.
  - intros Hm. table_cases Hin; destruct Hm as [-> | ->]; reflexivity.
  - apply Math_min_nullish.
  - intros Hf. table_cases Hin; no_request Hc Hf.
Qed.

(** X16. Every request of the four list tools passes a truthy [cursor] on
    as [after], as it is; without one (or with an empty one) the input has
    no [after] key. Each of them issues one request when its [max] has a
    numeric coercion. *)
Theorem cursor_is_passed_on (d : Domain) (tool : string) (args : obj) (w : World)
    (creds : SuperOpsCredentials) :
  In (d, tool) cursor_tools ->
  getCredentials (env w) = Some creds ->
  (forall req, In req (issued (handleCall (domain_module d) tool args) w) ->
     exists client q input,
       req = build_request client q (VObj [("input", VObj input)])
       /\ lookup "after" input
          = if truthy (prop args "cursor") then Some (prop args "cursor") else None)
  /\ (ToNumber (prop args "max") <> None ->
      exists req, issued (handleCall (domain_module d) tool args) w = [req]).
Proof.
  intros Hin Hc. split.
  - intros req Hreq.
    table_cases Hin;
      requests_by_max Hc args Hreq
        ltac:(eexists; eexists; eexists; (split; [reflexivity|]); lookup_simpl;
              rewrite spread_JSand; destruct (truthy (prop args "cursor"));
              first [apply lookup_set_prop_same | reflexivity]).
  - intros Hmax. table_cases Hin; issues_with_max Hc args Hmax.
Qed.

(** X17. For the tools that build a filter from optional arguments, the
    input of every request has a [filter] key exactly when one of those
    arguments is truthy, and a filter that is sent is never the empty
    object. Each of them issues one request, given a [max] with a numeric
    coercion when it takes one. *)
Theorem empty_filter_is_omitted (d : Domain) (tool : string) (keys : list string)
    (args : obj) (w : World) (creds : SuperOpsCredentials) :
  In (d, tool, keys) filter_arguments ->
  getCredentials (env w) = Some creds ->
  (forall req, In req (issued (handleCall (domain_module d) tool args) w) ->
     exists client q input,
       req = build_request client q (VObj [("input", VObj input)])
       /\ has_key "filter" input = existsb (fun k => truthy (prop args k)) keys
       /\ (forall filter, lookup "filter" input = Some (VObj filter) -> filter <> []))
  /\ ((takes_max d tool = true -> ToNumber (prop args "max") <> None) ->
      exists req, issued (handleCall (domain_module d) tool args) w = [req]).
Proof.
  intros Hin Hc. split.
  - intros req Hreq.
    table_cases Hin;
      first
        [ requests_by_max Hc args Hreq
            ltac:(eexists; eexists; eexists; (split; [reflexivity|]); unfold has_key;
                  lookup_simpl; unfold assign_if; cbn [existsb];
                  repeat match goal with
                         | |- context [truthy ?v] => destruct (truthy v)
                         end;
                  (split; [reflexivity|]); intros filter; cbn; intros [= <-]; discriminate)
        | revert Hreq;
          edestruct (handleCall_issues assets "superops_assets_patches" args w)
            as [client Hi]; [exact Hc | intros ? ?; reflexivity |];
          rewrite Hi; intros [<- | []];
          eexists; eexists; eexists; (split; [reflexivity|]); unfold has_key;
          lookup_simpl; unfold assign_if; cbn [existsb];
          repeat match goal with
                 | |- context [truthy ?v] => destruct (truthy v)
                 end;
          (split; [reflexivity|]); intros filter; cbn; intros [= <-]; discriminate ].
  - intros Hmax. table_cases Hin;
      first [ issues_by_reflexivity Hc
            | specialize (Hmax eq_refl); issues_with_max Hc args Hmax ].
Qed.

(** X18. [superops_clients_search], when [Math.min (max ?? 20, 100)]
    gives a number, sends an input with just that [first] and [filter], the
    filter being the disjunction of [name] and [emailDomains] each
    containing the query as given; it sends no cursor and no ordering.
    When [Math.min] throws, it sends nothing. *)
Theorem clients_search_request (args : obj) (w : World) (creds : SuperOpsCredentials) :
  getCredentials (env w) = Some creds ->
  let capped := Math_min (nullish (prop args "max") (num 20)) (num 100) in
  (forall first, capped = Some first ->
     exists client,
       issued (handleCall getClientsTools "superops_clients_search" args) w
       = [build_request client (VStr SEARCH_CLIENTS_QUERY)
            (VObj [("input", VObj
              [("first", first);
               ("filter", VObj [("or", VArr
                  [VObj [("name", VObj [("contains", prop args "query")])];
                   VObj [("emailDomains", VObj [("contains", prop args "query")])]])])])])])
  /\ (prop args "max" = VUndefined \/ prop args "max" = VNull -> capped = Some (num 20))
  /\ (capped = None ->
      issued (handleCall getClientsTools "superops_clients_search" args) w = []
      /\ fst (handleCall getClientsTools "superops_clients_search" args w)
         = Returned (error_result "Error: Cannot convert object to primitive value")).
Proof.
  intros Hc capped. subst capped. split; [|split].
  - intros first Hf. change getClientsTools with (domain_module clients).
    issues_first Hc Hf. exists client. exact Hi.
  - intros [-> | ->]; reflexivity.
  - intros Hf. change getClientsTools with (domain_module clients). no_request Hc Hf.
Qed.

(** X19. The two ticket mutations with flags default them only when the
    flag is absent or null: [superops_tickets_add_note] sends [isPublic]
    false by default and [superops_tickets_log_time] sends [billable] true
    by default, and a flag given as a boolean, [false] included, is sent as
    given. Their inputs have exactly the keys of the source's literal. *)
Theorem mutation_flag_defaults (args : obj) (w : World) (creds : SuperOpsCredentials) :
  getCredentials (env w) = Some creds ->
  (exists client input,
     issued (handleCall getTicketsTools "superops_tickets_add_note" args) w
     = [build_request client (VStr ADD_TICKET_NOTE_MUTATION) (VObj [("input", VObj input)])]
     /\ Object_keys input = ["ticketId"; "content"; "isPublic"]
     /\ (prop args "isPublic" = VUndefined \/ prop args "isPublic" = VNull ->
         lookup "isPublic" input = Some (VBool false))
     /\ (forall b, prop args "isPublic" = VBool b -> lookup "isPublic" input = Some (VBool b)))
  /\ (exists client input,
     issued (handleCall getTicketsTools "superops_tickets_log_time" args) w
     = [build_request client (VStr ADD_TIME_ENTRY_MUTATION) (VObj [("input", VObj input)])]
     /\ Object_keys input = ["ticketId"; "duration"; "description"; "workType"; "billable"]
     /\ lookup "duration" input = Some (prop args "duration")
     /\ (prop args "billable" = VUndefined \/ prop args "billable" = VNull ->
         lookup "billable" input = Some (VBool true))
     /\ (forall b, prop args "billable" = VBool b -> lookup "billable" input = Some (VBool b))).
Proof.
  intros Hc. split.
  - edestruct (handleCall_issues tickets "superops_tickets_add_note" args w) as [client Hi];
      [exact Hc | intros ? ?; reflexivity |].
    exists client. eexists. split; [exact Hi|]. split; [reflexivity|].
    split; [intros [H|H] | intros b H]; cbn; now rewrite H.
  - edestruct (handleCall_issues tickets "superops_tickets_log_time" args w) as [client Hi];
      [exact Hc | intros ? ?; reflexivity |].
    exists client. eexists. split; [exact Hi|]. split; [reflexivity|].
    split; [reflexivity|].
    split; [intros [H|H] | intros b H]; cbn; now rewrite H.
Qed.

Lemma query_settle_returns_truthy (o : FetchOutcome) (x : value) :
  query_settle o = Returned x -> truthy x = true.
Proof.
  destruct o as [t|status statusText body]; cbn [query_settle]; [discriminate|].
  destruct (negb (response_ok status)); [discriminate|].
  destruct body as [result|t]; [|discriminate].
  destruct (get result "errors") as [errors|t]; cbn [cbind]; [|discriminate].
  destruct (if truthy errors then positive_length errors else Returned false)
    as [nonempty|t]; cbn [cbind]; [|discriminate].
  destruct nonempty.
  - destruct (get _ "message"); cbn [cbind]; [|discriminate].
    destruct (new_SuperOpsError _ _ _); discriminate.
  - destruct (truthy (member result "data")) eqn:Hd; cbn [negb]; [|discriminate].
    now intros [= <-].
Qed.

Lemma stringify_truthy (x : value) :
  truthy x = true -> stringify x = Some (JSON_stringify rt x).
Proof. destruct x; try reflexivity. discriminate. Qed.

(** X20. The custom tools pass their arguments through unchecked: the
    request carries the [query] (or [mutation]) and [variables] arguments
    as given, absent ones as [undefined]; returned data is printed whole,
    and what the client throws goes to the [catch] block: rendered as
    [Error: <message>], or raised as a [TypeError] when it has no string
    coercion. *)
Theorem custom_passthrough (args : obj) (w : World) (creds : SuperOpsCredentials) :
  getCredentials (env w) = Some creds ->
  let client := match _client w with Some c => c | None => new_SuperOpsClient creds end in
  (let req := build_request client (prop args "query") (prop args "variables") in
   issued (handleCall getCustomTools "superops_custom_query" args) w = [req]
   /\ fst (handleCall getCustomTools "superops_custom_query" args w)
      = match query_settle (network w (sent w) req) with
        | Returned x => Returned (text_result (Some (JSON_stringify rt x)))
        | Threw (ThrownError e) => Returned (error_result ("Error: " ++ error_message e))
        | Threw (ThrownValue v) =>
            match String_of v with
            | Some s => Returned (error_result ("Error: " ++ s))
            | None => Threw cannot_convert
            end
        end)
  /\ (let req := build_request client (prop args "mutation") (prop args "variables") in
      issued (handleCall getCustomTools "superops_custom_mutation" args) w = [req]
      /\ fst (handleCall getCustomTools "superops_custom_mutation" args w)
         = match query_settle (network w (sent w) req) with
           | Returned x => Returned (text_result (Some (JSON_stringify rt x)))
           | Threw (ThrownError e) => Returned (error_result ("Error: " ++ error_message e))
           | Threw (ThrownValue v) =>
               match String_of v with
               | Some s => Returned (error_result ("Error: " ++ s))
               | None => Threw cannot_convert
               end
           end).
Proof.
  intros Hc client. split.
  - intro req.
    pose proof (handleCall_runs_query custom "superops_custom_query" args w creds
                  (prop args "query") (prop args "variables")
                  (fun x => text_result (stringify x)) Hc (fun c w' => eq_refl)) as Hr.
    cbv zeta in Hr. fold client in Hr. fold req in Hr.
    change (handleCall (domain_module custom)) with (handleCall getCustomTools) in Hr.
    unfold issued. rewrite Hr. cbn [fst snd sent set_sent].
    split; [apply (skipn_length_app (sent w))|].
    destruct (query_settle (network w (sent w) req)) as [x|[e|v]] eqn:E.
    + now rewrite (stringify_truthy x (query_settle_returns_truthy _ _ E)).
    + reflexivity.
    + unfold caught. cbn [catch_message]. now destruct (String_of v).
  - intro req.
    pose proof (handleCall_runs_query custom "superops_custom_mutation" args w creds
                  (prop args "mutation") (prop args "variables")
                  (fun x => text_result (stringify x)) Hc (fun c w' => eq_refl)) as Hr.
    cbv zeta in Hr. fold client in Hr. fold req in Hr.
    change (handleCall (domain_module custom)) with (handleCall getCustomTools) in Hr.
    unfold issued. rewrite Hr. cbn [fst snd sent set_sent].
    split; [apply (skipn_length_app (sent w))|].
    destruct (query_settle (network w (sent w) req)) as [x|[e|v]] eqn:E.
    + now rewrite (stringify_truthy x (query_settle_returns_truthy _ _ E)).
    + reflexivity.
    + unfold caught. cbn [catch_message]. now destruct (String_of v).
Qed.

Lemma handleCall_shapes_response (d : Domain) (name : string) (args : obj) (w : World)
    (creds : SuperOpsCredentials) (q vars : value) (field : string) :
  getCredentials (env w) = Some creds ->
  (forall c w', domain_switch d c name args w'
                = (response <- SuperOpsClient_query c q vars ;;
                   ret (text_result (stringify (member response field)))) w') ->
  exists req,
    issued (handleCall (domain_module d) name args) w = [req]
    /\ forall x, query_settle (network w (sent w) req) = Returned x ->
         fst (handleCall (domain_module d) name args w)
         = Returned (text_result (stringify (member x field))).
Proof.
  intros Hc Hsw.
  pose proof (handleCall_runs_query d name args w creds q vars
                (fun x => text_result (stringify (member x field))) Hc Hsw) as Hr.
  cbv zeta in Hr. eexists. unfold issued. rewrite Hr. cbn [fst snd sent set_sent].
  split; [apply (skipn_length_app (sent w))|].
  intros x Hx. now rewrite Hx.
Qed.

Ltac shapes_with_max Hc args Hmax :=
  let Hf := fresh "Hf" in
  let go default cap :=
    (destruct (Math_min (nullish (prop args "max") (num default)) (num cap)) eqn:Hf;
     [eapply handleCall_shapes_response;
      [exact Hc | intros ? ?; unfold_switch; rewrite Hf, bind_coerced_Some; reflexivity]
     | apply Math_min_nullish in Hf; now elim Hmax]) in
  first [go 50%float 500%float | go 20%float 100%float | go 100%float 500%float].

(** X21. Each tool of the four entity domains, when it has issued its
    request and the client returns data, returns as its one text block the
    print of the field of that data named for the tool in [result_fields],
    and no error flag; the text is [undefined] when the data has no such
    field. The request is issued given a [priority] that is absent, falsy
    or a string for the two ticket mutations, and a [max] with a numeric
    coercion for the tools that take one. *)
Theorem response_is_passed_through (d : Domain) (tool field : string) (args : obj)
    (w : World) (creds : SuperOpsCredentials) :
  In (d, tool, field) result_fields ->
  getCredentials (env w) = Some creds ->
  (tool = "superops_tickets_create" \/ tool = "superops_tickets_update" ->
   truthy (prop args "priority") = false \/ exists s, prop args "priority" = VStr s) ->
  (takes_max d tool = true -> ToNumber (prop args "max") <> None) ->
  exists req,
    issued (handleCall (domain_module d) tool args) w = [req]
    /\ forall x, query_settle (network w (sent w) req) = Returned x ->
         fst (handleCall (domain_module d) tool args w)
         = Returned {| content := [ {| type_ := "text";
                                       text := stringify (member x field) |} ];
                       isError := None |}
         /\ (member x field = VUndefined -> stringify (member x field) = None).
Proof.
  intros Hin Hc Hp Hmax.
  assert (Hundef : forall x, member x field = VUndefined -> stringify (member x field) = None)
    by (intros x ->; reflexivity).
  assert (Hmain : exists req,
            issued (handleCall (domain_module d) tool args) w = [req]
            /\ forall x, query_settle (network w (sent w) req) = Returned x ->
                 fst (handleCall (domain_module d) tool args w)
                 = Returned (text_result (stringify (member x field)))).
  { table_cases Hin;
      try (eapply handleCall_shapes_response; [exact Hc | intros ? ?; reflexivity]);
      try (specialize (Hmax eq_refl); shapes_with_max Hc args Hmax).
    - destruct Hp as [Hp|[s Hp]]; [now left | |].
      + eapply handleCall_shapes_response; [exact Hc|].
        intros ? ?. unfold_switch. rewrite Hp. reflexivity.
      + destruct (truthy (VStr s)) eqn:Ht;
          (eapply handleCall_shapes_response; [exact Hc|]);
          intros ? ?; unfold_switch; rewrite Hp, Ht; reflexivity.
    - destruct Hp as [Hp|[s Hp]]; [now right | |].
      + eapply handleCall_shapes_response; [exact Hc|].
        intros ? ?. unfold_switch. rewrite Hp. reflexivity.
      + destruct (truthy (VStr s)) eqn:Ht;
          (eapply handleCall_shapes_response; [exact Hc|]);
          intros ? ?; unfold_switch; rewrite Hp, Ht; reflexivity. }
  destruct Hmain as (req & Hi & Hr). exists req. split; [exact Hi|].
  intros x Hx. split; [now apply Hr | apply Hundef].
Qed.

(** ** Samples of the coercions *)

Example String_of_array :
  String_of (VArr [VStr "a"; VNull; VArr [VBool true; VUndefined]; VObj []])
  = Some "a,,true,,[object Object]".
Proof. reflexivity. Qed.

Example String_of_plain_object :
  catch_message (ThrownValue (VObj [("code", num 500); ("message", VStr "Server error")]))
  = Returned "[object Object]".
Proof. reflexivity. Qed.

Example String_of_uncoercible :
  String_of (VArr [VStr "a"; VObj [("toString", VStr "x")]]) = None.
Proof. reflexivity. Qed.

Example Math_min_caps : Math_min (num 1000) (num 500) = Some (num 500).
Proof. reflexivity. Qed.

Example Math_min_of_fraction : Math_min (num 2.5) (num 500) = Some (num 2.5).
Proof. reflexivity. Qed.

Example Math_min_of_uncoercible :
  Math_min (VObj [("toString", VNull)]) (num 500) = None.
Proof. reflexivity. Qed.

Example toUpperCase_critical : toUpperCase "critical" = "CRITICAL".
Proof. reflexivity. Qed.

Example spread_of_falsy :
  spread [("first", num 50)] (JSand (VStr "") (VObj [("after", VStr "")]))
  = [("first", num 50)].
Proof. reflexivity. Qed.

Example query_settle_null_body :
  query_settle (FetchResponded 200 "OK" (JsonParsed VNull))
  = Threw (ThrownError (new_TypeError "Cannot read properties of null (reading 'errors')")).
Proof. reflexivity. Qed.

Example query_settle_first_error :
  query_settle (FetchResponded 200 "OK" (JsonParsed (VObj
    [("errors", VArr [VObj [("message", VStr "Rate limit exceeded");
                            ("extensions", VObj [("code", VStr "RATE_LIMITED");
                                                 ("retryAfter", num 30)])]])])))
  = Threw (ThrownError {| error_name := "SuperOpsError";
                          error_message := "Rate limit exceeded";
                          error_code := VStr "RATE_LIMITED";
                          error_retryAfter := num 30 |}).
Proof. reflexivity. Qed.

End Server.

(** ** The claims on samples *)


Lemma navigate_transitions_witness :
  let w := sample_world (answering VNull) in
  (exists msg w',
     callTool sample_runtime "superops_navigate" (Some [("domain", VStr "tickets")]) w
     = (Returned (text_result (Some msg)), w')
     /\ isError (text_result (Some msg)) = None
     /\ currentDomain w' = Some tickets)
  /\ callTool sample_runtime "superops_navigate" (Some [("domain", VStr "billing")]) w
     = (Returned (error_result
          "Invalid domain. Please choose from: clients, tickets, assets, technicians, custom"), w).
Proof.
  intro w. split.
  - apply (proj1 (navigate_transitions sample_runtime
                    (Some [("domain", VStr "tickets")]) w) tickets).
    reflexivity.
  - apply (proj2 (navigate_transitions sample_runtime
                    (Some [("domain", VStr "billing")]) w)).
    intros d; destruct d; discriminate.
Defined.

Lemma navigate_back_list_witness :
  let w := sample_world (answering (VObj [("getTicketList", VObj [])])) in
  let w1 := snd (callTool sample_runtime "superops_navigate"
                   (Some [("domain", VStr "clients")]) w) in
  let w2 := run_calls sample_runtime
              [("superops_tickets_list", None); ("superops_clients_get", None)] w1 in
  let w3 := snd (callTool sample_runtime "superops_back" None w2) in
  currentDomain w2 = Some clients
  /\ listTools sample_runtime w3 = (Returned [testConnectionTool; navigationTool], w3)
  /\ snd (callTool sample_runtime "superops_back" None w) = w.
Proof.
  intros w w1 w2 w3.
  destruct (navigate_back_list sample_runtime w
              [("superops_tickets_list", None); ("superops_clients_get", None)])
    as (_ & Hlist & _ & Hnoop).
  split; [reflexivity|]. split; [exact Hlist|].
  apply Hnoop. reflexivity.
Defined.

Lemma handleCall_catches_witness :
  let w := sample_world (rejecting (ThrownValue (VStr "String error from API"))) in
  getCredentials (env w) = Some sample_creds
  /\ exists w',
       handleCall (getCustomTools sample_runtime)
         "superops_custom_query" [("query", VStr "{ getClientList }")] w
       = (Returned {| content := [ {| type_ := "text";
                                      text := Some "Error: String error from API" |} ];
                      isError := Some true |}, w').
Proof.
  intro w. split; [reflexivity|].
  destruct (handleCall_catches sample_runtime custom
              "superops_custom_query" [("query", VStr "{ getClientList }")] w
              sample_creds eq_refl) as ((client & Hg & Hm) & _).
  injection Hg as <- _. eexists. exact Hm.
Defined.

(** A rejection of [fetch] with an object whose [toString] property is not
    callable is not rendered: the [handleCall] itself throws. *)
Lemma uncoercible_rejection_escapes :
  let w := sample_world (rejecting (ThrownValue (VObj [("toString", VStr "x")]))) in
  getCredentials (env w) = Some sample_creds
  /\ fst (handleCall (getCustomTools sample_runtime)
            "superops_custom_query" [("query", VStr "{ getClientList }")] w)
     = Threw (ThrownError (new_TypeError "Cannot convert object to primitive value"))
  /\ forall r,
       fst (handleCall (getCustomTools sample_runtime)
              "superops_custom_query" [("query", VStr "{ getClientList }")] w)
       <> Returned r.
Proof.
  intro w. split; [reflexivity|]. split; [reflexivity | discriminate].
Qed.

Lemma clients_list_request_witness :
  let w := sample_world (answering (VObj [("getClientList", VObj [])])) in
  getCredentials (env w) = Some sample_creds
  /\ exists client input,
       issued (handleCall (getClientsTools sample_runtime)
                 "superops_clients_list" [("max", num 1000)]) w
       = [build_request client (VStr LIST_CLIENTS_QUERY) (VObj [("input", VObj input)])]
       /\ lookup "first" input = Some (num 500).
Proof.
  intro w. split; [reflexivity|].
  destruct (clients_list_request sample_runtime [("max", num 1000)] w sample_creds eq_refl)
    as (_ & Hreq & _ & Hmax & _).
  destruct (Hreq (num 500) (Hmax eq_refl)) as (client & input & Hi & Hfirst & _).
  exists client, input. split; [exact Hi | exact Hfirst].
Defined.

Lemma technicians_list_request_witness :
  let w := sample_world (answering (VObj [("getTechnicianList", VObj [])])) in
  getCredentials (env w) = Some sample_creds
  /\ (exists client,
        issued (handleCall (getTechniciansTools sample_runtime)
                  "superops_technicians_list" []) w
        = [build_request client (VStr LIST_TECHNICIANS_QUERY)
             (VObj [("input", VObj
                [("first", num 50);
                 ("filter", VObj [("isActive", VBool true)]);
                 ("orderBy", VObj [("field", VStr "name"); ("direction", VStr "ASC")])])])])
  /\ (exists client input,
        issued (handleCall (getTechniciansTools sample_runtime)
                  "superops_technicians_list" [("activeOnly", VBool false)]) w
        = [build_request client (VStr LIST_TECHNICIANS_QUERY) (VObj [("input", VObj input)])]
        /\ has_key "isActive" input = false
        /\ has_key "filter" input = false).
Proof.
  intro w. split; [reflexivity|]. split.
  - destruct (technicians_list_request sample_runtime [] w sample_creds eq_refl)
      as (Hnone & _).
    exact (Hnone eq_refl).
  - destruct (technicians_list_request sample_runtime
                [("activeOnly", VBool false)] w sample_creds eq_refl)
      as (_ & Hreq & _).
    destruct (Hreq (num 50) eq_refl) as (client & input & Hi & _ & Hoff & Hempty).
    exists client, input. split; [exact Hi|].
    split; [exact (proj1 (Hoff eq_refl)) | exact (Hempty eq_refl eq_refl)].
Defined.

Lemma tickets_list_unassigned_witness :
  let w := sample_world (answering (VObj [("getTicketList", VObj [])])) in
  getCredentials (env w) = Some sample_creds
  /\ prop [("unassigned", VBool true)] "unassigned" = VBool true
  /\ exists client input filter,
       issued (handleCall (getTicketsTools sample_runtime)
                 "superops_tickets_list" [("unassigned", VBool true)]) w
       = [build_request client (VStr LIST_TICKETS_QUERY) (VObj [("input", VObj input)])]
       /\ lookup "filter" input = Some (VObj filter)
       /\ lookup "assignee" filter = Some VNull
       /\ has_key "status" filter = false.
Proof.
  intro w. split; [reflexivity|]. split; [reflexivity|].
  destruct (tickets_list_unassigned sample_runtime
              [("unassigned", VBool true)] w sample_creds eq_refl eq_refl)
    as (Hreq & _).
  destruct (Hreq (num 50) eq_refl) as (client & input & filter & Hi & Hf & Ha & Hs & _).
  exists client, input, filter. repeat (split; [assumption|]). exact (Hs eq_refl).
Defined.



Lemma query_outcomes_witness :
  let this := new_SuperOpsClient sample_creds in
  let q := VStr "{ getClientList }" in
  let down := sample_world (fun _ _ =>
                FetchResponded 500 "Internal Server Error" (JsonRejected (ThrownValue VNull))) in
  let up := sample_world (answering (VObj [("getClientList", VObj [])])) in
  fst (SuperOpsClient_query sample_runtime this q VUndefined down)
  = Threw (ThrownError (new_Error "HTTP error: 500 Internal Server Error"))
  /\ fst (SuperOpsClient_query sample_runtime this q VUndefined up)
     = Returned (VObj [("getClientList", VObj [])]).
Proof.
  intros this q down up. split.
  - apply (proj1 (proj2 (query_outcomes sample_runtime this q VUndefined down))).
    apply (http_failure sample_runtime 500 "Internal Server Error"). reflexivity.
  - apply (proj1 (proj2 (proj2 (query_outcomes sample_runtime this q VUndefined up)))
             200%Z "OK" (VObj [("data", VObj [("getClientList", VObj [])])]) VUndefined);
      [reflexivity | reflexivity | reflexivity | now left | reflexivity].
Defined.

(** A [fetch] that is rejected makes [query] raise an error that is none of
    the three the client raises itself. *)
Lemma rejected_fetch_is_raised :
  let this := new_SuperOpsClient sample_creds in
  let q := VStr "{ getClientList }" in
  let t := ThrownError (new_TypeError "fetch failed") in
  let w := sample_world (rejecting t) in
  fst (SuperOpsClient_query sample_runtime this q VUndefined w) = Threw t
  /\ ~ named_failure sample_runtime (network w (sent w) (build_request this q VUndefined)) t.
Proof.
  intros this q t w. split; [reflexivity|].
  intros H. inversion H.
Qed.

(** ** Further samples *)

Example test_connection_without_credentials :
  let w := {| env := {| SUPEROPS_API_TOKEN := Some "";
                        SUPEROPS_SUBDOMAIN := Some "test-company";
                        SUPEROPS_REGION := None |};
              network := answering VNull; currentDomain := Some tickets;
              domainCache := [tickets]; _client := None; sent := [] |} in
  callTool sample_runtime "superops_test_connection" None w
  = (Returned (error_result no_credentials_text), w).
Proof. reflexivity. Qed.

Example test_connection_probe :
  let w := sample_world (answering (VObj [("getClientList", VObj [])])) in
  let run := callTool sample_runtime "superops_test_connection" None w in
  map body_variables (sent (snd run))
  = [VObj [("input", VObj [("first", num 1);
                           ("orderBy", VObj [("field", VStr "name");
                                             ("direction", VStr "ASC")])])]]
  /\ isError match fst run with Returned r => r | Threw _ => error_result "" end = None
  /\ currentDomain (snd run) = None.
Proof. repeat split. Qed.

Example test_connection_failed :
  let w := sample_world (rejecting (ThrownValue (VObj [("toString", VStr "x")]))) in
  fst (callTool sample_runtime "superops_test_connection" None w)
  = Returned (error_result
      "Connection test failed: Cannot convert object to primitive value").
Proof. reflexivity. Qed.


(** ** The further properties on samples *)

Lemma handleCall_footprint_witness :
  let w := sample_world (answering (VObj [("getTicket", VObj [])])) in
  let w' := snd (handleCall (getTicketsTools sample_runtime)
                   "superops_tickets_get" [("ticketId", VStr "ticket-123")] w) in
  getCredentials (env w) = Some sample_creds
  /\ currentDomain w' = currentDomain w
  /\ _client w' = Some (new_SuperOpsClient sample_creds).
Proof.
  intros w w'. split; [reflexivity|].
  destruct (handleCall_footprint sample_runtime tickets
              "superops_tickets_get" [("ticketId", VStr "ticket-123")] w sample_creds eq_refl)
    as (_ & _ & Hd & _ & _ & Hcl).
  split; [exact Hd | exact Hcl].
Defined.

Lemma getClient_memoizes_witness :
  let w := sample_world (answering VNull) in
  _client w = None /\ getCredentials (env w) = Some sample_creds
  /\ exists w1,
       getClient w = (Returned (new_SuperOpsClient sample_creds), w1)
       /\ _client w1 = Some (new_SuperOpsClient sample_creds)
       /\ getClient w1 = (Returned (new_SuperOpsClient sample_creds), w1).
Proof.
  intro w. split; [reflexivity|]. split; [reflexivity|].
  exact (proj1 (proj2 (proj2 (getClient_memoizes w))) sample_creds eq_refl eq_refl).
Defined.

Lemma handleCall_request_headers_witness :
  let w := sample_world (answering (VObj [("getAsset", VObj [])])) in
  getCredentials (env w) = Some sample_creds
  /\ forall req,
       In req (issued (handleCall (getAssetsTools sample_runtime)
                         "superops_assets_get" [("assetId", VStr "asset-1")]) w) ->
       url req = Url "https://api.superops.ai/msp"
       /\ hdr_Authorization req = "Bearer test-token"
       /\ hdr_CustomerSubDomain req = "test-company".
Proof.
  intro w. split; [reflexivity|]. intros req Hin.
  destruct (handleCall_request_headers sample_runtime assets
              "superops_assets_get" [("assetId", VStr "asset-1")] w sample_creds eq_refl)
    as [Hall _].
  destruct (Hall req Hin) as (Hu & _ & Ha & Hs). auto.
Defined.

Lemma handleCall_renders_failures_witness :
  let w := sample_world (fun _ _ =>
             FetchResponded 500 "Internal Server Error" (JsonRejected (ThrownValue VNull))) in
  let req := build_request (new_SuperOpsClient sample_creds) (VStr GET_CLIENT_QUERY)
               (VObj [("input", VObj [("accountId", VStr "client-123")])]) in
  getCredentials (env w) = Some sample_creds
  /\ issued (handleCall (getClientsTools sample_runtime)
               "superops_clients_get" [("accountId", VStr "client-123")]) w = [req]
  /\ fst (handleCall (getClientsTools sample_runtime)
            "superops_clients_get" [("accountId", VStr "client-123")] w)
     = Returned (error_result "Error: HTTP error: 500 Internal Server Error").
Proof.
  intros w req. split; [reflexivity|]. split; [reflexivity|].
  destruct (handleCall_renders_failures sample_runtime clients
              "superops_clients_get" [("accountId", VStr "client-123")] w sample_creds req
              eq_refl eq_refl) as (_ & Hhttp & _).
  exact (Hhttp 500%Z "Internal Server Error" (JsonRejected (ThrownValue VNull))
           eq_refl eq_refl).
Defined.

Lemma catalog_matches_switch_witness :
  let w := sample_world (answering (VObj [("getClient", VObj [])])) in
  getCredentials (env w) = Some sample_creds
  /\ (fst (handleCall (getClientsTools sample_runtime) "superops_tickets_get" [] w)
      = Returned (error_result "Unknown clients tool: superops_tickets_get")
      /\ issued (handleCall (getClientsTools sample_runtime) "superops_tickets_get" []) w
         = [])
  /\ (exists req,
        issued (handleCall (getClientsTools sample_runtime) "superops_clients_get" []) w
        = [req])
  /\ issued (handleCall (getClientsTools sample_runtime) "superops_clients_list"
               [("max", VObj [("toString", VNull)])]) w = [].
Proof.
  intro w. split; [reflexivity|].
  destruct (catalog_matches_switch sample_runtime clients
              "superops_tickets_get" [] w sample_creds eq_refl) as (Hout & _).
  destruct (catalog_matches_switch sample_runtime clients
              "superops_clients_get" [] w sample_creds eq_refl) as (_ & Hin & _).
  destruct (catalog_matches_switch sample_runtime clients
              "superops_clients_list" [("max", VObj [("toString", VNull)])] w
              sample_creds eq_refl) as (_ & _ & Hmax).
  split; [exact (Hout eq_refl)|]. split.
  - apply (Hin eq_refl); [intros [H|H]; discriminate H | intros H; discriminate H].
  - exact (proj1 (Hmax eq_refl eq_refl)).
Defined.

Lemma credential_gate_witness :
  let w := {| env := {| SUPEROPS_API_TOKEN := None;
                        SUPEROPS_SUBDOMAIN := Some "test-company";
                        SUPEROPS_REGION := None |};
              network := answering VNull; currentDomain := Some tickets;
              domainCache := [tickets]; _client := None; sent := [] |} in
  is_navigation_tool "superops_tickets_list" = false
  /\ getCredentials (env w) = None
  /\ callTool sample_runtime "superops_tickets_list" None w
     = (Returned (error_result
          "Error: No API credentials configured. Please set SUPEROPS_API_TOKEN and SUPEROPS_SUBDOMAIN environment variables."),
        w).
Proof.
  intro w. split; [reflexivity|]. split; [reflexivity|].
  apply (credential_gate sample_runtime); reflexivity.
Defined.

Lemma direct_access_witness :
  let w := set_currentDomain (Some clients)
             (sample_world (answering (VObj [("getAssetList", VObj [])]))) in
  getCredentials (env w) <> None
  /\ some_named "superops_assets_list"
       (tools (domain_module sample_runtime assets)) = true
  /\ currentDomain (snd (callTool sample_runtime
                           "superops_assets_list" None w)) = Some assets.
Proof.
  intro w.
  assert (H1 : getCredentials (env w) <> None) by (vm_compute; discriminate).
  split; [exact H1|]. split; [reflexivity|].
  destruct (direct_access sample_runtime assets
              "superops_assets_list" None w H1 eq_refl) as (cache & _ & Hd & _).
  exact Hd.
Defined.

Lemma callTool_throws_only_coercion_witness :
  let w := sample_world (rejecting (ThrownValue (VObj [("toString", VStr "x")]))) in
  is_navigation_tool "superops_test_connection" = true
  /\ exists r, fst (callTool sample_runtime "superops_test_connection" None w) = Returned r.
Proof.
  intro w. split; [reflexivity|].
  exact (proj1 (callTool_throws_only_coercion sample_runtime
                  "superops_test_connection" None w) eq_refl).
Defined.

Lemma session_caches_witness :
  let w := sample_world (answering (VObj [("getClientList", VObj [])])) in
  let calls := [("superops_clients_list", None); ("no_such_tool", None);
                ("superops_navigate", Some [("domain", VStr "custom")])] in
  NoDup (domainCache w)
  /\ NoDup (domainCache (run_calls sample_runtime calls w))
  /\ domainCache (run_calls sample_runtime calls w)
     = [clients; tickets; assets; technicians; custom].
Proof.
  intros w calls.
  assert (H : NoDup (domainCache w)) by constructor.
  split; [exact H|]. split; [|reflexivity].
  exact (proj2 (proj2 (session_caches sample_runtime calls w)) H).
Defined.

Lemma loadDomain_memoizes_witness :
  let w := set_domainCache [tickets] (sample_world (answering VNull)) in
  ~ In clients (domainCache w)
  /\ domainCache (snd (loadDomain sample_runtime clients w))
     = [tickets; clients].
Proof.
  intro w.
  assert (H : ~ In clients (domainCache w)) by (intros [H|[]]; discriminate H).
  split; [exact H|].
  destruct (loadDomain_memoizes sample_runtime clients w)
    as (cache & Hl & _ & _ & Hnew & _).
  rewrite Hl. cbn [snd domainCache set_domainCache]. exact (Hnew H).
Defined.

Lemma listTools_by_state_witness :
  let w := set_currentDomain (Some custom) (sample_world (answering VNull)) in
  currentDomain w = Some custom
  /\ map name (match fst (listTools sample_runtime w) with
               | Returned l => l
               | Threw _ => []
               end)
     = ["superops_test_connection"; "superops_back";
        "superops_custom_query"; "superops_custom_mutation"].
Proof.
  intro w. split; [reflexivity|].
  destruct (listTools_by_state sample_runtime w)
    as (listed & cache & Hl & _ & Hd & _).
  rewrite Hl. cbn [fst]. now rewrite (Hd custom eq_refl).
Defined.

Lemma test_connection_outcome_witness :
  let w := sample_world (answering (VObj [("getClientList", VObj [])])) in
  getCredentials (env w) = Some sample_creds
  /\ fst (callTool sample_runtime "superops_test_connection" None w)
     = Returned (text_result (Some (connection_successful sample_creds))).
Proof.
  intro w. split; [reflexivity|].
  destruct (test_connection_outcome sample_runtime None w) as [_ H].
  destruct (H sample_creds eq_refl) as [_ Hr]. exact Hr.
Defined.

Lemma max_is_capped_witness :
  let w := sample_world (answering (VObj [("getAssetSoftwareList", VObj [])])) in
  let args := [("assetId", VStr "asset-1"); ("max", num 0)] in
  In (assets, "superops_assets_software", 100%float, 500%float) max_bounds
  /\ getCredentials (env w) = Some sample_creds
  /\ exists client q input,
       issued (handleCall (getAssetsTools sample_runtime)
                 "superops_assets_software" args) w
       = [build_request client q (VObj [("input", VObj input)])]
       /\ lookup "first" input = Some (num 0).
Proof.
  intros w args.
  assert (Hin : In (assets, "superops_assets_software", 100%float, 500%float) max_bounds)
    by (cbn; tauto).
  split; [exact Hin|]. split; [reflexivity|].
  destruct (max_is_capped sample_runtime assets
              "superops_assets_software" 100%float 500%float args w sample_creds Hin eq_refl)
    as (Hreq & Hm & _).
  exact (Hreq (num 0) (Hm 0%float eq_refl)).
Defined.

Lemma cursor_is_passed_on_witness :
  let w := sample_world (answering (VObj [("getTicketList", VObj [])])) in
  let args := [("cursor", VStr "cursor-abc")] in
  In (tickets, "superops_tickets_list") cursor_tools
  /\ getCredentials (env w) = Some sample_creds
  /\ exists req client q input,
       issued (handleCall (getTicketsTools sample_runtime)
                 "superops_tickets_list" args) w = [req]
       /\ req = build_request client q (VObj [("input", VObj input)])
       /\ lookup "after" input = Some (VStr "cursor-abc").
Proof.
  intros w args.
  assert (Hin : In (tickets, "superops_tickets_list") cursor_tools) by (cbn; tauto).
  split; [exact Hin|]. split; [reflexivity|].
  destruct (cursor_is_passed_on sample_runtime tickets
              "superops_tickets_list" args w sample_creds Hin eq_refl) as (Hall & Hone).
  destruct Hone as (req & Hi); [discriminate|].
  destruct (Hall req) as (client & q & input & Hr & Ha).
  { rewrite Hi. now left. }
  exists req, client, q, input. auto.
Defined.

Lemma empty_filter_is_omitted_witness :
  let w := sample_world (answering (VObj [("getAssetPatchDetails", VObj [])])) in
  let args := [("assetId", VStr "asset-1"); ("status", VStr "")] in
  In (assets, "superops_assets_patches", ["status"; "severity"]) filter_arguments
  /\ getCredentials (env w) = Some sample_creds
  /\ exists req client q input,
       issued (handleCall (getAssetsTools sample_runtime)
                 "superops_assets_patches" args) w = [req]
       /\ req = build_request client q (VObj [("input", VObj input)])
       /\ has_key "filter" input = false.
Proof.
  intros w args.
  assert (Hin : In (assets, "superops_assets_patches", ["status"; "severity"])
                   filter_arguments) by (cbn; tauto).
  split; [exact Hin|]. split; [reflexivity|].
  destruct (empty_filter_is_omitted sample_runtime assets
              "superops_assets_patches" ["status"; "severity"] args w sample_creds
              Hin eq_refl) as (Hall & Hone).
  destruct Hone as (req & Hi); [intros H; discriminate H|].
  destruct (Hall req) as (client & q & input & Hr & Hk & _).
  { rewrite Hi. now left. }
  exists req, client, q, input. auto.
Defined.

Lemma clients_search_request_witness :
  let w := sample_world (answering (VObj [("getClientList", VObj [])])) in
  getCredentials (env w) = Some sample_creds
  /\ exists client,
       issued (handleCall (getClientsTools sample_runtime)
                 "superops_clients_search" [("query", VStr "acme")]) w
       = [build_request client (VStr SEARCH_CLIENTS_QUERY)
            (VObj [("input", VObj
              [("first", num 20);
               ("filter", VObj [("or", VArr
                  [VObj [("name", VObj [("contains", VStr "acme")])];
                   VObj [("emailDomains", VObj [("contains", VStr "acme")])]])])])])].
Proof.
  intro w. split; [reflexivity|].
  destruct (clients_search_request sample_runtime
              [("query", VStr "acme")] w sample_creds eq_refl) as (Hreq & Hdefault & _).
  exact (Hreq (num 20) (Hdefault (or_introl eq_refl))).
Defined.

Lemma mutation_flag_defaults_witness :
  let w := sample_world (answering (VObj [("addTicketTimeEntry", VObj [])])) in
  let args := [("ticketId", VStr "ticket-123"); ("duration", num 30);
               ("billable", VBool false)] in
  getCredentials (env w) = Some sample_creds
  /\ exists client input,
       issued (handleCall (getTicketsTools sample_runtime)
                 "superops_tickets_log_time" args) w
       = [build_request client (VStr ADD_TIME_ENTRY_MUTATION) (VObj [("input", VObj input)])]
       /\ lookup "billable" input = Some (VBool false).
Proof.
  intros w args. split; [reflexivity|].
  destruct (mutation_flag_defaults sample_runtime args w sample_creds
              eq_refl) as [_ (client & input & Hi & _ & _ & _ & Hb)].
  exists client, input. split; [exact Hi | exact (Hb false eq_refl)].
Defined.

Lemma custom_passthrough_witness :
  let w := sample_world (answering (VObj [("ping", VBool true)])) in
  getCredentials (env w) = Some sample_creds
  /\ issued (handleCall (getCustomTools sample_runtime) "superops_custom_query" []) w
     = [build_request (new_SuperOpsClient sample_creds) VUndefined VUndefined]
  /\ fst (handleCall (getCustomTools sample_runtime) "superops_custom_query" [] w)
     = Returned (text_result
         (Some (JSON_stringify sample_runtime (VObj [("ping", VBool true)])))).
Proof.
  intro w. split; [reflexivity|].
  exact (proj1 (custom_passthrough sample_runtime [] w sample_creds eq_refl)).
Defined.

Lemma response_is_passed_through_witness :
  let w := sample_world (answering (VObj [("somethingElse", VObj [])])) in
  let args := [("technicianId", VStr "tech-456")] in
  In (technicians, "superops_technicians_get", "getTechnician") result_fields
  /\ getCredentials (env w) = Some sample_creds
  /\ fst (handleCall (getTechniciansTools sample_runtime)
            "superops_technicians_get" args w)
     = Returned {| content := [ {| type_ := "text"; text := None |} ]; isError := None |}.
Proof.
  intros w args.
  assert (Hin : In (technicians, "superops_technicians_get", "getTechnician") result_fields)
    by (cbn; tauto).
  split; [exact Hin|]. split; [reflexivity|].
  destruct (response_is_passed_through sample_runtime technicians
              "superops_technicians_get" "getTechnician" args w sample_creds Hin eq_refl)
    as (req & Hi & Hr).
  { intros [H|H]; discriminate H. }
  { intros H; discriminate H. }
  injection Hi as <-.
  exact (proj1 (Hr (VObj [("somethingElse", VObj [])]) eq_refl)).
Defined.
